(** * rom-properties: format decoders of libromdata

    A shallow embedding of the decoders for the Atari SAP audio header
    ([Audio/SAP.cpp]), the Xbox 360 XDBF resource container
    ([Console/Xbox360_XDBF.cpp]), the Xbox 360 XEX executable
    ([Console/Xbox360_XEX.cpp]) and the Nintendo 3DS containers
    ([Nintendo3DS.cpp]), followed by the properties proved about them.

    Conventions used throughout:
    - a byte is a [Z] in [0, 256); a buffer or a file is a [list Z];
    - fixed-width unsigned arithmetic is written with its wrap-around
      ([u16], [u32]);
    - the host is little-endian ([SYS_BYTEORDER == SYS_LIL_ENDIAN]), the
      configuration in which the byte-swapping branches of the sources are
      compiled;
    - [IRpFile] is a collaborator of the decoders: a file is its contents,
      and [seekAndRead] returns the bytes that lie inside the file;
    - [assert]s are compiled out ([NDEBUG]); what a short read leaves in
      its destination is tracked only where the decoder keeps using it. *)

From Stdlib Require Import ZArith Lia Ascii String.
From stdpp Require Import base option list gmap.

Local Open Scope Z_scope.

(** ** Bytes, words and files *)

(** The bytes of an ASCII literal. *)
Definition ascii_bytes (s : string) : list Z :=
  map (fun a => Z.of_N (N_of_ascii a)) (list_ascii_of_string s).

Definition u8 (x : Z) : Z := x mod 2^8.
Definition u16 (x : Z) : Z := x mod 2^16.
Definition u32 (x : Z) : Z := x mod 2^32.

(** [buf[i]], with the byte 0 outside the buffer. *)
Definition byte_at (buf : list Z) (i : nat) : Z := nth i buf 0.

(** [memcmp(buf + off, pat, |pat|) == 0]; bytes past the end of [buf]
    never match. *)
Definition mem_eq (buf : list Z) (off : nat) (pat : list Z) : bool :=
  bool_decide (take (length pat) (drop off buf) = pat).

(** Modelled from the spec: [IRpFile::seekAndRead(pos, buf, size)] of
    librpbase, which is not among the sources.  A read is bounds-checked
    against the length of the file and a read that crosses the end is
    truncated: the result is the bytes of the file in [pos, pos+size), cut
    at the end of the file, and the caller compares their number with
    [size]. *)
Definition seekAndRead (file : list Z) (pos size : Z) : list Z :=
  if (pos <? 0) || (size <? 0) then []
  else take (Z.to_nat size) (drop (Z.to_nat pos) file).

(** Little-endian value of a byte string: what the host reads from a
    multi-byte member laid over these bytes. *)
Fixpoint le_decode (bs : list Z) : Z :=
  match bs with
  | [] => 0
  | b :: r => b + 256 * le_decode r
  end.

(** The [n] bytes of [x] in memory order on the host. *)
Fixpoint le_encode (n : nat) (x : Z) : list Z :=
  match n with
  | O => []
  | S n' => x mod 256 :: le_encode n' (x / 256)
  end.

(** [__swab16], [__swab32], [__swab64]: the value with its [n] bytes
    reversed. *)
Definition bswap (n : nat) (x : Z) : Z := le_decode (rev (le_encode n x)).

(** Modelled from the spec: the byte-order macros of librpbase's
    [byteswap.h], which is not among the sources, on the little-endian
    host: big-endian fields are byte-swapped, little-endian fields are
    read as they are. *)
Definition be16_to_cpu := bswap 2.
Definition cpu_to_be16 := bswap 2.
Definition be32_to_cpu := bswap 4.
Definition cpu_to_be32 := bswap 4.
Definition be64_to_cpu := bswap 8.
Definition cpu_to_be64 := bswap 8.
Definition le16_to_cpu (x : Z) : Z := x.
Definition le32_to_cpu (x : Z) : Z := x.

(** The member of width [w] bytes at offset [off] of a structure laid over
    [buf], as the host reads it; bytes missing from [buf] read as 0. *)
Definition field (buf : list Z) (off w : nat) : Z :=
  le_decode (take w (drop off buf ++ replicate w 0)).

(** A multi-character constant such as ['XDBF']: the first character is the
    most significant byte. *)
Definition multichar (s : string) : Z := le_decode (rev (ascii_bytes s)).

(** The outcome of code that uses a buffer or a pointer without the test
    that would make the use safe: either it completes, or it accesses
    [size] bytes at [off] of a buffer of [buflen] bytes that does not hold
    them, or it calls a member function through a null pointer.  The last
    two have no defined result. *)
Inductive outcome (A : Type) :=
| Done (a : A)
| OutOfBounds (off size buflen : Z)
| NullDeref.
Arguments Done {A} a.
Arguments OutOfBounds {A} off size buflen.
Arguments NullDeref {A}.

(** The error numbers of the C library's [<errno.h>] that the loaders
    return negated. *)
Definition ENOENT : Z := 2.
Definition EIO : Z := 5.
Definition EBADF : Z := 9.


Module RomData.

(** [RomData::DetectInfo].  [pData] and [ext] are pointers and may be
    null. *)
Record DetectInfo := mkDetectInfo {
  header_addr : Z;
  header_size : Z;
  header_pData : option (list Z);
  ext : option (list Z);
  szFile : Z
}.

End RomData.

(** ** Atari SAP ([Audio/SAP.cpp]) *)

Module SAP.

(** [long] is 64 bits wide on LP64 hosts and 32 bits wide on LLP64 hosts. *)
Inductive DataModel := LP64 | LLP64.

Definition LONG_MAX (dm : DataModel) : Z :=
  match dm with LP64 => 2^63 - 1 | LLP64 => 2^31 - 1 end.
Definition LONG_MIN (dm : DataModel) : Z := - LONG_MAX dm - 1.

(** [ISSPACE] of librpbase's [ctypex.h] (not among the sources):
    [isspace] of the C library on an unsigned char, in the "C" locale. *)
Definition ISSPACE (c : Z) : bool := (c =? 32) || ((9 <=? c) && (c <=? 13)).

(** [tolower] in the "C" locale. *)
Definition tolower (c : Z) : Z :=
  if (65 <=? c) && (c <=? 90) then c + 32 else c.

(** [strcasecmp(a, b) == 0] on two C strings. *)
Definition strcaseeq (a b : list Z) : bool :=
  bool_decide (map tolower a = map tolower b).

(** Value of a digit of [strtol] in the given base. *)
Definition digit_val (base c : Z) : option Z :=
  let v := if (48 <=? c) && (c <=? 57) then c - 48
           else if (97 <=? c) && (c <=? 122) then c - 97 + 10
           else if (65 <=? c) && (c <=? 90) then c - 65 + 10
           else 36 in
  if v <? base then Some v else None.

(** The digit loop of [strtol]: accumulated magnitude and number of
    characters consumed. *)
Fixpoint strtol_digits (base : Z) (s : list Z) (acc : Z) (n : nat) : Z * nat :=
  match s with
  | c :: s' =>
      match digit_val base c with
      | Some v => strtol_digits base s' (acc * base + v) (S n)
      | None => (acc, n)
      end
  | [] => (acc, n)
  end.

Fixpoint skip_space (s : list Z) (n : nat) : list Z * nat :=
  match s with
  | c :: s' => if ISSPACE c then skip_space s' (S n) else (s, n)
  | [] => (s, n)
  end.

(** [strtol(s, &endptr, base)] for [base] 10 or 16: the value and
    [endptr - s].  White space and a sign are skipped, base 16 accepts a
    [0x] prefix, the value saturates at [LONG_MAX] / [LONG_MIN], and when
    no digit is converted the value is 0 and [endptr == s] (after a bare
    [0x], [endptr] is at the [x]). *)
Definition strtol (dm : DataModel) (s : list Z) (base : Z) : Z * nat :=
  let '(s1, n1) := skip_space s 0 in
  let '(neg, s2, n2) :=
    match s1 with
    | c :: r =>
        if c =? 45 then (true, r, S n1)
        else if c =? 43 then (false, r, S n1)
        else (false, s1, n1)
    | [] => (false, s1, n1)
    end in
  let '(pfx, s3, n3) :=
    match s2 with
    | c :: x :: r =>
        if (base =? 16) && (c =? 48) && ((x =? 120) || (x =? 88))
        then (true, r, S (S n2)) else (false, s2, n2)
    | _ => (false, s2, n2)
    end in
  let '(mag, n4) := strtol_digits base s3 0 n3 in
  if (n4 =? n3)%nat then
    if pfx then (0, S n2) else (0, 0%nat)
  else if neg then
    (if mag >? - LONG_MIN dm then LONG_MIN dm else - mag, n4)
  else
    (if mag >? LONG_MAX dm then LONG_MAX dm else mag, n4).

(** Parsed tags: [SAPPrivate::TagData].  The 8-bit members are kept as
    bytes; [author], [name] and [date] hold the converted strings. *)
Record TagData := mkTagData {
  tags_read : bool;
  author : list Z;
  name : list Z;
  date : list Z;
  songs : Z;
  def_song : Z;
  ntsc : bool;
  stereo : bool;
  type : Z;
  fastplay : Z;
  init_addr : Z;
  music_addr : Z;
  player_addr : Z;
  covox_addr : Z
}.

(** [TagData::TagData()]. *)
Definition TagData_init : TagData :=
  {| tags_read := false; author := []; name := []; date := [];
     songs := 1; def_song := 0; ntsc := false; stereo := false;
     type := 0; fastplay := 0; init_addr := 0; music_addr := 0;
     player_addr := 0; covox_addr := 0 |}.

Definition set_tags_read (b : bool) (t : TagData) : TagData :=
  mkTagData b (author t) (name t) (date t) (songs t) (def_song t) (ntsc t)
    (stereo t) (type t) (fastplay t) (init_addr t) (music_addr t)
    (player_addr t) (covox_addr t).
Definition set_author (v : list Z) (t : TagData) : TagData :=
  mkTagData (tags_read t) v (name t) (date t) (songs t) (def_song t) (ntsc t)
    (stereo t) (type t) (fastplay t) (init_addr t) (music_addr t)
    (player_addr t) (covox_addr t).
Definition set_name (v : list Z) (t : TagData) : TagData :=
  mkTagData (tags_read t) (author t) v (date t) (songs t) (def_song t) (ntsc t)
    (stereo t) (type t) (fastplay t) (init_addr t) (music_addr t)
    (player_addr t) (covox_addr t).
Definition set_date (v : list Z) (t : TagData) : TagData :=
  mkTagData (tags_read t) (author t) (name t) v (songs t) (def_song t) (ntsc t)
    (stereo t) (type t) (fastplay t) (init_addr t) (music_addr t)
    (player_addr t) (covox_addr t).
Definition set_songs (v : Z) (t : TagData) : TagData :=
  mkTagData (tags_read t) (author t) (name t) (date t) v (def_song t) (ntsc t)
    (stereo t) (type t) (fastplay t) (init_addr t) (music_addr t)
    (player_addr t) (covox_addr t).
Definition set_def_song (v : Z) (t : TagData) : TagData :=
  mkTagData (tags_read t) (author t) (name t) (date t) (songs t) v (ntsc t)
    (stereo t) (type t) (fastplay t) (init_addr t) (music_addr t)
    (player_addr t) (covox_addr t).
Definition set_ntsc (v : bool) (t : TagData) : TagData :=
  mkTagData (tags_read t) (author t) (name t) (date t) (songs t) (def_song t) v
    (stereo t) (type t) (fastplay t) (init_addr t) (music_addr t)
    (player_addr t) (covox_addr t).
Definition set_stereo (v : bool) (t : TagData) : TagData :=
  mkTagData (tags_read t) (author t) (name t) (date t) (songs t) (def_song t)
    (ntsc t) v (type t) (fastplay t) (init_addr t) (music_addr t)
    (player_addr t) (covox_addr t).
Definition set_type (v : Z) (t : TagData) : TagData :=
  mkTagData (tags_read t) (author t) (name t) (date t) (songs t) (def_song t)
    (ntsc t) (stereo t) v (fastplay t) (init_addr t) (music_addr t)
    (player_addr t) (covox_addr t).
Definition set_fastplay (v : Z) (t : TagData) : TagData :=
  mkTagData (tags_read t) (author t) (name t) (date t) (songs t) (def_song t)
    (ntsc t) (stereo t) (type t) v (init_addr t) (music_addr t)
    (player_addr t) (covox_addr t).
Definition set_init_addr (v : Z) (t : TagData) : TagData :=
  mkTagData (tags_read t) (author t) (name t) (date t) (songs t) (def_song t)
    (ntsc t) (stereo t) (type t) (fastplay t) v (music_addr t)
    (player_addr t) (covox_addr t).
Definition set_music_addr (v : Z) (t : TagData) : TagData :=
  mkTagData (tags_read t) (author t) (name t) (date t) (songs t) (def_song t)
    (ntsc t) (stereo t) (type t) (fastplay t) (init_addr t) v
    (player_addr t) (covox_addr t).
Definition set_player_addr (v : Z) (t : TagData) : TagData :=
  mkTagData (tags_read t) (author t) (name t) (date t) (songs t) (def_song t)
    (ntsc t) (stereo t) (type t) (fastplay t) (init_addr t) (music_addr t)
    v (covox_addr t).
Definition set_covox_addr (v : Z) (t : TagData) : TagData :=
  mkTagData (tags_read t) (author t) (name t) (date t) (songs t) (def_song t)
    (ntsc t) (stereo t) (type t) (fastplay t) (init_addr t) (music_addr t)
    (player_addr t) v.

(** [enum KeywordType]. *)
Inductive KeywordType :=
  KT_UNKNOWN | KT_BOOL | KT_UINT16_DEC | KT_UINT16_HEX | KT_CHAR | KT_STRING
| KT_TIME_LOOP.

(** The data pointer of a [KeywordDef]: the member of [tags] it addresses. *)
Inductive TagPtr :=
  P_author | P_name | P_date | P_songs | P_def_song | P_stereo | P_ntsc
| P_type | P_fastplay | P_init_addr | P_music_addr | P_player_addr
| P_covox_addr.

Record KeywordDef := mkKeywordDef {
  keyword : list Z;
  kw_type : KeywordType;
  ptr : TagPtr
}.

(** The table [kwds] of [parseTags], without its null terminator. *)
Definition kwds : list KeywordDef :=
  [ mkKeywordDef (ascii_bytes "AUTHOR") KT_STRING P_author;
    mkKeywordDef (ascii_bytes "NAME") KT_STRING P_name;
    mkKeywordDef (ascii_bytes "DATE") KT_STRING P_date;
    mkKeywordDef (ascii_bytes "SONGS") KT_UINT16_DEC P_songs;
    mkKeywordDef (ascii_bytes "DEFSONG") KT_UINT16_DEC P_def_song;
    mkKeywordDef (ascii_bytes "STEREO") KT_BOOL P_stereo;
    mkKeywordDef (ascii_bytes "NTSC") KT_BOOL P_ntsc;
    mkKeywordDef (ascii_bytes "TYPE") KT_CHAR P_type;
    mkKeywordDef (ascii_bytes "FASTPLAY") KT_UINT16_DEC P_fastplay;
    mkKeywordDef (ascii_bytes "INIT") KT_UINT16_HEX P_init_addr;
    mkKeywordDef (ascii_bytes "MUSIC") KT_UINT16_HEX P_music_addr;
    mkKeywordDef (ascii_bytes "PLAYER") KT_UINT16_HEX P_player_addr;
    mkKeywordDef (ascii_bytes "COVOX") KT_UINT16_HEX P_covox_addr ].

(** [*(static_cast<bool*>(kwd->ptr)) = true]. *)
Definition store_bool (p : TagPtr) (t : TagData) : TagData :=
  match p with
  | P_stereo => set_stereo true t
  | P_ntsc => set_ntsc true t
  | _ => t
  end.

(** [*(static_cast<uint16_t*>(kwd->ptr)) = v]: a two-byte store at the
    address of the member.  [fastplay] and the four addresses are
    [uint16_t].  [songs] and [def_song] are [uint8_t] members followed in
    the structure by [def_song] and by [ntsc]: on the little-endian host the
    member receives the low byte of [v] and the next member the high
    byte. *)
Definition store_u16 (p : TagPtr) (v : Z) (t : TagData) : TagData :=
  match p with
  | P_songs => set_def_song (v / 256) (set_songs (v mod 256) t)
  | P_def_song => set_ntsc (negb (v / 256 =? 0)) (set_def_song (v mod 256) t)
  | P_fastplay => set_fastplay v t
  | P_init_addr => set_init_addr v t
  | P_music_addr => set_music_addr v t
  | P_player_addr => set_player_addr v t
  | P_covox_addr => set_covox_addr v t
  | _ => t
  end.

(** [*(static_cast<char*>(kwd->ptr)) = c]. *)
Definition store_char (p : TagPtr) (c : Z) (t : TagData) : TagData :=
  match p with
  | P_type => set_type c t
  | _ => t
  end.

(** [*(static_cast<string*>(kwd->ptr)) = s]. *)
Definition store_string (p : TagPtr) (s : list Z) (t : TagData) : TagData :=
  match p with
  | P_author => set_author s t
  | P_name => set_name s t
  | P_date => set_date s t
  | _ => t
  end.

(** [strchr(s, c)]: index of the first [c] in the C string [s]. *)
Fixpoint strchr (s : list Z) (c : Z) : option nat :=
  match s with
  | [] => None
  | x :: s' => if x =? c then Some 0%nat else S <$> strchr s' c
  end.

(** The C string that starts at the head of a buffer. *)
Fixpoint cstr (buf : list Z) : list Z :=
  match buf with
  | [] => []
  | c :: r => if c =? 0 then [] else c :: cstr r
  end.

(** The segments of [s] between occurrences of the delimiter. *)
Fixpoint split_on (d : Z) (s : list Z) : list (list Z) :=
  match s with
  | [] => [[]]
  | c :: s' =>
      if c =? d then [] :: split_on d s'
      else match split_on d s' with
           | t :: ts => (c :: t) :: ts
           | [] => [[c]]
           end
  end.

(** The tokens returned by the successive calls
    [strtok_r(str, "\n", &saveptr)], [strtok_r(nullptr, "\n", &saveptr)],
    ...: the non-empty segments of the C string between line feeds. *)
Definition strtok_r_tokens (s : list Z) : list (list Z) :=
  filter (fun t => t <> []) (split_on 10 s).

Section Parser.

(** [latin1_to_utf8] of librpbase's [TextFuncs], a collaborator. *)
Variable latin1_to_utf8 : list Z -> list Z.
Variable dm : DataModel.

(** Splitting a token at its first space: the keyword and the parameter
    ([None] for a null [params]). *)
Definition split_token (token : list Z) : list Z * option (list Z) :=
  match strchr token 32 with
  | Some i =>
      let params := fst (skip_space (drop (S i) token) 0) in
      (take i token,
       match params with [] => None | _ => Some params end)
  | None =>
      (match strchr token 13 with
       | Some j => take j token
       | None => token
       end, None)
  end.

(** The loop over [kwds] for one token: the first keyword that matches
    decides, except that a malformed string parameter [continue]s the
    scan with the following keywords. *)
Fixpoint scan_kwds (ks : list KeywordDef) (token : list Z)
    (params : option (list Z)) (tags : TagData) : TagData :=
  match ks with
  | [] => tags
  | kwd :: ks' =>
      if negb (strcaseeq (keyword kwd) token) then
        scan_kwds ks' token params tags
      else
        match kw_type kwd with
        | KT_BOOL => store_bool (ptr kwd) tags
        | KT_UINT16_DEC =>
            match params with
            | None => tags
            | Some p =>
                let '(val, endptr) := strtol dm p 10 in
                if bool_decide (0 < endptr)%nat &&
                   ((byte_at p endptr =? 0) || ISSPACE (byte_at p endptr))
                then store_u16 (ptr kwd) (u16 val) tags
                else tags
            end
        | KT_UINT16_HEX =>
            match params with
            | None => tags
            | Some p =>
                let '(val, endptr) := strtol dm p 16 in
                if bool_decide (0 < endptr)%nat &&
                   ((byte_at p endptr =? 0) || ISSPACE (byte_at p endptr))
                then store_u16 (ptr kwd) (u16 val) tags
                else tags
            end
        | KT_CHAR =>
            match params with
            | None => tags
            | Some p =>
                let arg := negb (byte_at p 0 =? 0) &&
                           ((byte_at p 1 =? 0) || ISSPACE (byte_at p 1)) in
                if negb (ISSPACE (Z.b2z arg))
                then store_char (ptr kwd) (byte_at p 0) tags
                else tags
            end
        | KT_STRING =>
            match params with
            | None => tags
            | Some p =>
                if negb (byte_at p 0 =? 34) then
                  scan_kwds ks' token params tags
                else
                  match strchr (drop 1 p) 34 with
                  | None => scan_kwds ks' token params tags
                  | Some j =>
                      store_string (ptr kwd)
                        (latin1_to_utf8 (take j (drop 1 p))) tags
                  end
            end
        | _ => tags
        end
  end.

(** The body of the line loop for one token. *)
Definition parse_line (token : list Z) (tags : TagData) : TagData :=
  let '(kw, params) := split_token token in
  scan_kwds kwds kw params tags.

(** The line loop: it stops at the first token that starts with 0xFF. *)
Fixpoint parse_tokens (tokens : list (list Z)) (tags : TagData) : TagData :=
  match tokens with
  | [] => tags
  | token :: rest =>
      if byte_at token 0 =? 255 then tags
      else parse_tokens rest (parse_line token tags)
  end.

(** [SAPPrivate::parseTags], on the contents of the open file. *)
Definition parseTags (file : list Z) : TagData :=
  let header := seekAndRead file 0 4096 in
  let sz := length header in
  if (sz <? 6)%nat then TagData_init
  else
    let buf := header ++ [0] in
    let str :=
      if mem_eq buf 0 (ascii_bytes "SAP" ++ [13; 10]) then Some (drop 5 buf)
      else if mem_eq buf 0 (ascii_bytes "SAP" ++ [10]) then Some (drop 4 buf)
      else None in
    match str with
    | None => TagData_init
    | Some s =>
        set_tags_read true
          (parse_tokens (strtok_r_tokens (cstr s)) TagData_init)
    end.

End Parser.

(** [SAP::isRomSupported_static]. *)
Definition isRomSupported_static (info : option RomData.DetectInfo) : Z :=
  match info with
  | None => -1
  | Some info =>
      match RomData.header_pData info with
      | None => -1
      | Some pData =>
          if negb (RomData.header_addr info =? 0) ||
             (RomData.header_size info <? 6) then -1
          else if (RomData.header_size info >=? 7) &&
                  mem_eq pData 0 (ascii_bytes "SAP" ++ [13; 10]) then 0
          else if mem_eq pData 0 (ascii_bytes "SAP" ++ [10]) then 0
          else -1
      end
  end.

(** [toupper] in the "C" locale. *)
Definition toupper (c : Z) : Z :=
  if (97 <=? c) && (c <=? 122) then c - 32 else c.

(** A field handed to [RomFields]: the arguments of [addField_string]
    ([monospace] for [STRF_MONOSPACE]), of [addField_string_numeric]
    ([hex4] for the arguments [FB_HEX, 4, STRF_MONOSPACE]) and of
    [addField_bitfield]. *)
Inductive Field :=
| Field_string (label : string) (str : list Z) (monospace : bool)
| Field_string_numeric (label : string) (val : Z) (hex4 : bool)
| Field_bitfield (label : string) (names : list string) (elemsPerRow : Z)
    (bitfield : Z).

(** The members of [SAPPrivate] (and of [RomDataPrivate]) that the class
    uses; a null [file] is [None]. *)
Record SAPPrivate := mkSAPPrivate {
  file : option (list Z);
  isValid : bool;
  fields : list Field
}.

Section Fields.

Variable latin1_to_utf8 : list Z -> list Z.
Variable dm : DataModel.

(** [ISALPHA] of librpbase's [ctypex.h] and [rp_sprintf(fmt, c)] of
    librpbase, collaborators. *)
Variable ISALPHA : Z -> bool.
Variable rp_sprintf : string -> Z -> list Z.

(** [SAP::SAP], on the contents of the file handed to the constructor. *)
Definition SAP (f : list Z) : SAPPrivate :=
  let buf := seekAndRead f 0 16 in
  if negb (Z.of_nat (length buf) =? 16) then mkSAPPrivate None false []
  else
    let info := RomData.mkDetectInfo 0 16 (Some buf) None 0 in
    let isValid' := isRomSupported_static (Some info) >=? 0 in
    if negb isValid' then mkSAPPrivate None isValid' []
    else mkSAPPrivate (Some f) isValid' [].

(** The fields that [loadFieldData] adds for parsed tags, in order. *)
Definition tag_fields (tags : TagData) : list Field :=
  (match author tags with
   | [] => []
   | _ => [Field_string "Author" (author tags) false]
   end) ++
  (match name tags with
   | [] => []
   | _ => [Field_string "Song Title" (name tags) false]
   end) ++
  (match date tags with
   | [] => []
   | _ => [Field_string "Date" (date tags) false]
   end) ++
  [Field_string_numeric "# of Songs" (songs tags) false] ++
  (if songs tags >? 1
   then [Field_string_numeric "Default Song #" (def_song tags) false]
   else []) ++
  (let flags := 0 in
   let flags := if ntsc tags then Z.lor flags (Z.shiftl 1 0) else flags in
   let flags := if stereo tags then Z.lor flags (Z.shiftl 1 1) else flags in
   [Field_bitfield "Flags" ["NTSC"; "Stereo"]%string 0 flags]) ++
  (if ISALPHA (type tags)
   then [Field_string "Type" (rp_sprintf "%c" (type tags)) false]
   else [Field_string "Type" (rp_sprintf "0x%02X" (type tags)) true]) ++
  (let scanlines := fastplay tags in
   let scanlines :=
     if scanlines =? 0 then (if ntsc tags then 262 else 312)
     else scanlines in
   [Field_string_numeric "Fastplay" scanlines false]) ++
  (let c := toupper (type tags) in
   if (c =? 66) || (c =? 68) || (c =? 83)
   then [Field_string_numeric "Init Address" (init_addr tags) true]
   else if c =? 67
   then [Field_string_numeric "Music Address" (music_addr tags) true]
   else []) ++
  [Field_string_numeric "Player Address" (player_addr tags) true] ++
  (if negb (covox_addr tags =? 0)
   then [Field_string_numeric "COVOX Address" (covox_addr tags) true]
   else []).

(** [SAP::loadFieldData]: the return value and the object after the
    call. *)
Definition loadFieldData (d : SAPPrivate) : Z * SAPPrivate :=
  match fields d with
  | _ :: _ => (0, d)
  | [] =>
      match file d with
      | None => (- EBADF, d)
      | Some f =>
          if negb (isValid d) then (- EIO, d)
          else
            let tags := parseTags latin1_to_utf8 dm f in
            if negb (tags_read tags) then (0, d)
            else
              let fs := tag_fields tags in
              (Z.of_nat (length fs), mkSAPPrivate (file d) (isValid d) fs)
      end
  end.

End Fields.

End SAP.

(** ** Xbox 360 XDBF ([Console/Xbox360_XDBF.cpp]) *)

Module XDBF.

(** The structures of [xbox360_xdbf_structs.h], with their members as the
    host reads them (the file stores them big-endian and the decoder swaps
    them at each use). *)
Record XDBF_Header := mkXDBF_Header {
  hdr_magic : Z;
  hdr_version : Z;
  entry_table_length : Z;
  entry_count : Z;
  free_space_table_length : Z;
  free_space_table_count : Z
}.

Record XDBF_Entry := mkXDBF_Entry {
  namespace_id : Z;
  resource_id : Z;
  offset : Z;
  length : Z
}.

Record XDBF_XSTR_Header := mkXSTR_Header {
  xstr_magic : Z;
  xstr_version : Z;
  xstr_size : Z;
  string_count : Z
}.

Record XDBF_XSTR_Entry_Header := mkXSTR_Entry_Header {
  string_id : Z;
  str_length : Z
}.

Record XDBF_XSTC := mkXSTC {
  xstc_magic : Z;
  xstc_version : Z;
  xstc_size : Z;
  default_language : Z
}.

Record XDBF_XACH_Header := mkXACH_Header {
  xach_magic : Z;
  xach_version : Z;
  xach_size : Z;
  achievement_count : Z
}.

Record XDBF_XACH_Entry := mkXACH_Entry {
  achievement_id : Z;
  title_id : Z;
  unlocked_desc_id : Z;
  locked_desc_id : Z;
  image_id : Z;
  gamerscore : Z
}.

(** What the decoder takes from [xbox360_xdbf_structs.h]: the sizes of the
    structures, the constants, and the overlay of each structure on a
    buffer (the [reinterpret_cast]s of the decoder). *)
Record Structs := mkStructs {
  sizeof_XDBF_Header : Z;
  sizeof_XDBF_Entry : Z;
  sizeof_XDBF_Free_Space_Entry : Z;
  sizeof_XDBF_XSTR_Header : Z;
  sizeof_XDBF_XSTR_Entry_Header : Z;
  sizeof_XDBF_XSTC : Z;
  sizeof_XDBF_XACH_Header : Z;
  sizeof_XDBF_XACH_Entry : Z;
  XDBF_MAGIC : Z;
  XDBF_VERSION : Z;
  XDBF_XSTR_MAGIC : Z;
  XDBF_XSTR_VERSION : Z;
  XDBF_XSTC_MAGIC : Z;
  XDBF_XSTC_VERSION : Z;
  XDBF_XACH_MAGIC : Z;
  XDBF_XACH_VERSION : Z;
  XDBF_SPA_NAMESPACE_METADATA : Z;
  XDBF_SPA_NAMESPACE_IMAGE : Z;
  XDBF_SPA_NAMESPACE_STRING_TABLE : Z;
  XDBF_ID_TITLE : Z;
  XDBF_LANGUAGE_UNKNOWN : Z;
  XDBF_LANGUAGE_ENGLISH : Z;
  XDBF_LANGUAGE_MAX : Z;
  as_XDBF_Header : list Z -> XDBF_Header;
  as_XDBF_Entry : list Z -> XDBF_Entry;
  as_XDBF_XSTR_Header : list Z -> XDBF_XSTR_Header;
  as_XDBF_XSTR_Entry_Header : list Z -> XDBF_XSTR_Entry_Header;
  as_XDBF_XSTC : list Z -> XDBF_XSTC;
  as_XDBF_XACH_Header : list Z -> XDBF_XACH_Header;
  as_XDBF_XACH_Entry : list Z -> XDBF_XACH_Entry
}.

(** One cell of a list-data row: [rp_sprintf("%u", n)], a string, or the
    three string-table IDs shown when no language is available. *)
Inductive Cell :=
| CellUInt (n : Z)
| CellText (s : list Z)
| CellIds (title locked unlocked : Z).

Section Decoder.

Variable S : Structs.

(** The decoded image type and the collaborators of the decoder:
    [RpPng::load] on a memory file, [XboxLanguage::getXbox360Language] and
    [dos2unix]. *)
Variable rp_image : Type.
Variable RpPng_load : list Z -> option rp_image.
Variable getXbox360Language : Z.
Variable dos2unix : list Z -> list Z.

(** [Xbox360_XDBF_Private].  A null pointer is [None]; [strTbl] maps the
    language IDs whose table pointer is set to the loaded table;
    [io] lists the reads issued to the file as (address, size), latest
    first. *)
Record State := mkState {
  file : option (list Z);
  isValid : bool;
  xdbfHeader : XDBF_Header;
  entryTable : option (list XDBF_Entry);
  data_offset : Z;
  m_langID : Z;
  strTbl : gmap Z (list Z);
  map_images : gmap Z rp_image;
  img_icon : option rp_image;
  io : list (Z * Z)
}.

Definition log_read (addr size : Z) (st : State) : State :=
  mkState (file st) (isValid st) (xdbfHeader st) (entryTable st)
    (data_offset st) (m_langID st) (strTbl st) (map_images st) (img_icon st)
    ((addr, size) :: io st).
Definition set_strTbl (t : gmap Z (list Z)) (st : State) : State :=
  mkState (file st) (isValid st) (xdbfHeader st) (entryTable st)
    (data_offset st) (m_langID st) t (map_images st) (img_icon st) (io st).
Definition set_map_images (m : gmap Z rp_image) (st : State) : State :=
  mkState (file st) (isValid st) (xdbfHeader st) (entryTable st)
    (data_offset st) (m_langID st) (strTbl st) m (img_icon st) (io st).
Definition set_m_langID (l : Z) (st : State) : State :=
  mkState (file st) (isValid st) (xdbfHeader st) (entryTable st)
    (data_offset st) l (strTbl st) (map_images st) (img_icon st) (io st).
Definition set_img_icon (i : option rp_image) (st : State) : State :=
  mkState (file st) (isValid st) (xdbfHeader st) (entryTable st)
    (data_offset st) (m_langID st) (strTbl st) (map_images st) i (io st).

(** [file->seekAndRead(addr, buf, size)] on the open file, recorded in
    [io]. *)
Definition file_read (f : list Z) (addr size : Z) (st : State)
    : list Z * State :=
  (seekAndRead f addr size, log_read addr size st).

(** [Xbox360_XDBF_Private::findResource]. *)
Definition findResource (st : State) (namespace_id' resource_id' : Z)
    : option XDBF_Entry :=
  match entryTable st with
  | None => None
  | Some tbl =>
      let ns := cpu_to_be16 namespace_id' in
      let rid := cpu_to_be64 resource_id' in
      List.find
        (fun p => (namespace_id p =? ns) && (resource_id p =? rid))
        (take (Z.to_nat (entry_table_length (xdbfHeader st))) tbl)
  end.

(** The address and the length that a loader hands to the file for a
    table entry: [be32_to_cpu(entry->offset) + data_offset] in 32 bits and
    [be32_to_cpu(entry->length)]. *)
Definition resource_addr (st : State) (e : XDBF_Entry) : Z :=
  u32 (be32_to_cpu (offset e) + data_offset st).
Definition resource_length (e : XDBF_Entry) : Z := be32_to_cpu (length e).

(** [Xbox360_XDBF_Private::loadStringTable]. *)
Definition loadStringTable (language_id : Z) (st : State)
    : option (list Z) * State :=
  if (language_id <=? XDBF_LANGUAGE_UNKNOWN S) ||
     (language_id >=? XDBF_LANGUAGE_MAX S) then (None, st)
  else
    match strTbl st !! language_id with
    | Some vec => (Some vec, st)
    | None =>
        match file st with
        | None => (None, st)
        | Some f =>
            if negb (isValid st) then (None, st)
            else
              match findResource st (XDBF_SPA_NAMESPACE_STRING_TABLE S)
                      language_id with
              | None => (None, st)
              | Some entry =>
                  let str_tbl_sz := be32_to_cpu (length entry) in
                  if (str_tbl_sz <=? sizeof_XDBF_XSTR_Header S) ||
                     (str_tbl_sz >? 1024 * 1024) then (None, st)
                  else
                    let str_tbl_addr :=
                      u32 (be32_to_cpu (offset entry) + data_offset st) in
                    let '(vec, st1) :=
                      file_read f str_tbl_addr str_tbl_sz st in
                    if negb (Z.of_nat (List.length vec) =? str_tbl_sz)
                    then (None, st1)
                    else
                      let tblHdr := as_XDBF_XSTR_Header S vec in
                      if negb (xstr_magic tblHdr =?
                                 cpu_to_be32 (XDBF_XSTR_MAGIC S)) ||
                         negb (xstr_version tblHdr =?
                                 cpu_to_be32 (XDBF_XSTR_VERSION S))
                      then (None, st1)
                      else
                        (Some vec,
                         set_strTbl (<[language_id := vec]> (strTbl st1)) st1)
              end
        end
    end.

(** The search loop of [loadString] over the records of a table, from
    offset [p]; [fuel] bounds the number of records visited. *)
Fixpoint find_string (fuel : nat) (vec : list Z) (p : Z) (string_id' : Z)
    : list Z :=
  match fuel with
  | O => []
  | Datatypes.S fuel' =>
      let p_end := Z.of_nat (List.length vec) in
      if negb (p <? p_end) then []
      else
        let hdr := as_XDBF_XSTR_Entry_Header S (drop (Z.to_nat p) vec) in
        let len := be16_to_cpu (str_length hdr) in
        if string_id hdr =? string_id' then
          let p_str := p + sizeof_XDBF_XSTR_Entry_Header S in
          let p_str_end := p_str + len in
          if p_str_end <=? p_end
          then dos2unix (take (Z.to_nat len) (drop (Z.to_nat p_str) vec))
          else []
        else
          find_string fuel' vec (p + sizeof_XDBF_XSTR_Entry_Header S + len)
            string_id'
  end.

(** [Xbox360_XDBF_Private::loadString]. *)
Definition loadString (language_id string_id' : Z) (st : State)
    : list Z * State :=
  if (language_id <? 0) || (language_id >=? XDBF_LANGUAGE_MAX S)
  then ([], st)
  else
    let '(vec, st1) :=
      match strTbl st !! language_id with
      | Some v => (Some v, st)
      | None => loadStringTable language_id st
      end in
    match vec with
    | None => ([], st1)
    | Some vec =>
        (find_string (List.length vec) vec (sizeof_XDBF_XSTR_Header S)
           (cpu_to_be16 string_id'), st1)
    end.

(** [Xbox360_XDBF_Private::getLangID].  The read of the XSTC resource
    goes through [file] without a test of the pointer: on an object whose
    file has been closed it is a call through a null pointer. *)
Definition getLangID (st : State) : outcome Z * State :=
  if negb (m_langID st =? XDBF_LANGUAGE_UNKNOWN S)
  then (Done (m_langID st), st)
  else
    let langID := getXbox360Language in
    let '(sys, st1) :=
      if (langID >? XDBF_LANGUAGE_UNKNOWN S) && (langID <? XDBF_LANGUAGE_MAX S)
      then
        match loadStringTable langID st with
        | (Some _, st') => (true, set_m_langID langID st')
        | (None, st') => (false, st')
        end
      else (false, st) in
    if sys then (Done langID, st1)
    else
      match findResource st1 (XDBF_SPA_NAMESPACE_METADATA S)
              (XDBF_XSTC_MAGIC S) with
      | None => (Done (XDBF_LANGUAGE_UNKNOWN S), st1)
      | Some entry =>
          let addr := u32 (be32_to_cpu (offset entry) + data_offset st1) in
          if negb (be32_to_cpu (length entry) =? sizeof_XDBF_XSTC S)
          then (Done (XDBF_LANGUAGE_UNKNOWN S), st1)
          else
            match file st1 with
            | None => (NullDeref, st1)
            | Some f =>
                let '(buf, st2) := file_read f addr (sizeof_XDBF_XSTC S) st1 in
                if negb (Z.of_nat (List.length buf) =? sizeof_XDBF_XSTC S)
                then (Done (XDBF_LANGUAGE_UNKNOWN S), st2)
                else
                  let xstc := as_XDBF_XSTC S buf in
                  if negb (xstc_magic xstc =? cpu_to_be32 (XDBF_XSTC_MAGIC S))
                     || negb (xstc_version xstc =?
                                cpu_to_be32 (XDBF_XSTC_VERSION S))
                     || negb (xstc_size xstc =?
                                cpu_to_be32 (sizeof_XDBF_XSTC S - 4))
                  then (Done (XDBF_LANGUAGE_UNKNOWN S), st2)
                  else
                    let langID := be32_to_cpu (default_language xstc) in
                    if (langID <=? XDBF_LANGUAGE_UNKNOWN S) ||
                       (langID >=? XDBF_LANGUAGE_MAX S)
                    then (Done (XDBF_LANGUAGE_UNKNOWN S), st2)
                    else
                      match loadStringTable langID st2 with
                      | (Some _, st3) =>
                          (Done langID, set_m_langID langID st3)
                      | (None, st3) =>
                          if negb (langID =? XDBF_LANGUAGE_ENGLISH S) then
                            match loadStringTable (XDBF_LANGUAGE_ENGLISH S)
                                    st3 with
                            | (Some _, st4) =>
                                (Done (XDBF_LANGUAGE_ENGLISH S),
                                 set_m_langID (XDBF_LANGUAGE_ENGLISH S) st4)
                            | (None, st4) =>
                                (Done (XDBF_LANGUAGE_UNKNOWN S), st4)
                            end
                          else (Done (XDBF_LANGUAGE_UNKNOWN S), st3)
                      end
            end
      end.

(** [Xbox360_XDBF_Private::loadImage]. *)
Definition loadImage (image_id' : Z) (st : State)
    : option rp_image * State :=
  match map_images st !! image_id' with
  | Some img => (Some img, st)
  | None =>
      match entryTable st with
      | None => (None, st)
      | Some _ =>
          match file st with
          | None => (None, st)
          | Some f =>
              if negb (isValid st) then (None, st)
              else
                match findResource st (XDBF_SPA_NAMESPACE_IMAGE S)
                        image_id' with
                | None => (None, st)
                | Some entry =>
                    let addr :=
                      u32 (be32_to_cpu (offset entry) + data_offset st) in
                    let length' := be32_to_cpu (length entry) in
                    if (length' <? 16) || (length' >? 1024 * 1024)
                    then (None, st)
                    else
                      let '(png_buf, st1) := file_read f addr length' st in
                      if negb (Z.of_nat (List.length png_buf) =? length')
                      then (None, st1)
                      else
                        match RpPng_load png_buf with
                        | Some img =>
                            (Some img,
                             set_map_images
                               (<[image_id' := img]> (map_images st1)) st1)
                        | None => (None, st1)
                        end
                end
          end
      end
  end.

(** [Xbox360_XDBF_Private::loadIcon]. *)
Definition loadIcon (st : State) : option rp_image * State :=
  match img_icon st with
  | Some img => (Some img, st)
  | None =>
      match file st with
      | None => (None, st)
      | Some _ =>
          if negb (isValid st) then (None, st)
          else
            match entryTable st with
            | None => (None, st)
            | Some _ =>
                let '(img, st1) := loadImage (XDBF_ID_TITLE S) st in
                (img, set_img_icon img st1)
            end
      end
  end.

Definition XACH_MAX_COUNT : Z := 512.
Definition XACH_MIN_SIZE : Z := u32 (sizeof_XDBF_XACH_Header S).
Definition XACH_MAX_SIZE : Z :=
  u32 (XACH_MIN_SIZE + u32 (sizeof_XDBF_XACH_Entry S * XACH_MAX_COUNT)).

(** The validated entry count of [addFields_achievements]: [length'] is the
    length of the resource and [count] the [achievement_count] of its
    header. *)
Definition xach_count (length' count : Z) : Z :=
  if count >? XACH_MAX_COUNT then XACH_MAX_COUNT
  else if count >?
          (length' - sizeof_XDBF_XACH_Header S) / sizeof_XDBF_XACH_Entry S
  then (length' - sizeof_XDBF_XACH_Header S) / sizeof_XDBF_XACH_Entry S
  else count.

(** The Achievements field handed to [addField_listData_icons]: one row of
    cells and one icon per record. *)
Record ListData := mkListData {
  rows : list (list Cell);
  icons : list (option rp_image)
}.

(** The body of the loop over the records for the record at offset [p] of
    [xach_buf]. *)
Definition xach_row (xach_buf : list Z) (p : Z) (langID : Z) (st : State)
    : (list Cell * option rp_image) * State :=
  let e := as_XDBF_XACH_Entry S (drop (Z.to_nat p) xach_buf) in
  let '(icon, st1) := loadImage (be32_to_cpu (image_id e)) st in
  let c_id := CellUInt (be16_to_cpu (achievement_id e)) in
  let '(c_desc, st3) :=
    if negb (langID =? XDBF_LANGUAGE_UNKNOWN S) then
      let '(desc, st2) := loadString langID (be16_to_cpu (title_id e)) st1 in
      let '(lck_desc, st3) :=
        loadString langID (be16_to_cpu (locked_desc_id e)) st2 in
      (CellText
         (match lck_desc with
          | [] => desc
          | _ => match desc with
                 | [] => lck_desc
                 | _ => desc ++ [10] ++ lck_desc
                 end
          end), st3)
    else
      (CellIds (be16_to_cpu (title_id e)) (be16_to_cpu (locked_desc_id e))
         (be16_to_cpu (unlocked_desc_id e)), st1) in
  (([c_id; c_desc; CellUInt (be16_to_cpu (gamerscore e))], icon), st3).

(** The loop over the records: [n] records remain, the next one is at
    offset [p].  Dereferencing a record that is not inside [xach_buf] has
    no defined result and ends the run with [OutOfBounds]. *)
Fixpoint xach_loop (n : nat) (xach_buf : list Z) (p : Z) (langID : Z)
    (st : State) : outcome ListData * State :=
  match n with
  | O => (Done (mkListData [] []), st)
  | Datatypes.S n' =>
      if p + sizeof_XDBF_XACH_Entry S >? Z.of_nat (List.length xach_buf)
      then (OutOfBounds p (sizeof_XDBF_XACH_Entry S)
              (Z.of_nat (List.length xach_buf)), st)
      else
        let '((row, icon), st1) := xach_row xach_buf p langID st in
        match xach_loop n' xach_buf (p + sizeof_XDBF_XACH_Entry S) langID
                st1 with
        | (Done ld, st2) =>
            (Done (mkListData (row :: rows ld) (icon :: icons ld)), st2)
        | (OutOfBounds o s l, st2) => (OutOfBounds o s l, st2)
        | (NullDeref, st2) => (NullDeref, st2)
        end
  end.

(** [Xbox360_XDBF_Private::addFields_achievements]: the return code and,
    on success, the field that is added. *)
Definition addFields_achievements (st : State)
    : outcome (Z * option ListData) * State :=
  match entryTable st with
  | None => (Done (1, None), st)
  | Some _ =>
      match file st with
      | None => (Done (2, None), st)
      | Some f =>
          if negb (isValid st) then (Done (2, None), st)
          else
            match findResource st (XDBF_SPA_NAMESPACE_METADATA S)
                    (XDBF_XACH_MAGIC S) with
            | None => (Done (3, None), st)
            | Some entry =>
                let addr :=
                  u32 (be32_to_cpu (offset entry) + data_offset st) in
                let length' := be32_to_cpu (length entry) in
                if (length' <? XACH_MIN_SIZE) || (length' >? XACH_MAX_SIZE)
                then (Done (4, None), st)
                else
                  let '(xach_buf, st1) := file_read f addr length' st in
                  if negb (Z.of_nat (List.length xach_buf) =? length')
                  then (Done (5, None), st1)
                  else
                    let hdr := as_XDBF_XACH_Header S xach_buf in
                    if negb (xach_magic hdr =?
                               cpu_to_be32 (XDBF_XACH_MAGIC S)) ||
                       negb (xach_version hdr =?
                               cpu_to_be32 (XDBF_XACH_VERSION S))
                    then (Done (6, None), st1)
                    else
                      let count :=
                        xach_count length'
                          (be16_to_cpu (achievement_count hdr)) in
                      match getLangID st1 with
                      | (Done langID, st2) =>
                          match xach_loop (Z.to_nat count) xach_buf
                                  (sizeof_XDBF_XACH_Header S) langID st2 with
                          | (Done ld, st3) => (Done (0, Some ld), st3)
                          | (OutOfBounds o s l, st3) =>
                              (OutOfBounds o s l, st3)
                          | (NullDeref, st3) => (NullDeref, st3)
                          end
                      | (OutOfBounds o s l, st2) => (OutOfBounds o s l, st2)
                      | (NullDeref, st2) => (NullDeref, st2)
                      end
            end
      end
  end.

(** [Xbox360_XDBF::isRomSupported_static]. *)
Definition isRomSupported_static (info : option RomData.DetectInfo) : Z :=
  match info with
  | None => -1
  | Some info =>
      match RomData.header_pData info with
      | None => -1
      | Some pData =>
          if negb (RomData.header_addr info =? 0) ||
             (RomData.header_size info <? sizeof_XDBF_Entry S) then -1
          else
            let xdbfHeader := as_XDBF_Header S pData in
            if (hdr_magic xdbfHeader =? cpu_to_be32 (XDBF_MAGIC S)) &&
               (hdr_version xdbfHeader =? cpu_to_be32 (XDBF_VERSION S))
            then 0 else -1
      end
  end.

(** The object built by the constructor before [init] runs. *)
Definition State_new (f : list Z) : State :=
  mkState (Some f) false (mkXDBF_Header 0 0 0 0 0 0) None 0
    (XDBF_LANGUAGE_UNKNOWN S) empty empty None [].

(** Consecutive structures of [size] bytes laid over a buffer. *)
Fixpoint chunks (n : nat) (size : nat) (buf : list Z) : list (list Z) :=
  match n with
  | O => []
  | Datatypes.S n' => take size buf :: chunks n' size (drop size buf)
  end.

(** [Xbox360_XDBF::init], on the contents of the file handed to the
    constructor. *)
Definition init (f : list Z) : State :=
  let st := State_new f in
  let raw := seekAndRead f 0 (sizeof_XDBF_Header S) in
  let h := as_XDBF_Header S raw in
  let closed (valid : bool) (h : XDBF_Header) :=
    mkState None valid
      (mkXDBF_Header 0 (hdr_version h) (entry_table_length h) (entry_count h)
         (free_space_table_length h) (free_space_table_count h))
      None (data_offset st) (m_langID st) empty empty None [] in
  if negb (Z.of_nat (List.length raw) =? sizeof_XDBF_Header S)
  then closed false h
  else
    let info :=
      RomData.mkDetectInfo 0 (sizeof_XDBF_Header S) (Some raw) None 0 in
    if negb (isRomSupported_static (Some info) >=? 0) then closed false h
    else
      let h' :=
        mkXDBF_Header (hdr_magic h) (be32_to_cpu (hdr_version h))
          (be32_to_cpu (entry_table_length h)) (be32_to_cpu (entry_count h))
          (be32_to_cpu (free_space_table_length h))
          (be32_to_cpu (free_space_table_count h)) in
      let data_offset' :=
        u32 (sizeof_XDBF_Header S +
             entry_table_length h' * sizeof_XDBF_Entry S +
             free_space_table_length h' * sizeof_XDBF_Free_Space_Entry S) in
      let entry_table_sz := entry_table_length h' * sizeof_XDBF_Entry S in
      let tbl := seekAndRead f (sizeof_XDBF_Header S) entry_table_sz in
      if negb (Z.of_nat (List.length tbl) =? entry_table_sz)
      then
        mkState None true
          (mkXDBF_Header 0 (hdr_version h') (entry_table_length h')
             (entry_count h') (free_space_table_length h')
             (free_space_table_count h'))
          None data_offset' (m_langID st) empty empty None []
      else
        mkState (Some f) true h'
          (Some (map (as_XDBF_Entry S)
                   (chunks (Z.to_nat (entry_table_length h'))
                      (Z.to_nat (sizeof_XDBF_Entry S)) tbl)))
          data_offset' (m_langID st) empty empty None [].

(** [Xbox360_XDBF::getGameTitle]. *)
Definition getGameTitle (st : State) : outcome (list Z) * State :=
  match getLangID st with
  | (Done langID, st1) =>
      let '(title, st2) := loadString langID (XDBF_ID_TITLE S) st1 in
      (Done title, st2)
  | (OutOfBounds o s l, st1) => (OutOfBounds o s l, st1)
  | (NullDeref, st1) => (NullDeref, st1)
  end.

(** [RomData::IMG_INT_ICON] of librpbase, and the macro
    [ASSERT_loadInternalImage] of librpbase's [RomData.hpp], which is not
    among the sources.  The macro validates the arguments and can return
    from the function: [ASSERT_loadInternalImage imageType pImage], for an
    image type and a pointer that is or is not null ([false]), is the
    value that the function then returns and the pointer left in
    [*pImage], or [None] when control goes on. *)
Variable IMG_INT_ICON : Z.
Variable ASSERT_loadInternalImage : Z -> bool -> option (Z * option rp_image).

(** [Xbox360_XDBF::loadInternalImage]: the return value and the pointer
    stored in [*pImage]; [pImage] tells whether that pointer is not
    null.  The body stores through [pImage] without a test of its own. *)
Definition loadInternalImage (imageType : Z) (pImage : bool) (st : State)
    : outcome (Z * option rp_image) * State :=
  match ASSERT_loadInternalImage imageType pImage with
  | Some ret => (Done ret, st)
  | None =>
      if negb pImage then (NullDeref, st)
      else if negb (imageType =? IMG_INT_ICON)
      then (Done (- ENOENT, None), st)
      else
        match img_icon st with
        | Some img => (Done (0, Some img), st)
        | None =>
            match file st with
            | None => (Done (- EBADF, None), st)
            | Some _ =>
                if negb (isValid st) then (Done (- EIO, None), st)
                else
                  let '(img, st1) := loadIcon st in
                  (Done (match img with Some _ => 0 | None => - EIO end, img),
                   st1)
            end
        end
  end.

End Decoder.

(** Modelled from the spec: the structures and constants of
    [xbox360_xdbf_structs.h], which is not among the sources; the format's
    magic numbers, packed header layouts and field widths, which are to be
    reproduced bit for bit.  Used to run the decoder on concrete files. *)
Definition xdbf_structs : Structs :=
  {| sizeof_XDBF_Header := 24;
     sizeof_XDBF_Entry := 18;
     sizeof_XDBF_Free_Space_Entry := 8;
     sizeof_XDBF_XSTR_Header := 14;
     sizeof_XDBF_XSTR_Entry_Header := 4;
     sizeof_XDBF_XSTC := 16;
     sizeof_XDBF_XACH_Header := 14;
     sizeof_XDBF_XACH_Entry := 36;
     XDBF_MAGIC := multichar "XDBF";
     XDBF_VERSION := 65536;
     XDBF_XSTR_MAGIC := multichar "XSTR";
     XDBF_XSTR_VERSION := 1;
     XDBF_XSTC_MAGIC := multichar "XSTC";
     XDBF_XSTC_VERSION := 1;
     XDBF_XACH_MAGIC := multichar "XACH";
     XDBF_XACH_VERSION := 1;
     XDBF_SPA_NAMESPACE_METADATA := 1;
     XDBF_SPA_NAMESPACE_IMAGE := 2;
     XDBF_SPA_NAMESPACE_STRING_TABLE := 5;
     XDBF_ID_TITLE := 32768;
     XDBF_LANGUAGE_UNKNOWN := 0;
     XDBF_LANGUAGE_ENGLISH := 1;
     XDBF_LANGUAGE_MAX := 13;
     as_XDBF_Header := fun b =>
       mkXDBF_Header (field b 0 4) (field b 4 4) (field b 8 4)
         (field b 12 4) (field b 16 4) (field b 20 4);
     as_XDBF_Entry := fun b =>
       mkXDBF_Entry (field b 0 2) (field b 2 8) (field b 10 4) (field b 14 4);
     as_XDBF_XSTR_Header := fun b =>
       mkXSTR_Header (field b 0 4) (field b 4 4) (field b 8 4) (field b 12 2);
     as_XDBF_XSTR_Entry_Header := fun b =>
       mkXSTR_Entry_Header (field b 0 2) (field b 2 2);
     as_XDBF_XSTC := fun b =>
       mkXSTC (field b 0 4) (field b 4 4) (field b 8 4) (field b 12 4);
     as_XDBF_XACH_Header := fun b =>
       mkXACH_Header (field b 0 4) (field b 4 4) (field b 8 4) (field b 12 2);
     as_XDBF_XACH_Entry := fun b =>
       mkXACH_Entry (field b 0 2) (field b 2 2) (field b 4 2) (field b 6 2)
         (field b 8 4) (field b 12 2) |}.

(** The big-endian bytes of a [w]-byte value, as stored in the file. *)
Definition be_bytes (w : nat) (x : Z) : list Z := rev (le_encode w x).

End XDBF.

(** ** Nintendo 3DS ([Nintendo3DS.cpp]) *)

Module N3DS.

(** [Nintendo3DSPrivate::RomType]. *)
Definition ROM_TYPE_UNKNOWN : Z := -1.
Definition ROM_TYPE_SMDH : Z := 0.
Definition ROM_TYPE_3DSX : Z := 1.
Definition ROM_TYPE_CCI : Z := 2.
Definition ROM_TYPE_eMMC : Z := 3.
Definition ROM_TYPE_CIA : Z := 4.

(** [Nintendo3DSPrivate::HeadersPresent]. *)
Definition HEADER_NONE : Z := 0.
Definition HEADER_SMDH : Z := Z.shiftl 1 0.
Definition HEADER_NCCH : Z := Z.shiftl 1 1.
Definition HEADER_EXHEADER : Z := Z.shiftl 1 2.
Definition HEADER_3DSX : Z := Z.shiftl 1 2.
Definition HEADER_CIA : Z := Z.shiftl 1 3.
Definition HEADER_TMD : Z := Z.shiftl 1 4.
Definition HEADER_NCSD : Z := Z.shiftl 1 5.

(** [Nintendo3DSPrivate::toNext64<T>] for an unsigned [T] of [w] bits:
    [(val + 63) & ~63] in [T]. *)
Definition toNext64 (w : Z) (val : Z) : Z :=
  Z.land ((val + 63) mod 2^w) (Z.lnot 63 mod 2^w).

(** A signed 64-bit value ([int64_t]). *)
Definition s64 (x : Z) : Z := (x + 2^63) mod 2^64 - 2^63.

(** The structures of [n3ds_structs.h], reduced to the members the loaders
    read, as the host reads them. *)
Record N3DS_CIA_Header_t := mkCIA_Header {
  header_size : Z;
  cia_type : Z;
  cia_version : Z;
  cert_chain_size : Z;
  ticket_size : Z;
  tmd_size : Z;
  meta_size : Z;
  content_size : Z
}.

Record N3DS_TMD_Header_t := mkTMD_Header {
  tmd_content_count : Z
}.

Record N3DS_Content_Chunk_Record_t := mkChunk {
  chunk_index : Z;
  chunk_size : Z
}.

Record N3DS_NCCH_Header_NoSig_t := mkNCCH_Header {
  ncch_magic : list Z;
  exheader_size : Z;
  ncch_flags : list Z;
  program_id : Z
}.

Record N3DS_NCSD_Partition := mkPartition {
  part_offset : Z;
  part_length : Z
}.

(** [media_unit_size] is
    [cci.partition_flags[N3DS_NCSD_PARTITION_FLAG_MEDIA_UNIT_SIZE]]. *)
Record N3DS_NCSD_Header_NoSig_t := mkNCSD_Header {
  ncsd_magic : list Z;
  crypt_type : list Z;
  partitions : list N3DS_NCSD_Partition;
  media_unit_size : Z
}.

(** What the decoder takes from [n3ds_structs.h]: sizes, offsets,
    constants and the overlay of each structure on a buffer. *)
Record Structs := mkStructs {
  sizeof_N3DS_CIA_Header_t : Z;
  offsetof_CIA_content_index : Z;
  sizeof_N3DS_SMDH_Header_t : Z;
  sizeof_N3DS_SMDH_Icon_t : Z;
  sizeof_N3DS_3DSX_Header_t : Z;
  sizeof_N3DS_TMD_Header_t : Z;
  sizeof_N3DS_TMD_t : Z;
  sizeof_N3DS_Content_Chunk_Record_t : Z;
  sizeof_N3DS_NCCH_Header_t : Z;
  sizeof_N3DS_NCCH_Header_NoSig_t : Z;
  sizeof_N3DS_NCCH_ExHeader_t : Z;
  N3DS_NCCH_EXHEADER_MIN_SIZE : Z;
  N3DS_NCSD_NOSIG_HEADER_ADDRESS : Z;
  N3DS_SMDH_HEADER_MAGIC : list Z;
  N3DS_3DSX_HEADER_MAGIC : list Z;
  N3DS_NCSD_HEADER_MAGIC : list Z;
  N3DS_NCCH_HEADER_MAGIC : list Z;
  N3DS_NCCH_FLAG_BIT_MASKS : nat;
  N3DS_NCCH_BIT_MASK_NoCrypto : Z;
  N3DS_NCCH_BIT_MASK_FixedCryptoKey : Z;
  N3DS_NCCH_SECTION_EXHEADER : Z;
  N3DS_TMD_RSA_4096_SHA1 : Z;
  N3DS_TMD_RSA_2048_SHA1 : Z;
  N3DS_TMD_EC_SHA1 : Z;
  N3DS_TMD_RSA_4096_SHA256 : Z;
  N3DS_TMD_RSA_2048_SHA256 : Z;
  N3DS_TMD_ECDSA_SHA256 : Z;
  as_N3DS_CIA_Header_t : list Z -> N3DS_CIA_Header_t;
  as_N3DS_TMD_Header_t : list Z -> N3DS_TMD_Header_t;
  as_N3DS_Content_Chunk_Record_t : list Z -> N3DS_Content_Chunk_Record_t;
  as_N3DS_NCCH_Header_NoSig_t : list Z -> N3DS_NCCH_Header_NoSig_t;
  as_N3DS_NCSD_Header_NoSig_t : list Z -> N3DS_NCSD_Header_NoSig_t
}.

Section Decoder.

Variable S : Structs.

(** The sum [sz_min] of the section sizes of a CIA header, as
    [isRomSupported_static] computes it in [uint32_t]. *)
Definition cia_sz_min (h : N3DS_CIA_Header_t) : Z :=
  u32 (toNext64 32 (le32_to_cpu (header_size h)) +
       toNext64 32 (le32_to_cpu (cert_chain_size h)) +
       toNext64 32 (le32_to_cpu (ticket_size h)) +
       toNext64 32 (le32_to_cpu (tmd_size h)) +
       toNext64 32 (le32_to_cpu (u32 (content_size h))) +
       toNext64 32 (le32_to_cpu (meta_size h))).

(** The CIA test of [isRomSupported_static]. *)
Definition is_cia (info : RomData.DetectInfo) (pData : list Z) : bool :=
  match RomData.ext info with
  | None => false
  | Some e =>
      if (RomData.header_size info >? offsetof_CIA_content_index S) &&
         SAP.strcaseeq e (ascii_bytes ".cia")
      then
        let cia_header := as_N3DS_CIA_Header_t S pData in
        if (le32_to_cpu (N3DS.header_size cia_header) =?
              u32 (sizeof_N3DS_CIA_Header_t S)) &&
           (le16_to_cpu (cia_type cia_header) =? 0) &&
           (le16_to_cpu (cia_version cia_header) =? 0)
        then RomData.szFile info >=? cia_sz_min cia_header
        else false
      else false
  end.

Definition crypt_cci : list Z := [0; 0; 0; 0; 0; 0; 0; 0].
Definition crypt_emmc_old : list Z := [1; 2; 2; 2; 2; 0; 0; 0].
Definition crypt_emmc_new : list Z := [1; 2; 2; 2; 3; 0; 0; 0].

(** [Nintendo3DS::isRomSupported_static]. *)
Definition isRomSupported_static (info : option RomData.DetectInfo) : Z :=
  match info with
  | None => -1
  | Some info =>
      match RomData.header_pData info with
      | None => -1
      | Some pData =>
          if negb (RomData.header_addr info =? 0) ||
             (RomData.header_size info <? 512)
          then -1
          else if is_cia info pData then ROM_TYPE_CIA
          else if mem_eq pData 0 (take 4 (N3DS_SMDH_HEADER_MAGIC S)) &&
                  (RomData.szFile info >=?
                     sizeof_N3DS_SMDH_Header_t S + sizeof_N3DS_SMDH_Icon_t S)
          then ROM_TYPE_SMDH
          else if mem_eq pData 0 (take 4 (N3DS_3DSX_HEADER_MAGIC S)) &&
                  (RomData.szFile info >=? sizeof_N3DS_3DSX_Header_t S)
          then ROM_TYPE_3DSX
          else
            let ncsd_header :=
              as_N3DS_NCSD_Header_NoSig_t S
                (drop (Z.to_nat (N3DS_NCSD_NOSIG_HEADER_ADDRESS S)) pData) in
            if bool_decide
                 (ncsd_magic ncsd_header =
                  take (List.length (ncsd_magic ncsd_header))
                    (N3DS_NCSD_HEADER_MAGIC S))
            then
              if bool_decide (crypt_type ncsd_header = crypt_cci)
              then ROM_TYPE_CCI
              else if bool_decide (crypt_type ncsd_header = crypt_emmc_old) ||
                      bool_decide (crypt_type ncsd_header = crypt_emmc_new)
              then ROM_TYPE_eMMC
              else -1
            else -1
      end
  end.

(** Build option: [ENABLE_DECRYPTION]. *)
Variable ENABLE_DECRYPTION : bool.

(** Collaborators.  [NintendoDS_open file offset length] stands for the
    chain [DiscReader], [PartitionFile], [NintendoDS] that [loadTMD] builds
    over a DSiWare content, and gives the [NintendoDS] object when it is
    open and valid.  [AesCTR_decrypt key counter data] is
    [IAesCipher::decrypt] in counter mode after [setKey] and [setIV]: the
    data after the call and the size it returns. *)
Variable NintendoDS : Type.
Variable NintendoDS_open : list Z -> Z -> Z -> option NintendoDS.
Variable AesCTR_decrypt : list Z -> list Z -> list Z -> list Z * Z.

(** [Nintendo3DSPrivate].  The members of the union [mxh] are kept apart:
    which of them is in use is fixed by [romType].  [io] lists the reads
    issued to the file as (position, size), latest first. *)
Record State := mkState {
  file : list Z;
  romType : Z;
  headers_loaded : Z;
  media_unit_shift : Z;
  cia_header : N3DS_CIA_Header_t;
  tmd_header : N3DS_TMD_Header_t;
  content_start_addr : Z;
  ncsd_header : N3DS_NCSD_Header_NoSig_t;
  content_count : Z;
  content_chunks : list N3DS_Content_Chunk_Record_t;
  ncch_offset : Z;
  ncch_length : Z;
  ncch_header : N3DS_NCCH_Header_NoSig_t;
  ncch_exheader : list Z;
  srlData : option NintendoDS;
  io : list (Z * Z)
}.

Definition set_headers_loaded (v : Z) (st : State) : State :=
  mkState (file st) (romType st) v (media_unit_shift st) (cia_header st)
    (tmd_header st) (content_start_addr st) (ncsd_header st)
    (content_count st) (content_chunks st) (ncch_offset st) (ncch_length st)
    (ncch_header st) (ncch_exheader st) (srlData st) (io st).
Definition set_tmd_header (v : N3DS_TMD_Header_t) (st : State) : State :=
  mkState (file st) (romType st) (headers_loaded st) (media_unit_shift st)
    (cia_header st) v (content_start_addr st) (ncsd_header st)
    (content_count st) (content_chunks st) (ncch_offset st) (ncch_length st)
    (ncch_header st) (ncch_exheader st) (srlData st) (io st).
Definition set_content_start_addr (v : Z) (st : State) : State :=
  mkState (file st) (romType st) (headers_loaded st) (media_unit_shift st)
    (cia_header st) (tmd_header st) v (ncsd_header st) (content_count st)
    (content_chunks st) (ncch_offset st) (ncch_length st) (ncch_header st)
    (ncch_exheader st) (srlData st) (io st).
Definition set_content_count (v : Z) (st : State) : State :=
  mkState (file st) (romType st) (headers_loaded st) (media_unit_shift st)
    (cia_header st) (tmd_header st) (content_start_addr st) (ncsd_header st) v
    (content_chunks st) (ncch_offset st) (ncch_length st) (ncch_header st)
    (ncch_exheader st) (srlData st) (io st).
Definition set_content_chunks (v : list N3DS_Content_Chunk_Record_t)
    (st : State) : State :=
  mkState (file st) (romType st) (headers_loaded st) (media_unit_shift st)
    (cia_header st) (tmd_header st) (content_start_addr st) (ncsd_header st)
    (content_count st) v (ncch_offset st) (ncch_length st) (ncch_header st)
    (ncch_exheader st) (srlData st) (io st).
Definition set_ncch_offset (v : Z) (st : State) : State :=
  mkState (file st) (romType st) (headers_loaded st) (media_unit_shift st)
    (cia_header st) (tmd_header st) (content_start_addr st) (ncsd_header st)
    (content_count st) (content_chunks st) v (ncch_length st) (ncch_header st)
    (ncch_exheader st) (srlData st) (io st).
Definition set_ncch_length (v : Z) (st : State) : State :=
  mkState (file st) (romType st) (headers_loaded st) (media_unit_shift st)
    (cia_header st) (tmd_header st) (content_start_addr st) (ncsd_header st)
    (content_count st) (content_chunks st) (ncch_offset st) v (ncch_header st)
    (ncch_exheader st) (srlData st) (io st).
Definition set_ncch_header (v : N3DS_NCCH_Header_NoSig_t) (st : State)
    : State :=
  mkState (file st) (romType st) (headers_loaded st) (media_unit_shift st)
    (cia_header st) (tmd_header st) (content_start_addr st) (ncsd_header st)
    (content_count st) (content_chunks st) (ncch_offset st) (ncch_length st) v
    (ncch_exheader st) (srlData st) (io st).
Definition set_ncch_exheader (v : list Z) (st : State) : State :=
  mkState (file st) (romType st) (headers_loaded st) (media_unit_shift st)
    (cia_header st) (tmd_header st) (content_start_addr st) (ncsd_header st)
    (content_count st) (content_chunks st) (ncch_offset st) (ncch_length st)
    (ncch_header st) v (srlData st) (io st).
Definition set_srlData (v : option NintendoDS) (st : State) : State :=
  mkState (file st) (romType st) (headers_loaded st) (media_unit_shift st)
    (cia_header st) (tmd_header st) (content_start_addr st) (ncsd_header st)
    (content_count st) (content_chunks st) (ncch_offset st) (ncch_length st)
    (ncch_header st) (ncch_exheader st) v (io st).
Definition set_io (v : list (Z * Z)) (st : State) : State :=
  mkState (file st) (romType st) (headers_loaded st) (media_unit_shift st)
    (cia_header st) (tmd_header st) (content_start_addr st) (ncsd_header st)
    (content_count st) (content_chunks st) (ncch_offset st) (ncch_length st)
    (ncch_header st) (ncch_exheader st) (srlData st) v.

(** [file->seek(pos)] succeeds on a position that is not negative. *)
Definition seek_ok (pos : Z) : bool := 0 <=? pos.

(** [file->read(buf, size)] after a successful [file->seek(pos)]. *)
Definition read_at (pos size : Z) (st : State) : list Z * State :=
  (seekAndRead (file st) pos size, set_io ((pos, size) :: io st) st).

Definition has_header (st : State) (h : Z) : bool :=
  negb (Z.land (headers_loaded st) h =? 0).

(** The signature length selected by the [switch] of [loadTMD] on
    [signature_type & 0x07]. *)
Definition tmd_sig_len (k : Z) : option Z :=
  if (k =? Z.land (N3DS_TMD_RSA_4096_SHA1 S) 7) ||
     (k =? Z.land (N3DS_TMD_RSA_4096_SHA256 S) 7)
  then Some (4 + 512 + 60)
  else if (k =? Z.land (N3DS_TMD_RSA_2048_SHA1 S) 7) ||
          (k =? Z.land (N3DS_TMD_RSA_2048_SHA256 S) 7)
  then Some (4 + 256 + 60)
  else if (k =? Z.land (N3DS_TMD_EC_SHA1 S) 7) ||
          (k =? Z.land (N3DS_TMD_ECDSA_SHA256 S) 7)
  then Some (4 + 60 + 64)
  else None.

(** Consecutive structures of [size] bytes laid over a buffer. *)
Fixpoint chunks (n : nat) (size : nat) (buf : list Z) : list (list Z) :=
  match n with
  | O => []
  | Datatypes.S n' => take size buf :: chunks n' size (drop size buf)
  end.

(** The DSiWare probe at the end of [loadTMD].  With no content chunk the
    source still reads [content_chunks[0]], outside the empty array. *)
Definition probe_srl (st : State) : outcome State :=
  if (content_count st <=? 2) &&
     match srlData st with None => true | Some _ => false end
  then
    match content_chunks st with
    | [] =>
        OutOfBounds 0 (sizeof_N3DS_Content_Chunk_Record_t S) 0
    | c :: _ =>
        let offset := content_start_addr st in
        let length := u32 (be64_to_cpu (chunk_size c)) in
        if length >=? 32768 then
          match NintendoDS_open (file st) offset length with
          | Some srl => Done (set_srlData (Some srl) st)
          | None => Done st
          end
        else Done st
    end
  else Done st.

(** [Nintendo3DSPrivate::loadTMD]. *)
Definition loadTMD (st : State) : outcome Z * State :=
  if has_header st HEADER_TMD then (Done 0, st)
  else if negb (romType st =? ROM_TYPE_CIA) then (Done (-1), st)
  else
    let h := cia_header st in
    let tmd_start :=
      u32 (toNext64 32 (le32_to_cpu (header_size h)) +
           toNext64 32 (le32_to_cpu (cert_chain_size h)) +
           toNext64 32 (le32_to_cpu (ticket_size h))) in
    if negb (seek_ok tmd_start) then (Done (-2), st)
    else
      let '(sig, st1) := read_at tmd_start 4 st in
      if negb (Z.of_nat (List.length sig) =? 4) then (Done (-3), st1)
      else
        let signature_type := be32_to_cpu (le_decode sig) in
        if negb (Z.land signature_type 4294967288 =? 65536)
        then (Done (-4), st1)
        else
          match tmd_sig_len (Z.land signature_type 7) with
          | None => (Done (-4), st1)
          | Some sig_len =>
              let tmd_size' := le32_to_cpu (tmd_size h) in
              if tmd_size' <? sizeof_N3DS_TMD_t S + sig_len
              then (Done (-5), st1)
              else
                let addr := u32 (tmd_start + sig_len) in
                if negb (seek_ok addr) then (Done (-6), st1)
                else
                  let '(raw, st2) :=
                    read_at addr (sizeof_N3DS_TMD_Header_t S) st1 in
                  if negb (Z.of_nat (List.length raw) =?
                             sizeof_N3DS_TMD_Header_t S)
                  then (Done (-7), st2)
                  else
                    let st3 :=
                      set_tmd_header (as_N3DS_TMD_Header_t S raw) st2 in
                    let addr := u32 (addr + sizeof_N3DS_TMD_t S) in
                    if negb (seek_ok addr) then (Done (-8), st3)
                    else
                      let count :=
                        be16_to_cpu (tmd_content_count (tmd_header st3)) in
                      let content_chunks_size :=
                        count * sizeof_N3DS_Content_Chunk_Record_t S in
                      let '(craw, st4) :=
                        read_at addr content_chunks_size st3 in
                      if negb (Z.of_nat (List.length craw) =?
                                 content_chunks_size)
                      then
                        (Done (-9),
                         set_content_chunks [] (set_content_count 0 st4))
                      else
                        let st5 :=
                          set_content_start_addr
                            (u32 (tmd_start + toNext64 32 tmd_size'))
                            (set_content_chunks
                               (map (as_N3DS_Content_Chunk_Record_t S)
                                  (chunks (Z.to_nat count)
                                     (Z.to_nat
                                        (sizeof_N3DS_Content_Chunk_Record_t S))
                                     craw))
                               (set_content_count count st4)) in
                        match probe_srl st5 with
                        | OutOfBounds o s l => (OutOfBounds o s l, st5)
                        | NullDeref => (NullDeref, st5)
                        | Done st6 =>
                            (Done 0,
                             set_headers_loaded
                               (Z.lor (headers_loaded st6) HEADER_TMD) st6)
                        end
          end.

(** The loop of [loadNCCH] over the content chunks: the offset of the
    chunk with index [idx] and its length (0 when there is none). *)
Fixpoint find_chunk (cs : list N3DS_Content_Chunk_Record_t) (idx : Z)
    (offset : Z) : Z * Z :=
  match cs with
  | [] => (offset, 0)
  | c :: cs' =>
      if be16_to_cpu (chunk_index c) =? idx
      then (offset, u32 (be64_to_cpu (chunk_size c)))
      else
        find_chunk cs' idx
          (s64 (offset + toNext64 64 (be64_to_cpu (chunk_size c))))
  end.

(** The end of [loadNCCH(idx, ...)], common to both container types: the
    header is read at [offset + 0x100] into [*pNcchHeader] and its magic
    is verified.  The result is the return code, the contents of
    [*pNcchHeader] after the call, and the values stored through
    [pOffset] and [pLength] on success. *)
Definition read_ncch (offset length : Z) (hdr0 : N3DS_NCCH_Header_NoSig_t)
    (st : State)
    : (Z * N3DS_NCCH_Header_NoSig_t * option (Z * Z)) * State :=
  if negb (seek_ok (s64 (offset + 256))) then ((-4, hdr0, None), st)
  else
    let '(raw, st1) :=
      read_at (s64 (offset + 256)) (sizeof_N3DS_NCCH_Header_NoSig_t S) st in
    if negb (Z.of_nat (List.length raw) =? sizeof_N3DS_NCCH_Header_NoSig_t S)
    then ((-5, hdr0, None), st1)
    else
      let hdr := as_N3DS_NCCH_Header_NoSig_t S raw in
      if negb (bool_decide
                 (ncch_magic hdr =
                  take (List.length (ncch_magic hdr))
                    (N3DS_NCCH_HEADER_MAGIC S)))
      then ((-99, hdr, None), st1)
      else ((0, hdr, Some (offset, length)), st1).

(** [Nintendo3DSPrivate::loadNCCH(idx, pNcchHeader, pOffset, pLength)],
    for a [pNcchHeader] that is not null and holds [hdr0]. *)
Definition loadNCCH_idx (idx : Z) (hdr0 : N3DS_NCCH_Header_NoSig_t)
    (st : State)
    : outcome (Z * N3DS_NCCH_Header_NoSig_t * option (Z * Z)) * State :=
  if romType st =? ROM_TYPE_CIA then
    if negb (has_header st HEADER_CIA) then (Done (-1, hdr0, None), st)
    else
      match loadTMD st with
      | (OutOfBounds o s l, st1) => (OutOfBounds o s l, st1)
      | (NullDeref, st1) => (NullDeref, st1)
      | (Done r, st1) =>
          if negb (r =? 0) then (Done (-2, hdr0, None), st1)
          else if u32 idx >=? content_count st1
          then (Done (-3, hdr0, None), st1)
          else
            let '(offset, length) :=
              find_chunk
                (take (Z.to_nat (content_count st1)) (content_chunks st1))
                idx 0 in
            if length =? 0 then (Done (-4, hdr0, None), st1)
            else
              let offset := s64 (offset + content_start_addr st1) in
              let '(res, st2) := read_ncch offset length hdr0 st1 in
              (Done res, st2)
      end
  else if romType st =? ROM_TYPE_CCI then
    if negb (has_header st HEADER_NCSD) then (Done (-1, hdr0, None), st)
    else if (idx <? 0) || (idx >=? 8) then (Done (-2, hdr0, None), st)
    else
      let part :=
        nth (Z.to_nat idx) (partitions (ncsd_header st)) (mkPartition 0 0) in
      let offset :=
        s64 (le32_to_cpu (part_offset part) * 2 ^ media_unit_shift st) in
      let length :=
        u32 (le32_to_cpu (part_length part) * 2 ^ media_unit_shift st) in
      if offset <=? 8192 then (Done (-3, hdr0, None), st)
      else
        let '(res, st1) := read_ncch offset length hdr0 st in
        (Done res, st1)
  else (Done (-98, hdr0, None), st).

(** [Nintendo3DSPrivate::loadNCCH(void)]. *)
Definition loadNCCH (st : State) : outcome Z * State :=
  if has_header st HEADER_NCCH then (Done 0, st)
  else
    match loadNCCH_idx 0 (ncch_header st) st with
    | (OutOfBounds o s l, st1) => (OutOfBounds o s l, st1)
    | (NullDeref, st1) => (NullDeref, st1)
    | (Done (ret, hdr, ol), st1) =>
        let st2 := set_ncch_header hdr st1 in
        let st3 :=
          match ol with
          | Some (offset, length) =>
              set_ncch_length length (set_ncch_offset offset st2)
          | None => st2
          end in
        if ret =? 0
        then
          (Done ret,
           set_headers_loaded (Z.lor (headers_loaded st3) HEADER_NCCH) st3)
        else (Done ret, st3)
    end.

Definition ncch_flag (st : State) (mask : Z) : bool :=
  negb (Z.land
          (nth (N3DS_NCCH_FLAG_BIT_MASKS S) (ncch_flags (ncch_header st)) 0)
          mask =? 0).

(** The crypto selection of [loadExHeader]: the key to use ([None] when
    nothing is decrypted), or the error code. *)
Definition exheader_key (st : State) : Z + option (list Z) :=
  if ENABLE_DECRYPTION then
    if ncch_flag st (N3DS_NCCH_BIT_MASK_NoCrypto S) then inr None
    else if ncch_flag st (N3DS_NCCH_BIT_MASK_FixedCryptoKey S)
    then inr (Some (replicate 16 0))
    else inl (-95)
  else
    if negb (ncch_flag st (N3DS_NCCH_BIT_MASK_NoCrypto S)) then inl (-95)
    else inr None.

(** The part of [loadExHeader] that follows the crypto selection. *)
Definition readExHeader (key : option (list Z)) (st : State)
    : outcome Z * State :=
  let exheader_offset := s64 (ncch_offset st + sizeof_N3DS_NCCH_Header_t S) in
  let exheader_length := le32_to_cpu (exheader_size (ncch_header st)) in
  if exheader_length <? N3DS_NCCH_EXHEADER_MIN_SIZE S then (Done (-96), st)
  else
    let exheader_length :=
      Z.land (u32 (exheader_length + 15)) (u32 (Z.lnot 15)) in
    if negb (seek_ok exheader_offset) then (Done (-97), st)
    else
      let '(raw, st1) := read_at exheader_offset exheader_length st in
      let size := Z.of_nat (List.length raw) in
      if size >? sizeof_N3DS_NCCH_ExHeader_t S
      then (OutOfBounds 0 size (sizeof_N3DS_NCCH_ExHeader_t S), st1)
      else
        let st2 :=
          set_ncch_exheader
            (raw ++ drop (List.length raw) (ncch_exheader st1)) st1 in
        if negb (size =? exheader_length) then (Done (-98), st2)
        else
          let st3 :=
            if exheader_length <? sizeof_N3DS_NCCH_ExHeader_t S
            then
              set_ncch_exheader
                (raw ++
                 replicate
                   (Z.to_nat (sizeof_N3DS_NCCH_ExHeader_t S - exheader_length))
                   0) st2
            else st2 in
          match key with
          | Some key =>
              let tid_be := bswap 8 (program_id (ncch_header st3)) in
              let counter :=
                le_encode 8 tid_be ++ [N3DS_NCCH_SECTION_EXHEADER S] ++
                replicate 7 0 in
              let '(data, dsize) :=
                AesCTR_decrypt key counter
                  (take (Z.to_nat exheader_length) (ncch_exheader st3)) in
              let st4 :=
                set_ncch_exheader
                  (data ++
                   drop (Z.to_nat exheader_length) (ncch_exheader st3)) st3 in
              if negb (dsize =? exheader_length) then (Done (-99), st4)
              else
                (Done 0,
                 set_headers_loaded
                   (Z.lor (headers_loaded st4) HEADER_EXHEADER) st4)
          | None =>
              (Done 0,
               set_headers_loaded
                 (Z.lor (headers_loaded st3) HEADER_EXHEADER) st3)
          end.

(** [Nintendo3DSPrivate::loadExHeader]. *)
Definition loadExHeader (st : State) : outcome Z * State :=
  if has_header st HEADER_EXHEADER then (Done 0, st)
  else
    let after_ncch :=
      if negb (has_header st HEADER_NCCH) then loadNCCH st
      else (Done 0, st) in
    match after_ncch with
    | (OutOfBounds o s l, st1) => (OutOfBounds o s l, st1)
    | (NullDeref, st1) => (NullDeref, st1)
    | (Done ret, st1) =>
        if negb (ret =? 0) then (Done (-2), st1)
        else
          match exheader_key st1 with
          | inl err => (Done err, st1)
          | inr key => readExHeader key st1
          end
    end.

(** The object built by [Nintendo3DSPrivate::Nintendo3DSPrivate]. *)
Definition State_new (f : list Z) : State :=
  mkState f ROM_TYPE_UNKNOWN 0 9
    (as_N3DS_CIA_Header_t S []) (as_N3DS_TMD_Header_t S []) 0
    (as_N3DS_NCSD_Header_NoSig_t S []) 0 [] 0 0
    (as_N3DS_NCCH_Header_NoSig_t S [])
    (replicate (Z.to_nat (sizeof_N3DS_NCCH_ExHeader_t S)) 0) None [].

Definition set_romType (v : Z) (st : State) : State :=
  mkState (file st) v (headers_loaded st) (media_unit_shift st)
    (cia_header st) (tmd_header st) (content_start_addr st) (ncsd_header st)
    (content_count st) (content_chunks st) (ncch_offset st) (ncch_length st)
    (ncch_header st) (ncch_exheader st) (srlData st) (io st).
Definition set_media_unit_shift (v : Z) (st : State) : State :=
  mkState (file st) (romType st) (headers_loaded st) v
    (cia_header st) (tmd_header st) (content_start_addr st) (ncsd_header st)
    (content_count st) (content_chunks st) (ncch_offset st) (ncch_length st)
    (ncch_header st) (ncch_exheader st) (srlData st) (io st).
Definition set_cia_header (v : N3DS_CIA_Header_t) (st : State) : State :=
  mkState (file st) (romType st) (headers_loaded st) (media_unit_shift st)
    v (tmd_header st) (content_start_addr st) (ncsd_header st)
    (content_count st) (content_chunks st) (ncch_offset st) (ncch_length st)
    (ncch_header st) (ncch_exheader st) (srlData st) (io st).
Definition set_ncsd_header (v : N3DS_NCSD_Header_NoSig_t) (st : State)
    : State :=
  mkState (file st) (romType st) (headers_loaded st) (media_unit_shift st)
    (cia_header st) (tmd_header st) (content_start_addr st) v
    (content_count st) (content_chunks st) (ncch_offset st) (ncch_length st)
    (ncch_header st) (ncch_exheader st) (srlData st) (io st).

(** [Nintendo3DS::Nintendo3DS], on the contents of the file and the
    extension of its name ([FileSystem::file_ext]). *)
Definition Nintendo3DS (f : list Z) (ext : list Z) : State :=
  let st := State_new f in
  let header := seekAndRead f 0 8224 in
  if negb (Z.of_nat (List.length header) =? 8224) then st
  else
    let info :=
      RomData.mkDetectInfo 0 8224 (Some header) (Some ext)
        (Z.of_nat (List.length f)) in
    let romType' := isRomSupported_static (Some info) in
    let st := set_romType romType' st in
    if romType' =? ROM_TYPE_SMDH then st
    else if romType' =? ROM_TYPE_3DSX then
      set_headers_loaded (Z.lor (headers_loaded st) HEADER_3DSX) st
    else if romType' =? ROM_TYPE_CIA then
      set_headers_loaded (Z.lor (headers_loaded st) HEADER_CIA)
        (set_cia_header (as_N3DS_CIA_Header_t S header) st)
    else if romType' =? ROM_TYPE_CCI then
      let ncsd :=
        as_N3DS_NCSD_Header_NoSig_t S
          (drop (Z.to_nat (N3DS_NCSD_NOSIG_HEADER_ADDRESS S)) header) in
      set_headers_loaded (Z.lor (headers_loaded st) HEADER_NCSD)
        (set_media_unit_shift (u8 (9 + media_unit_size ncsd))
           (set_ncsd_header ncsd st))
    else if romType' =? ROM_TYPE_eMMC then
      set_headers_loaded (Z.lor (headers_loaded st) HEADER_NCSD)
        (set_ncsd_header
           (as_N3DS_NCSD_Header_NoSig_t S
              (drop (Z.to_nat (N3DS_NCSD_NOSIG_HEADER_ADDRESS S)) header))
           st)
    else set_romType ROM_TYPE_UNKNOWN st.

End Decoder.

(** Modelled from the spec: the structures and constants of
    [n3ds_structs.h], which is not among the sources; the formats' magic
    numbers, header layouts and field widths, which are to be reproduced
    bit for bit.  Used to run the decoder on concrete files. *)
Definition n3ds_structs : Structs :=
  {| sizeof_N3DS_CIA_Header_t := 8224;
     offsetof_CIA_content_index := 32;
     sizeof_N3DS_SMDH_Header_t := 8256;
     sizeof_N3DS_SMDH_Icon_t := 5760;
     sizeof_N3DS_3DSX_Header_t := 44;
     sizeof_N3DS_TMD_Header_t := 196;
     sizeof_N3DS_TMD_t := 2500;
     sizeof_N3DS_Content_Chunk_Record_t := 48;
     sizeof_N3DS_NCCH_Header_t := 512;
     sizeof_N3DS_NCCH_Header_NoSig_t := 256;
     sizeof_N3DS_NCCH_ExHeader_t := 2048;
     N3DS_NCCH_EXHEADER_MIN_SIZE := 1024;
     N3DS_NCSD_NOSIG_HEADER_ADDRESS := 256;
     N3DS_SMDH_HEADER_MAGIC := ascii_bytes "SMDH";
     N3DS_3DSX_HEADER_MAGIC := ascii_bytes "3DSX";
     N3DS_NCSD_HEADER_MAGIC := ascii_bytes "NCSD";
     N3DS_NCCH_HEADER_MAGIC := ascii_bytes "NCCH";
     N3DS_NCCH_FLAG_BIT_MASKS := 7;
     N3DS_NCCH_BIT_MASK_NoCrypto := 4;
     N3DS_NCCH_BIT_MASK_FixedCryptoKey := 1;
     N3DS_NCCH_SECTION_EXHEADER := 1;
     N3DS_TMD_RSA_4096_SHA1 := 65536;
     N3DS_TMD_RSA_2048_SHA1 := 65537;
     N3DS_TMD_EC_SHA1 := 65538;
     N3DS_TMD_RSA_4096_SHA256 := 65539;
     N3DS_TMD_RSA_2048_SHA256 := 65540;
     N3DS_TMD_ECDSA_SHA256 := 65541;
     as_N3DS_CIA_Header_t := fun b =>
       mkCIA_Header (field b 0 4) (field b 4 2) (field b 6 2) (field b 8 4)
         (field b 12 4) (field b 16 4) (field b 20 4) (field b 24 8);
     as_N3DS_TMD_Header_t := fun b => mkTMD_Header (field b 158 2);
     as_N3DS_Content_Chunk_Record_t := fun b =>
       mkChunk (field b 4 2) (field b 8 8);
     as_N3DS_NCCH_Header_NoSig_t := fun b =>
       mkNCCH_Header (take 4 (b ++ replicate 4 0)) (field b 128 4)
         (take 8 (drop 136 b ++ replicate 8 0)) (field b 24 8);
     as_N3DS_NCSD_Header_NoSig_t := fun b =>
       mkNCSD_Header (take 4 (b ++ replicate 4 0))
         (take 8 (drop 24 b ++ replicate 8 0))
         (map (fun i => mkPartition (field b (32 + 8 * i) 4)
                          (field b (36 + 8 * i) 4)) (seq 0 8))
         (field b 142 1) |}.

(** The code of a character constant such as ['A']. *)
Definition char (a : ascii) : Z := Z.of_N (N_of_ascii a).

(** The region bits of [n3ds_structs.h] that [n3dsRegionToGameTDB] names:
    pairwise different constants, as labels of one [switch]. *)
Record Regions := mkRegions {
  N3DS_REGION_JAPAN : Z;
  N3DS_REGION_USA : Z;
  N3DS_REGION_EUROPE : Z;
  N3DS_REGION_AUSTRALIA : Z;
  N3DS_REGION_CHINA : Z;
  N3DS_REGION_SOUTH_KOREA : Z;
  N3DS_REGION_TAIWAN : Z
}.

(** [Nintendo3DSPrivate::n3dsRegionToGameTDB]: the first [switch] either
    returns at once or leaves a fallback region; the second appends the
    code of the game ID and may set the fallback region; the third appends
    the fallback codes. *)
Definition n3dsRegionToGameTDB (R : Regions) (smdhRegion : Z) (idRegion : Z)
    : list string :=
  let by_smdh : list string + Z :=
    if smdhRegion =? N3DS_REGION_JAPAN R then inl ["JA"]%string
    else if smdhRegion =? N3DS_REGION_USA R then inl ["US"]%string
    else if (smdhRegion =? N3DS_REGION_EUROPE R) ||
            (smdhRegion =?
               Z.lor (N3DS_REGION_EUROPE R) (N3DS_REGION_AUSTRALIA R))
    then inr 1
    else if smdhRegion =? N3DS_REGION_AUSTRALIA R then inr 2
    else if smdhRegion =? N3DS_REGION_CHINA R
    then inl ["ZHCN"; "JA"; "EN"]%string
    else if smdhRegion =? N3DS_REGION_SOUTH_KOREA R
    then inl ["KO"; "JA"; "EN"]%string
    else if smdhRegion =? N3DS_REGION_TAIWAN R
    then inl ["ZHTW"; "JA"; "EN"]%string
    else inr 0 in
  match by_smdh with
  | inl ret => ret
  | inr fallback_region =>
      let '(ret, fallback_region) :=
        if idRegion =? char "A" then ([], 3)
        else if idRegion =? char "E" then (["US"]%string, fallback_region)
        else if idRegion =? char "J" then (["JA"]%string, fallback_region)
        else if idRegion =? char "D" then (["DE"]%string, fallback_region)
        else if idRegion =? char "F" then (["FR"]%string, fallback_region)
        else if idRegion =? char "H" then (["NL"]%string, fallback_region)
        else if idRegion =? char "I" then (["NL"]%string, fallback_region)
        else if idRegion =? char "R" then (["RU"]%string, fallback_region)
        else if idRegion =? char "S" then (["ES"]%string, fallback_region)
        else if idRegion =? char "U"
        then ([], if fallback_region =? 0 then 2 else fallback_region)
        else ([], if fallback_region =? 0 then 1 else fallback_region) in
      ret ++
      (if fallback_region =? 1 then ["EN"]%string
       else if fallback_region =? 2 then ["AU"; "EN"]%string
       else if fallback_region =? 3 then ["US"]%string
       else [])
  end.

(** [Nintendo3DSPrivate::getNCCHCryptoType]; [crypto_method] is the index
    [N3DS_NCCH_FLAG_CRYPTO_METHOD] of [n3ds_structs.h]. *)
Definition getNCCHCryptoType (S : Structs) (crypto_method : nat)
    (pNcchHeader : N3DS_NCCH_Header_NoSig_t) : option string :=
  if negb (Z.land (nth (N3DS_NCCH_FLAG_BIT_MASKS S) (ncch_flags pNcchHeader) 0)
             (N3DS_NCCH_BIT_MASK_NoCrypto S) =? 0)
  then Some "NoCrypto"%string
  else if negb (Z.land
                  (nth (N3DS_NCCH_FLAG_BIT_MASKS S) (ncch_flags pNcchHeader)
                     0)
                  (N3DS_NCCH_BIT_MASK_FixedCryptoKey S) =? 0)
  then Some "Fixed (?)"%string
  else
    let m := nth crypto_method (ncch_flags pNcchHeader) 0 in
    if m =? 1 then Some "Slot0x25"%string
    else if m =? 10 then Some "Slot0x18"%string
    else if m =? 11 then Some "Slot0x1B"%string
    else None.


End N3DS.

(** ** Xbox 360 XEX ([Console/Xbox360_XEX.cpp]) *)

Module XEX.

(** The structures of [xbox360_xex_structs.h], reduced to the members the
    decoder reads, as the host reads them. *)
Record XEX2_Header := mkXEX2_Header {
  magic : Z;
  module_flags : Z;
  pe_offset : Z;
  reserved : Z;
  sec_info_offset : Z;
  opt_header_count : Z
}.

Record XEX2_Security_Info := mkXEX2_Security_Info {
  load_address : Z;
  title_key : list Z
}.

Record XEX2_Optional_Header_Tbl := mkOptHdr {
  header_id : Z;
  offset : Z
}.

Record XEX2_File_Format_Info := mkFileFormatInfo {
  size : Z;
  encryption_type : Z;
  compression_type : Z
}.

Record XEX2_Compression_Basic_Info := mkBasicInfo {
  data_size : Z;
  zero_size : Z
}.

(** [Xbox360_XEX_Private::BasicZDataSeg_t]. *)
Record BasicZDataSeg_t := mkSeg {
  vaddr : Z;
  physaddr : Z;
  length : Z
}.

(** What the decoder takes from [xbox360_xex_structs.h]. *)
Record Structs := mkStructs {
  sizeof_XEX2_Header : Z;
  sizeof_XEX2_Security_Info : Z;
  sizeof_XEX2_Optional_Header_Tbl : Z;
  sizeof_XEX2_File_Format_Info : Z;
  sizeof_XEX2_Compression_Basic_Info : Z;
  XEX2_MAGIC : Z;
  XEX2_OPTHDR_FILE_FORMAT_INFO : Z;
  XEX2_ENCRYPTION_TYPE_NONE : Z;
  XEX2_COMPRESSION_TYPE_NONE : Z;
  XEX2_COMPRESSION_TYPE_BASIC : Z;
  as_XEX2_Header : list Z -> XEX2_Header;
  as_XEX2_Security_Info : list Z -> XEX2_Security_Info;
  as_XEX2_Optional_Header_Tbl : list Z -> XEX2_Optional_Header_Tbl;
  as_XEX2_File_Format_Info : list Z -> XEX2_File_Format_Info;
  as_XEX2_Compression_Basic_Info : list Z -> XEX2_Compression_Basic_Info
}.

(** [KeyManager::VerifyResult]: [VERIFY_OK] or one of the error values. *)
Inductive VerifyResult :=
| VERIFY_OK
| VERIFY_ERROR (code : Z).

(** A [CBCReader]: the arguments of its constructor (a null key is [None])
    and its read position. *)
Record CBCReader := mkCBCReader {
  cbc_file : list Z;
  cbc_offset : Z;
  cbc_length : Z;
  cbc_key : option (list Z);
  cbc_iv : option (list Z);
  cbc_pos : Z
}.

Section Decoder.

Variable S : Structs.

(** Build option: [ENABLE_DECRYPTION]. *)
Variable ENABLE_DECRYPTION : bool.

(** Collaborators.  [getAndVerify_retail] is the result of
    [KeyManager::getAndVerify] for the retail key: the verification result
    and the key data.  [cipher_setKey], [cipher_setChainingMode_CBC] and
    [cipher_decrypt key data iv] are the operations of the [IAesCipher]
    instance (the last gives the data after the call and the size
    returned).  [CBCReader_isOpen] and [CBCReader_read r n] are the
    operations of [CBCReader] (the bytes read and the reader after the
    read).  The key manager and the cipher instance exist in a build with
    [ENABLE_DECRYPTION]. *)
Variable getAndVerify_retail : VerifyResult * list Z.
Variable cipher_setKey : list Z -> Z.
Variable cipher_setChainingMode_CBC : Z.
Variable cipher_decrypt : list Z -> list Z -> list Z -> list Z * Z.
Variable CBCReader_isOpen : CBCReader -> bool.
Variable CBCReader_read : CBCReader -> Z -> list Z * CBCReader.

(** What storage holds before the program writes to it.  [operator new[]]
    and the [resize] of [ao::uvector] (of [uvector.h], which is not among
    the sources: a vector that does not initialise the elements it adds)
    hand out storage whose contents the program does not determine:
    [fresh_byte i] is byte [i] of the record buffer of [initPeReader] as it
    is allocated, and [fresh_segment i] is element [i] of the segment
    table as [resize] adds it. *)
Variable fresh_byte : nat -> Z.
Variable fresh_segment : nat -> BasicZDataSeg_t.

(** [Xbox360_XEX_Private]; a null pointer is [None]. *)
Record State := mkState {
  file : option (list Z);
  isValid : bool;
  xex2Header : XEX2_Header;
  xex2Security : XEX2_Security_Info;
  optHdrTbl : list XEX2_Optional_Header_Tbl;
  fileFormatInfo : XEX2_File_Format_Info;
  keyInUse : Z;
  basicZDataSegments : list BasicZDataSeg_t;
  peReader : option CBCReader
}.

Definition set_fileFormatInfo (v : XEX2_File_Format_Info) (st : State)
    : State :=
  mkState (file st) (isValid st) (xex2Header st) (xex2Security st)
    (optHdrTbl st) v (keyInUse st) (basicZDataSegments st) (peReader st).
Definition set_keyInUse (v : Z) (st : State) : State :=
  mkState (file st) (isValid st) (xex2Header st) (xex2Security st)
    (optHdrTbl st) (fileFormatInfo st) v (basicZDataSegments st)
    (peReader st).
Definition set_basicZDataSegments (v : list BasicZDataSeg_t) (st : State)
    : State :=
  mkState (file st) (isValid st) (xex2Header st) (xex2Security st)
    (optHdrTbl st) (fileFormatInfo st) (keyInUse st) v (peReader st).
Definition set_peReader (v : option CBCReader) (st : State) : State :=
  mkState (file st) (isValid st) (xex2Header st) (xex2Security st)
    (optHdrTbl st) (fileFormatInfo st) (keyInUse st)
    (basicZDataSegments st) v.

(** [Xbox360_XEX::isRomSupported_static]. *)
Definition isRomSupported_static (info : option RomData.DetectInfo) : Z :=
  match info with
  | None => -1
  | Some info =>
      match RomData.header_pData info with
      | None => -1
      | Some pData =>
          if negb (RomData.header_addr info =? 0) ||
             (RomData.header_size info <? sizeof_XEX2_Header S) then -1
          else if magic (as_XEX2_Header S pData) =? cpu_to_be32 (XEX2_MAGIC S)
          then 0 else -1
      end
  end.

(** Consecutive structures of [size] bytes laid over a buffer. *)
Fixpoint chunks (n : nat) (size : nat) (buf : list Z) : list (list Z) :=
  match n with
  | O => []
  | Datatypes.S n' => take size buf :: chunks n' size (drop size buf)
  end.

(** The object left by a constructor that gives up: the file is closed
    and the magic number cleared. *)
Definition closed (valid : bool) (h : XEX2_Header)
    (sec : XEX2_Security_Info) : State :=
  mkState None valid
    (mkXEX2_Header 0 (module_flags h) (pe_offset h) (reserved h)
       (sec_info_offset h) (opt_header_count h))
    sec [] (mkFileFormatInfo 0 0 0) (-1) [] None.

(** [Xbox360_XEX::Xbox360_XEX], on the contents of the file. *)
Definition Xbox360_XEX (f : list Z) : State :=
  let sec0 := mkXEX2_Security_Info 0 (replicate 16 0) in
  let raw := seekAndRead f 0 (sizeof_XEX2_Header S) in
  let h := as_XEX2_Header S raw in
  if negb (Z.of_nat (List.length raw) =? sizeof_XEX2_Header S)
  then closed false h sec0
  else
    let info :=
      RomData.mkDetectInfo 0 (sizeof_XEX2_Header S) (Some raw) None 0 in
    if negb (isRomSupported_static (Some info) >=? 0)
    then closed false h sec0
    else
      let h' :=
        mkXEX2_Header (magic h) (be32_to_cpu (module_flags h))
          (be32_to_cpu (pe_offset h)) (be32_to_cpu (reserved h))
          (be32_to_cpu (sec_info_offset h))
          (be32_to_cpu (opt_header_count h)) in
      let sraw :=
        seekAndRead f (sec_info_offset h') (sizeof_XEX2_Security_Info S) in
      if negb (Z.of_nat (List.length sraw) =? sizeof_XEX2_Security_Info S)
      then closed true h' sec0
      else
        let sec := as_XEX2_Security_Info S sraw in
        let opt_header_count' := Z.min (opt_header_count h') 32 in
        let opt_header_sz :=
          opt_header_count' * sizeof_XEX2_Optional_Header_Tbl S in
        let traw := seekAndRead f (sizeof_XEX2_Header S) opt_header_sz in
        if negb (Z.of_nat (List.length traw) =? opt_header_sz)
        then closed true h' sec
        else
          mkState (Some f) true h' sec
            (map (as_XEX2_Optional_Header_Tbl S)
               (chunks (Z.to_nat opt_header_count')
                  (Z.to_nat (sizeof_XEX2_Optional_Header_Tbl S)) traw))
            (mkFileFormatInfo 0 0 0) (-1) [] None.

(** [Xbox360_XEX_Private::getOptHdrTblEntry]. *)
Definition getOptHdrTblEntry (st : State) (header_id' : Z)
    : option XEX2_Optional_Header_Tbl :=
  match optHdrTbl st with
  | [] => None
  | tbl =>
      let header_id' := cpu_to_be32 header_id' in
      List.find (fun e => header_id e =? header_id') tbl
  end.

(** The segment table built for basic compression: one segment per
    [XEX2_Compression_Basic_Info] record. *)
Fixpoint basic_segments (cbi : list XEX2_Compression_Basic_Info)
    (vaddr' physaddr' : Z) : list BasicZDataSeg_t :=
  match cbi with
  | [] => []
  | p :: cbi' =>
      let data_size' := be32_to_cpu (data_size p) in
      mkSeg vaddr' physaddr' data_size' ::
      basic_segments cbi'
        (u32 (u32 (vaddr' + data_size') + be32_to_cpu (zero_size p)))
        (u32 (physaddr' + data_size'))
  end.

(** The reader that a round of the key loop opens for [key]: a new
    [CBCReader] over the PE image, keyed with the title key decrypted under
    [key], with an all-zero IV. *)
Definition key_reader (f : list Z) (pe_offset' pe_length : Z)
    (title_key' key : list Z) : CBCReader :=
  mkCBCReader f pe_offset' pe_length
    (Some (fst (cipher_decrypt key title_key' (replicate 16 0))))
    (Some (replicate 16 0)) 0.

(** The length of the PE image as [initPeReader] computes it in [size_t]:
    the file size minus [pe_offset]. *)
Definition pe_length (st : State) (f : list Z) : Z :=
  (Z.of_nat (List.length f) - pe_offset (xex2Header st)) mod 2^64.

(** One round of the key loop of [initPeReader] for the key [key]: the
    reader that the round keeps, if any. *)
Definition try_key (f : list Z) (pe_offset' pe_length : Z)
    (title_key' : list Z) (key : list Z) : option CBCReader :=
  let zero16 := replicate 16 0 in
  let ret := Z.lor (cipher_setKey key) cipher_setChainingMode_CBC in
  if negb (ret =? 0) then None
  else
    let '(title_key'', dsize) := cipher_decrypt key title_key' zero16 in
    if negb (dsize =? 16) then None
    else
      let reader :=
        mkCBCReader f pe_offset' pe_length (Some title_key'') (Some zero16)
          0 in
      if negb (CBCReader_isOpen reader) then None
      else
        let '(mzb, reader') := CBCReader_read reader 2 in
        if negb (Z.of_nat (List.length mzb) =? 2) then None
        else if negb (le_decode mzb =? cpu_to_be16 (multichar "MZ"))
        then None
        else Some reader'.

(** The key loop of [initPeReader] over the entries [i, i+1, ...] of
    [keyData]: the reader and the index of the key that opened it. *)
Fixpoint try_keys (f : list Z) (pe_offset' pe_length : Z)
    (title_key' : list Z) (keyData : list (list Z)) (i : Z)
    : option (CBCReader * Z) :=
  match keyData with
  | [] => None
  | key :: rest =>
      match try_key f pe_offset' pe_length title_key' key with
      | Some reader => Some (reader, i)
      | None => try_keys f pe_offset' pe_length title_key' rest (i + 1)
      end
  end.

(** The part of [initPeReader] for a file with basic compression
    (l.257-287); [Done None] when there is no segment information.  The
    record buffer has room for [seg_count] records and the read asks for
    [seg_len] bytes, which is more when [seg_len] is not a multiple of the
    record size: bytes read beyond the buffer are written outside it.
    The size that the read returns is not looked at: records that a short
    read does not reach keep what the buffer held.  The segment table is
    resized to [seg_len] entries, one per byte of the segment information,
    and the loop assigns the first [seg_count] of them. *)
Definition load_basic_segments (f : list Z) (pos : Z) (st : State)
    : outcome (option State) :=
  if size (fileFormatInfo st) <=? sizeof_XEX2_File_Format_Info S
  then Done None
  else
    let seg_len :=
      u32 (size (fileFormatInfo st) - sizeof_XEX2_File_Format_Info S) in
    let seg_count := seg_len / sizeof_XEX2_Compression_Basic_Info S in
    let room := seg_count * sizeof_XEX2_Compression_Basic_Info S in
    let raw := seekAndRead f pos seg_len in
    if Z.of_nat (List.length raw) >? room
    then OutOfBounds 0 (Z.of_nat (List.length raw)) room
    else
      let buf :=
        raw ++
        map fresh_byte
          (seq (List.length raw) (Z.to_nat room - List.length raw)) in
      let cbi :=
        map (as_XEX2_Compression_Basic_Info S)
          (chunks (Z.to_nat seg_count)
             (Z.to_nat (sizeof_XEX2_Compression_Basic_Info S)) buf) in
      let old := basicZDataSegments st in
      let resized :=
        take (Z.to_nat seg_len) old ++
        map fresh_segment
          (seq (List.length old) (Z.to_nat seg_len - List.length old)) in
      Done
        (Some
           (set_basicZDataSegments
              (basic_segments cbi 0 0 ++ drop (Z.to_nat seg_count) resized)
              st)).

(** [initPeReader] up to the creation of the reader (l.231-288): the file
    format info is read and byte-swapped and, for basic compression, the
    segment table is built.  [Done None] is a return of [nullptr];
    [Done (Some f)] is the open file with which the function goes on.
    The read goes through [file] without a test of the pointer. *)
Definition load_format_info (st : State)
    : outcome (option (list Z)) * State :=
  match getOptHdrTblEntry st (XEX2_OPTHDR_FILE_FORMAT_INFO S) with
  | None => (Done None, st)
  | Some entry =>
      match file st with
      | None => (NullDeref, st)
      | Some f =>
          let pos := be32_to_cpu (offset entry) in
          let raw := seekAndRead f pos (sizeof_XEX2_File_Format_Info S) in
          if negb (Z.of_nat (List.length raw) =?
                     sizeof_XEX2_File_Format_Info S)
          then (Done None, st)
          else
            let ffi := as_XEX2_File_Format_Info S raw in
            let st1 :=
              set_fileFormatInfo
                (mkFileFormatInfo (be32_to_cpu (size ffi))
                   (be16_to_cpu (encryption_type ffi))
                   (be16_to_cpu (compression_type ffi))) st in
            if compression_type (fileFormatInfo st1) =?
               XEX2_COMPRESSION_TYPE_BASIC S
            then
              match load_basic_segments f
                      (pos + sizeof_XEX2_File_Format_Info S) st1 with
              | Done (Some st2) => (Done (Some f), st2)
              | Done None => (Done None, st1)
              | OutOfBounds o s l => (OutOfBounds o s l, st1)
              | NullDeref => (NullDeref, st1)
              end
            else (Done (Some f), st1)
      end
  end.

(** The rest of [initPeReader] (l.290-392), on the open file [f]: a
    reader without a key for an image that is not encrypted, the key loop
    for an encrypted image in a build with decryption, and the last test
    of the reader. *)
Definition open_pe_reader (f : list Z) (st2 : State)
    : option CBCReader * State :=
  let pe_length := pe_length st2 f in
  let found :=
    if encryption_type (fileFormatInfo st2) =?
       cpu_to_be16 (XEX2_ENCRYPTION_TYPE_NONE S)
    then
      Some
        (mkCBCReader f (pe_offset (xex2Header st2)) pe_length None None 0,
         keyInUse st2)
    else if ENABLE_DECRYPTION then
      let zero16 := replicate 16 0 in
      let '(verifyResult, retail) := getAndVerify_retail in
      let keyData := [retail; zero16] in
      let idx0 :=
        match verifyResult with
        | VERIFY_OK => 0%nat
        | VERIFY_ERROR _ => 1%nat
        end in
      try_keys f (pe_offset (xex2Header st2)) pe_length
        (title_key (xex2Security st2)) (drop idx0 keyData) (Z.of_nat idx0)
    else None in
  match found with
  | Some (reader, i) =>
      let st3 := set_keyInUse i st2 in
      if negb (CBCReader_isOpen reader) then (None, st3)
      else (Some reader, set_peReader (Some reader) st3)
  | None => (None, st2)
  end.

(** [Xbox360_XEX_Private::initPeReader]. *)
Definition initPeReader (st : State) : outcome (option CBCReader) * State :=
  match peReader st with
  | Some r => (Done (Some r), st)
  | None =>
      match load_format_info st with
      | (Done (Some f), st2) =>
          let '(reader, st3) := open_pe_reader f st2 in
          (Done reader, st3)
      | (Done None, st1) => (Done None, st1)
      | (OutOfBounds o s l, st1) => (OutOfBounds o s l, st1)
      | (NullDeref, st1) => (NullDeref, st1)
      end
  end.

End Decoder.

(** Modelled from the spec: the structures and constants of
    [xbox360_xex_structs.h], which is not among the sources; the format's
    magic number, header layouts and field widths, which are to be
    reproduced bit for bit.  Used to run the decoder on concrete files. *)
Definition xex_structs : Structs :=
  {| sizeof_XEX2_Header := 24;
     sizeof_XEX2_Security_Info := 388;
     sizeof_XEX2_Optional_Header_Tbl := 8;
     sizeof_XEX2_File_Format_Info := 8;
     sizeof_XEX2_Compression_Basic_Info := 8;
     XEX2_MAGIC := multichar "XEX2";
     XEX2_OPTHDR_FILE_FORMAT_INFO := 1023;
     XEX2_ENCRYPTION_TYPE_NONE := 0;
     XEX2_COMPRESSION_TYPE_NONE := 0;
     XEX2_COMPRESSION_TYPE_BASIC := 1;
     as_XEX2_Header := fun b =>
       mkXEX2_Header (field b 0 4) (field b 4 4) (field b 8 4) (field b 12 4)
         (field b 16 4) (field b 20 4);
     as_XEX2_Security_Info := fun b =>
       mkXEX2_Security_Info (field b 272 4)
         (take 16 (drop 336 b ++ replicate 16 0));
     as_XEX2_Optional_Header_Tbl := fun b =>
       mkOptHdr (field b 0 4) (field b 4 4);
     as_XEX2_File_Format_Info := fun b =>
       mkFileFormatInfo (field b 0 4) (field b 4 2) (field b 6 2);
     as_XEX2_Compression_Basic_Info := fun b =>
       mkBasicInfo (field b 0 4) (field b 4 4) |}.

(** [XEX2_Resource_Info] of [xbox360_xex_structs.h], reduced to the
    members that [initXDBF] reads, as the host reads them. *)
Record XEX2_Resource_Info := mkResInfo {
  resource_vaddr : Z;
  resource_size : Z
}.

(** What [initXDBF] takes from [xbox360_xex_structs.h]. *)
Record ResourceStructs := mkResourceStructs {
  sizeof_XEX2_Resource_Info : Z;
  XEX2_OPTHDR_RESOURCE_INFO : Z;
  as_XEX2_Resource_Info : list Z -> XEX2_Resource_Info
}.

(** The loop of [initXDBF] over the segment table: the address is moved
    by the first segment that holds it, and kept when no segment does. *)
Fixpoint segment_physaddr (segs : list BasicZDataSeg_t) (xdbf_physaddr : Z)
    : Z :=
  match segs with
  | [] => xdbf_physaddr
  | seg :: segs' =>
      if (xdbf_physaddr >=? vaddr seg) &&
         (xdbf_physaddr <? u32 (vaddr seg + length seg))
      then u32 (xdbf_physaddr - u32 (vaddr seg - physaddr seg))
      else segment_physaddr segs' xdbf_physaddr
  end.

Section Resources.

Variable S : Structs.
Variable R : ResourceStructs.
Variable ENABLE_DECRYPTION : bool.
Variable getAndVerify_retail : VerifyResult * list Z.
Variable cipher_setKey : list Z -> Z.
Variable cipher_setChainingMode_CBC : Z.
Variable cipher_decrypt : list Z -> list Z -> list Z -> list Z * Z.
Variable CBCReader_isOpen : CBCReader -> bool.
Variable CBCReader_read : CBCReader -> Z -> list Z * CBCReader.
Variable fresh_byte : nat -> Z.
Variable fresh_segment : nat -> BasicZDataSeg_t.

(** The collaborators of [initXDBF]: [PartitionFile], constructed over a
    range of the PE reader (the pointer may be null), and the
    [Xbox360_XDBF] object, constructed on a partition file. *)
Variable PartitionFile : Type.
Variable PartitionFile_new : option CBCReader -> Z -> Z -> PartitionFile.
Variable PartitionFile_isOpen : PartitionFile -> bool.
Variable Xbox360_XDBF : Type.
Variable Xbox360_XDBF_new : PartitionFile -> Xbox360_XDBF.
Variable Xbox360_XDBF_isOpen : Xbox360_XDBF -> bool.

(** The members [peFile] and [pe_xdbf] of [Xbox360_XEX_Private], which
    hold the embedded resources.  The private object is a [State] together
    with them. *)
Record Embedded := mkEmbedded {
  peFile : option PartitionFile;
  pe_xdbf : option Xbox360_XDBF
}.

(** [Xbox360_XEX_Private::initXDBF].  The read of the resource
    information goes through [file] without a test of the pointer.  The
    loop over the segment table visits all its entries, those that
    [initPeReader] did not assign included. *)
Definition initXDBF (em : Embedded) (st : State)
    : outcome (option Xbox360_XDBF) * (Embedded * State) :=
  match pe_xdbf em with
  | Some x => (Done (Some x), (em, st))
  | None =>
      match initPeReader S ENABLE_DECRYPTION getAndVerify_retail
              cipher_setKey cipher_setChainingMode_CBC cipher_decrypt
              CBCReader_isOpen CBCReader_read fresh_byte fresh_segment
              st with
      | (OutOfBounds o s l, st1) => (OutOfBounds o s l, (em, st1))
      | (NullDeref, st1) => (NullDeref, (em, st1))
      | (Done None, st1) => (Done None, (em, st1))
      | (Done (Some _), st1) =>
          match getOptHdrTblEntry st1 (XEX2_OPTHDR_RESOURCE_INFO R) with
          | None => (Done None, (em, st1))
          | Some entry =>
              match file st1 with
              | None => (NullDeref, (em, st1))
              | Some f =>
                  let raw :=
                    seekAndRead f (be32_to_cpu (offset entry))
                      (sizeof_XEX2_Resource_Info R) in
                  if negb (Z.of_nat (List.length raw) =?
                             sizeof_XEX2_Resource_Info R)
                  then (Done None, (em, st1))
                  else
                    let resInfo := as_XEX2_Resource_Info R raw in
                    let xdbf_length := be32_to_cpu (resource_size resInfo) in
                    let xdbf_physaddr :=
                      u32 (be32_to_cpu (resource_vaddr resInfo) -
                           be32_to_cpu (load_address (xex2Security st1))) in
                    let xdbf_physaddr :=
                      if compression_type (fileFormatInfo st1) =?
                         XEX2_COMPRESSION_TYPE_BASIC S
                      then
                        segment_physaddr (basicZDataSegments st1)
                          xdbf_physaddr
                      else xdbf_physaddr in
                    let peFile_tmp :=
                      PartitionFile_new (peReader st1) xdbf_physaddr
                        xdbf_length in
                    if PartitionFile_isOpen peFile_tmp then
                      let pe_xdbf_tmp := Xbox360_XDBF_new peFile_tmp in
                      if Xbox360_XDBF_isOpen pe_xdbf_tmp
                      then
                        (Done (Some pe_xdbf_tmp),
                         (mkEmbedded (Some peFile_tmp) (Some pe_xdbf_tmp),
                          st1))
                      else (Done (pe_xdbf em), (em, st1))
                    else (Done (pe_xdbf em), (em, st1))
              end
          end
      end
  end.

End Resources.


End XEX.

(** ** Inputs and notions used in the statements *)

(** A Latin-1 to UTF-8 conversion, to run the SAP parser on concrete
    files: ASCII is kept, the other characters take two bytes. *)
Definition latin1_to_utf8_std (s : list Z) : list Z :=
  concat
    (map (fun c => if c <? 128 then [c]
                   else [Z.lor 192 (Z.shiftr c 6); Z.lor 128 (Z.land c 63)])
       s).

(** The file ["SAP\r\nAUTHOR \"Foo\"\nSONGS 3\nDEFSONG 1\n\xFF"]. *)
Definition example_tags_file : list Z :=
  ascii_bytes "SAP" ++ [13; 10] ++ ascii_bytes "AUTHOR " ++ [34] ++
  ascii_bytes "Foo" ++ [34; 10] ++ ascii_bytes "SONGS 3" ++ [10] ++
  ascii_bytes "DEFSONG 1" ++ [10; 255].

(** A decimal digit. *)
Definition is_digit (c : Z) : bool := (48 <=? c) && (c <=? 57).

(** Two detection inputs are the same when they are equal, or when they
    agree on the address, on the size, on the extension, on the file size
    and on the [header.size] bytes that [header.pData] points to (what
    follows these bytes in memory is not part of the input). *)
Definition same_detect_input (a b : RomData.DetectInfo) : Prop :=
  a = b \/
  (RomData.header_addr a = RomData.header_addr b /\
   RomData.header_size a = RomData.header_size b /\
   RomData.ext a = RomData.ext b /\
   RomData.szFile a = RomData.szFile b /\
   match RomData.header_pData a, RomData.header_pData b with
   | Some p, Some q =>
       RomData.header_size a <= Z.of_nat (List.length p) /\
       RomData.header_size a <= Z.of_nat (List.length q) /\
       take (Z.to_nat (RomData.header_size a)) p =
       take (Z.to_nat (RomData.header_size a)) q
   | None, None => True
   | _, _ => False
   end).

(** [x] rounded up to the next multiple of 64, without wrap-around. *)
Definition round_up_64 (x : Z) : Z := (x + 63) / 64 * 64.

(** The sum of the section sizes that a CIA header declares, each rounded
    up to the next 64-byte boundary. *)
Definition cia_declared_total (h : N3DS.N3DS_CIA_Header_t) : Z :=
  round_up_64 (N3DS.header_size h) + round_up_64 (N3DS.cert_chain_size h) +
  round_up_64 (N3DS.ticket_size h) + round_up_64 (N3DS.tmd_size h) +
  round_up_64 (N3DS.content_size h) + round_up_64 (N3DS.meta_size h).

(** A [.cia] file of 8224 bytes, the size of the CIA header, whose header
    declares a certificate chain of 0xFFFFE000 bytes and no other
    section; and the detection input that the constructor builds for
    it. *)
Definition cia_overflow_file : list Z :=
  le_encode 4 8224 ++ le_encode 2 0 ++ le_encode 2 0 ++
  le_encode 4 4294959104 ++ le_encode 4 0 ++ le_encode 4 0 ++
  le_encode 4 0 ++ le_encode 8 0 ++ replicate (Z.to_nat 8192) 0.

Definition cia_overflow_info : RomData.DetectInfo :=
  RomData.mkDetectInfo 0 8224 (Some cia_overflow_file)
    (Some (ascii_bytes ".cia")) 8224.

(** An XDBF file with one resource, an XACH table whose header declares
    [count] achievements and which holds [nrec] records. *)
Definition xach_file (count : Z) (nrec : nat) : list Z :=
  ascii_bytes "XDBF" ++ XDBF.be_bytes 4 65536 ++ XDBF.be_bytes 4 1 ++
  XDBF.be_bytes 4 1 ++ XDBF.be_bytes 4 0 ++ XDBF.be_bytes 4 0 ++
  XDBF.be_bytes 2 1 ++ XDBF.be_bytes 8 (multichar "XACH") ++
  XDBF.be_bytes 4 0 ++ XDBF.be_bytes 4 (14 + 36 * Z.of_nat nrec) ++
  ascii_bytes "XACH" ++ XDBF.be_bytes 4 1 ++ XDBF.be_bytes 4 0 ++
  XDBF.be_bytes 2 count ++
  concat (replicate nrec
            (XDBF.be_bytes 2 7 ++ XDBF.be_bytes 2 0 ++ XDBF.be_bytes 2 0 ++
             XDBF.be_bytes 2 0 ++ XDBF.be_bytes 4 9 ++ XDBF.be_bytes 2 25 ++
             replicate 22 0)).

(** An XDBF file with one resource, the English string table, of
    [declared] bytes according to the entry table; the file holds the
    20 bytes of a table with the string 2, "Hi". *)
Definition strings_file (declared : Z) : list Z :=
  ascii_bytes "XDBF" ++ XDBF.be_bytes 4 65536 ++ XDBF.be_bytes 4 1 ++
  XDBF.be_bytes 4 1 ++ XDBF.be_bytes 4 0 ++ XDBF.be_bytes 4 0 ++
  XDBF.be_bytes 2 5 ++ XDBF.be_bytes 8 1 ++
  XDBF.be_bytes 4 0 ++ XDBF.be_bytes 4 declared ++
  ascii_bytes "XSTR" ++ XDBF.be_bytes 4 1 ++ XDBF.be_bytes 4 6 ++
  XDBF.be_bytes 2 1 ++ XDBF.be_bytes 2 2 ++ XDBF.be_bytes 2 2 ++
  ascii_bytes "Hi".

(** An XDBF file whose entry table places the English string table at
    offset 0xFFFFFFE8 of the data, which starts at byte 66 of the file
    (one entry and three free-space entries): the byte offset of the table
    is 2^32 + 42.  The 20 bytes of a string table lie at byte 42 of the
    file, in the room of the free-space table. *)
Definition wrapped_offset_file : list Z :=
  ascii_bytes "XDBF" ++ XDBF.be_bytes 4 65536 ++ XDBF.be_bytes 4 1 ++
  XDBF.be_bytes 4 1 ++ XDBF.be_bytes 4 3 ++ XDBF.be_bytes 4 0 ++
  XDBF.be_bytes 2 5 ++ XDBF.be_bytes 8 1 ++
  XDBF.be_bytes 4 4294967272 ++ XDBF.be_bytes 4 20 ++
  ascii_bytes "XSTR" ++ XDBF.be_bytes 4 1 ++ XDBF.be_bytes 4 6 ++
  XDBF.be_bytes 2 1 ++ XDBF.be_bytes 2 2 ++ XDBF.be_bytes 2 2 ++
  ascii_bytes "Hi" ++ replicate 4 0.

(** A CCI image: the NCSD header with partition 0 at media unit 17, and
    there an NCCH header with the given ExHeader size and flag byte 7,
    followed by [payload] bytes. *)
Definition cci_image (exheader_size flags7 : Z) (payload : nat) : list Z :=
  replicate 256 0 ++ ascii_bytes "NCSD" ++ replicate 28 0 ++
  le_encode 4 17 ++ le_encode 4 3 ++ replicate (Z.to_nat 8408) 0 ++
  replicate 256 0 ++ ascii_bytes "NCCH" ++ replicate 124 0 ++
  le_encode 4 exheader_size ++ replicate 11 0 ++ [flags7] ++
  replicate 112 0 ++ replicate payload 0.

(** The [i]-th entry of the optional header table stored in an XEX
    file. *)
Definition file_opt_header (S : XEX.Structs) (f : list Z) (i : nat)
    : XEX.XEX2_Optional_Header_Tbl :=
  XEX.as_XEX2_Optional_Header_Tbl S
    (take (Z.to_nat (XEX.sizeof_XEX2_Optional_Header_Tbl S))
       (drop (Z.to_nat (XEX.sizeof_XEX2_Header S) +
              i * Z.to_nat (XEX.sizeof_XEX2_Optional_Header_Tbl S)) f)).

(** An XEX file whose header declares 33 optional headers, with the IDs
    1 to 33, followed by its security info. *)
Definition xex_33_headers : list Z :=
  ascii_bytes "XEX2" ++ XDBF.be_bytes 4 0 ++ XDBF.be_bytes 4 0 ++
  XDBF.be_bytes 4 0 ++ XDBF.be_bytes 4 288 ++ XDBF.be_bytes 4 33 ++
  concat (map (fun i => XDBF.be_bytes 4 (Z.of_nat i) ++ XDBF.be_bytes 4 0)
            (seq 1 33)) ++
  replicate 388 0.

(** An XEX file with an encrypted PE image: one optional header, the file
    format info (encryption type 1, no compression), the security info,
    and the image, which starts with "MZ". *)
Definition xex_encrypted : list Z :=
  ascii_bytes "XEX2" ++ XDBF.be_bytes 4 0 ++ XDBF.be_bytes 4 428 ++
  XDBF.be_bytes 4 0 ++ XDBF.be_bytes 4 40 ++ XDBF.be_bytes 4 1 ++
  XDBF.be_bytes 4 1023 ++ XDBF.be_bytes 4 32 ++
  XDBF.be_bytes 4 8 ++ XDBF.be_bytes 2 1 ++ XDBF.be_bytes 2 0 ++
  replicate 388 0 ++ ascii_bytes "MZ" ++ [144; 0].

(** Collaborators for running [initPeReader] on [xex_encrypted] with two
    candidate keys.  In place of AES, a toy cipher deciphers each byte by
    exclusive or with the first byte of the key, and a reader deciphers
    the bytes of its range of the file in the same way with its own key.
    The retail key that is installed verifies, but it is not the key of
    this image, whose title key is all zero and whose image is stored
    under the all-zero key.  Fresh storage holds zeros. *)
Definition wrong_retail_key : XEX.VerifyResult * list Z :=
  (XEX.VERIFY_OK, replicate 16 1).
Definition xor_cipher_decrypt (key data iv : list Z) : list Z * Z :=
  (map (fun b => Z.lxor b (nth 0 key 0) mod 256) data,
   Z.of_nat (List.length data)).
Definition xor_reader_read (r : XEX.CBCReader) (n : Z)
    : list Z * XEX.CBCReader :=
  (map (fun b => Z.lxor b (nth 0 (default [] (XEX.cbc_key r)) 0) mod 256)
     (seekAndRead (XEX.cbc_file r) (XEX.cbc_offset r + XEX.cbc_pos r) n),
   XEX.mkCBCReader (XEX.cbc_file r) (XEX.cbc_offset r) (XEX.cbc_length r)
     (XEX.cbc_key r) (XEX.cbc_iv r) (XEX.cbc_pos r + n)).
Definition zero_byte (i : nat) : Z := 0.
Definition zero_segment (i : nat) : XEX.BasicZDataSeg_t := XEX.mkSeg 0 0 0.

Section KeyNotions.

Variable cipher_setKey : list Z -> Z.
Variable cipher_setChainingMode_CBC : Z.
Variable cipher_decrypt : list Z -> list Z -> list Z -> list Z * Z.
Variable CBCReader_isOpen : XEX.CBCReader -> bool.
Variable CBCReader_read : XEX.CBCReader -> Z -> list Z * XEX.CBCReader.

(** The reader over the PE image of the object [st] of the file [f] that
    is keyed with the title key as [key] decrypts it. *)
Definition image_reader (f : list Z) (st : XEX.State) (key : list Z)
    : XEX.CBCReader :=
  XEX.key_reader cipher_decrypt f (XEX.pe_offset (XEX.xex2Header st))
    (XEX.pe_length st f) (XEX.title_key (XEX.xex2Security st)) key.

(** The image decrypted with [key] begins with the two-byte magic "MZ":
    these are the first two bytes that the reader keyed with [key]
    gives. *)
Definition begins_with_MZ (f : list Z) (st : XEX.State) (key : list Z)
    : Prop :=
  fst (CBCReader_read (image_reader f st key) 2) = ascii_bytes "MZ".

(** A key yields the image: the cipher takes the key in CBC mode and
    decrypts the 16 bytes of the title key with it, the reader keyed with
    the result opens, and the image that it decrypts begins with "MZ".
    [rd] is that reader after the two bytes of the magic. *)
Definition key_yields (f : list Z) (st : XEX.State) (key : list Z)
    (rd : XEX.CBCReader) : Prop :=
  Z.lor (cipher_setKey key) cipher_setChainingMode_CBC = 0 /\
  snd (cipher_decrypt key (XEX.title_key (XEX.xex2Security st))
         (replicate 16 0)) = 16 /\
  CBCReader_isOpen (image_reader f st key) = true /\
  begins_with_MZ f st key /\
  rd = snd (CBCReader_read (image_reader f st key) 2).

(** A key is rejected: it does not yield the image. *)
Definition key_rejected (f : list Z) (st : XEX.State) (key : list Z)
    : Prop :=
  forall rd, ~ key_yields f st key rd.

End KeyNotions.

(** The value of a string of decimal digits. *)
Definition decimal (ds : list Z) : Z :=
  fold_left (fun acc c => acc * 10 + (c - 48)) ds 0.

(** A language ID that the XDBF object may hand out: the unknown language,
    or a language in range whose string table is loaded. *)
Definition lang_loaded (S : XDBF.Structs) {rp_image : Type}
    (st : XDBF.State rp_image) (l : Z) : Prop :=
  l = XDBF.XDBF_LANGUAGE_UNKNOWN S \/
  (XDBF.XDBF_LANGUAGE_UNKNOWN S < l < XDBF.XDBF_LANGUAGE_MAX S /\
   is_Some (XDBF.strTbl rp_image st !! l)).

(** The icon pointer of the XDBF object points into its image cache. *)
Definition icon_cached (S : XDBF.Structs) {rp_image : Type}
    (st : XDBF.State rp_image) : Prop :=
  forall img, XDBF.img_icon rp_image st = Some img ->
    XDBF.map_images rp_image st !! XDBF.XDBF_ID_TITLE S = Some img.

(** The XDBF objects of two small files, to run the decoder on: one with
    an English string table, one with a table of one achievement. *)
Definition strings_obj : XDBF.State unit :=
  XDBF.init XDBF.xdbf_structs unit (strings_file 20).
Definition xach_obj : XDBF.State unit :=
  XDBF.init XDBF.xdbf_structs unit (xach_file 1 1).

(** An XDBF file with two resources: the English string table, which
    holds the title "Hi" under [XDBF_ID_TITLE], and the title image, of 16
    bytes; and its object, with an image represented by its PNG data. *)
Definition title_file : list Z :=
  ascii_bytes "XDBF" ++ XDBF.be_bytes 4 65536 ++ XDBF.be_bytes 4 2 ++
  XDBF.be_bytes 4 2 ++ XDBF.be_bytes 4 0 ++ XDBF.be_bytes 4 0 ++
  XDBF.be_bytes 2 5 ++ XDBF.be_bytes 8 1 ++
  XDBF.be_bytes 4 0 ++ XDBF.be_bytes 4 20 ++
  XDBF.be_bytes 2 2 ++ XDBF.be_bytes 8 32768 ++
  XDBF.be_bytes 4 20 ++ XDBF.be_bytes 4 16 ++
  ascii_bytes "XSTR" ++ XDBF.be_bytes 4 1 ++ XDBF.be_bytes 4 6 ++
  XDBF.be_bytes 2 1 ++ XDBF.be_bytes 2 32768 ++ XDBF.be_bytes 2 2 ++
  ascii_bytes "Hi" ++
  [137; 80; 78; 71; 13; 10; 26; 10] ++ replicate 8 0.
Definition title_obj : XDBF.State (list Z) :=
  XDBF.init XDBF.xdbf_structs (list Z) title_file.

(** A stand-in for the macro [ASSERT_loadInternalImage], after the checks
    that [Nintendo3DS::loadInternalImage] spells out at the same place: a
    null [pImage] gives [-EINVAL], and an image type outside
    [IMG_INT_MIN, IMG_INT_MAX] gives [-ERANGE] and a null image. *)
Definition assert_image_type {rp_image : Type} (IMG_INT_MIN IMG_INT_MAX : Z)
    (imageType : Z) (pImage : bool) : option (Z * option rp_image) :=
  if negb pImage then Some (-22, None)
  else if (imageType <? IMG_INT_MIN) || (imageType >? IMG_INT_MAX)
  then Some (-34, None)
  else None.

(** The ExHeader of a Nintendo 3DS object is loaded: its mark is set, on
    an object that is not a 3DSX file.  [HEADER_EXHEADER] and
    [HEADER_3DSX] are the same bit of [headers_loaded], which the
    constructor sets for a 3DSX file: there the bit does not tell that an
    ExHeader was loaded. *)
Definition exheader_loaded {NintendoDS : Type} (st : N3DS.State NintendoDS)
    : Prop :=
  N3DS.has_header NintendoDS st N3DS.HEADER_EXHEADER = true /\
  N3DS.romType NintendoDS st <> N3DS.ROM_TYPE_3DSX.

(** The place of the ExHeader in the file of a Nintendo 3DS object: it
    follows the NCCH header, and its length is the size that the NCCH
    header gives, rounded up to 16 bytes. *)
Definition exheader_pos (S : N3DS.Structs) {NintendoDS : Type}
    (st : N3DS.State NintendoDS) : Z :=
  N3DS.s64 (N3DS.ncch_offset NintendoDS st + N3DS.sizeof_N3DS_NCCH_Header_t S).
Definition exheader_len {NintendoDS : Type} (st : N3DS.State NintendoDS)
    : Z :=
  Z.land
    (u32 (le32_to_cpu (N3DS.exheader_size (N3DS.ncch_header NintendoDS st)) +
          15))
    (u32 (Z.lnot 15)).

(** The position of the NCCH header of a Nintendo 3DS object: 0x100 past
    the offset of its NCCH, as a signed 64-bit file position. *)
Definition s64_at_header {NintendoDS : Type} (st : N3DS.State NintendoDS)
    : Z :=
  N3DS.s64 (N3DS.ncch_offset NintendoDS st + 256).

(** The Nintendo 3DS object of a CCI image, as the constructor leaves it
    and after its NCCH header is loaded. *)
Definition cci_obj (exheader_size flags7 : Z) (payload : nat)
    : N3DS.State unit :=
  N3DS.Nintendo3DS N3DS.n3ds_structs unit
    (cci_image exheader_size flags7 payload) (ascii_bytes ".3ds").
Definition cci_ncch_obj (exheader_size flags7 : Z) (payload : nat)
    : N3DS.State unit :=
  snd (N3DS.loadNCCH N3DS.n3ds_structs unit (fun _ _ _ => None)
         (cci_obj exheader_size flags7 payload)).

(** The bytes of data and of removed zero padding that the first [i]
    records of the segment information of an XEX file stand for. *)
Definition data_before (cbi : list XEX.XEX2_Compression_Basic_Info)
    (i : nat) : Z :=
  foldr (fun c acc => be32_to_cpu (XEX.data_size c) + acc) 0 (take i cbi).
Definition zero_before (cbi : list XEX.XEX2_Compression_Basic_Info)
    (i : nat) : Z :=
  foldr (fun c acc => be32_to_cpu (XEX.zero_size c) + acc) 0 (take i cbi).

(** The [n] records of segment information that a file stores from
    [pos] on. *)
Definition file_records (S : XEX.Structs) (f : list Z) (pos : Z) (n : nat)
    : list XEX.XEX2_Compression_Basic_Info :=
  map (XEX.as_XEX2_Compression_Basic_Info S)
    (XEX.chunks n (Z.to_nat (XEX.sizeof_XEX2_Compression_Basic_Info S))
       (seekAndRead f pos
          (Z.of_nat n * XEX.sizeof_XEX2_Compression_Basic_Info S))).

(** An XEX file with basic compression: one optional header, the file
    format info (no encryption, basic compression) with [extra] bytes
    after its two records of segment information (4096 bytes of data and
    512 of padding, then 8192 bytes of data), the security info, and the
    image, which starts with "MZ". *)
Definition xex_compressed (extra : nat) : list Z :=
  ascii_bytes "XEX2" ++ XDBF.be_bytes 4 0 ++
  XDBF.be_bytes 4 (444 + Z.of_nat extra) ++
  XDBF.be_bytes 4 0 ++ XDBF.be_bytes 4 (56 + Z.of_nat extra) ++
  XDBF.be_bytes 4 1 ++
  XDBF.be_bytes 4 1023 ++ XDBF.be_bytes 4 32 ++
  XDBF.be_bytes 4 (24 + Z.of_nat extra) ++ XDBF.be_bytes 2 0 ++
  XDBF.be_bytes 2 1 ++
  XDBF.be_bytes 4 4096 ++ XDBF.be_bytes 4 512 ++
  XDBF.be_bytes 4 8192 ++ XDBF.be_bytes 4 0 ++ replicate extra 0 ++
  replicate 388 0 ++ ascii_bytes "MZ" ++ [144; 0].

(** A segment holds an address, as [initXDBF] tests it. *)
Definition seg_holds (s : XEX.BasicZDataSeg_t) (a : Z) : Prop :=
  XEX.vaddr s <= a < u32 (XEX.vaddr s + XEX.length s).

(** ** Properties of the SAP tag parser *)

(** Claim C3.  The file ["SAP\r\nAUTHOR \"Foo\"\nSONGS 3\nDEFSONG 1\n\xFF"]
    parses to a tag set with [author = "Foo"], [songs = 3], [def_song = 1],
    both flags [ntsc] and [stereo] false and every other tag at its
    default value; [tags_read] reports that the tags were read.  The
    character conversion is any function that keeps the ASCII string
    "Foo". *)
Theorem parseTags_example (latin1_to_utf8 : list Z -> list Z)
    (dm : SAP.DataModel)
    (Hascii : latin1_to_utf8 (ascii_bytes "Foo") = ascii_bytes "Foo") :
  SAP.parseTags latin1_to_utf8 dm example_tags_file =
  {| SAP.tags_read := true;
     SAP.author := ascii_bytes "Foo"; SAP.name := []; SAP.date := [];
     SAP.songs := 3; SAP.def_song := 1;
     SAP.ntsc := false; SAP.stereo := false;
     SAP.type := 0; SAP.fastplay := 0; SAP.init_addr := 0;
     SAP.music_addr := 0; SAP.player_addr := 0; SAP.covox_addr := 0 |}.
Proof.
  destruct dm; vm_compute; vm_compute in Hascii; rewrite Hascii; reflexivity.
Qed.

Lemma parseTags_example_witness :
  SAP.parseTags latin1_to_utf8_std SAP.LP64 example_tags_file =
  {| SAP.tags_read := true;
     SAP.author := ascii_bytes "Foo"; SAP.name := []; SAP.date := [];
     SAP.songs := 3; SAP.def_song := 1;
     SAP.ntsc := false; SAP.stereo := false;
     SAP.type := 0; SAP.fastplay := 0; SAP.init_addr := 0;
     SAP.music_addr := 0; SAP.player_addr := 0; SAP.covox_addr := 0 |}.
Proof.
  apply (parseTags_example latin1_to_utf8_std SAP.LP64). reflexivity.
Defined.

Lemma digit_val_digit c :
  is_digit c = true -> SAP.digit_val 10 c = Some (c - 48).
Proof.
  unfold is_digit, SAP.digit_val. intros H. rewrite H.
  apply andb_true_iff in H as [H1 H2].
  apply Z.leb_le in H1, H2.
  destruct (c - 48 <? 10) eqn:E; [reflexivity | apply Z.ltb_ge in E; lia].
Qed.

Lemma digit_not_space d : is_digit d = true -> SAP.ISSPACE d = false.
Proof.
  unfold is_digit, SAP.ISSPACE. intros H.
  apply andb_true_iff in H as [H1 H2]. apply Z.leb_le in H1, H2.
  apply orb_false_iff. split.
  - apply Z.eqb_neq. lia.
  - apply andb_false_iff. right. apply Z.leb_gt. lia.
Qed.

(** The digit loop consumes a run of digits up to the first character that
    is not one. *)
Lemma strtol_digits_run ds : forall c rest acc n,
  Forall (fun d => is_digit d = true) ds ->
  SAP.digit_val 10 c = None ->
  snd (SAP.strtol_digits 10 (ds ++ c :: rest) acc n) =
  (n + List.length ds)%nat.
Proof.
  induction ds as [|d ds IH]; intros c rest acc n Hds Hc; simpl.
  - rewrite Hc. simpl. lia.
  - inversion Hds as [|? ? Hd Hds']; subst.
    rewrite (digit_val_digit d Hd). rewrite IH by assumption. lia.
Qed.

(** On digits followed by another character, [strtol] leaves [endptr] at
    that character. *)
Lemma strtol_trailing dm d ds c rest :
  Forall (fun x => is_digit x = true) (d :: ds) ->
  SAP.digit_val 10 c = None ->
  snd (SAP.strtol dm (d :: ds ++ c :: rest) 10) =
  Datatypes.S (List.length ds).
Proof.
  intros Hds Hc.
  pose proof (strtol_digits_run (d :: ds) c rest 0 0 Hds Hc) as Hrun.
  inversion Hds as [|? ? Hd Hds']; subst.
  pose proof Hd as Hd'. unfold is_digit in Hd'.
  apply andb_true_iff in Hd' as [H1 H2]. apply Z.leb_le in H1, H2.
  unfold SAP.strtol. cbn [SAP.skip_space]. rewrite (digit_not_space d Hd).
  assert (E45 : (d =? 45) = false) by (apply Z.eqb_neq; lia).
  assert (E43 : (d =? 43) = false) by (apply Z.eqb_neq; lia).
  rewrite E45, E43.
  assert (Hpfx : (match d :: ds ++ c :: rest with
           | c0 :: x :: r =>
               if (10 =? 16) && (c0 =? 48) && ((x =? 120) || (x =? 88))
               then (true, r, 2%nat) else (false, d :: ds ++ c :: rest, 0%nat)
           | _ => (false, d :: ds ++ c :: rest, 0%nat)
           end) = (false, d :: ds ++ c :: rest, 0%nat)).
  { destruct (ds ++ c :: rest); reflexivity. }
  rewrite Hpfx.
  change ((d :: ds) ++ c :: rest) with (d :: ds ++ c :: rest) in Hrun.
  destruct (SAP.strtol_digits 10 (d :: ds ++ c :: rest) 0 0) as [mag n4] eqn:E.
  simpl in Hrun. subst n4. simpl.
  destruct (mag >? SAP.LONG_MAX dm); reflexivity.
Qed.

Lemma nth_digits_end (ds : list Z) c rest :
  nth (List.length ds) (ds ++ c :: rest) 0 = c.
Proof. induction ds; simpl; auto. Qed.

Lemma space_not_digit c : SAP.ISSPACE c = true -> SAP.digit_val 10 c = None.
Proof.
  unfold SAP.ISSPACE, SAP.digit_val. intros H.
  assert (Hc : c = 32 \/ 9 <= c <= 13).
  { apply orb_true_iff in H as [H|H]; [left; apply Z.eqb_eq; exact H|].
    right. apply andb_true_iff in H as [H1 H2].
    apply Z.leb_le in H1, H2. lia. }
  replace ((48 <=? c) && (c <=? 57)) with false
    by (symmetry; apply andb_false_iff; left; apply Z.leb_gt; lia).
  replace ((97 <=? c) && (c <=? 122)) with false
    by (symmetry; apply andb_false_iff; left; apply Z.leb_gt; lia).
  replace ((65 <=? c) && (c <=? 90)) with false
    by (symmetry; apply andb_false_iff; left; apply Z.leb_gt; lia).
  reflexivity.
Qed.

(** Claim C6, as the code has it.  The line "FASTPLAY 312" sets
    [fastplay] to 312 and leaves the other tags as they are.  A line
    "FASTPLAY" whose parameter is a run of digits directly followed by a
    character that is neither a digit, nor white space, nor the end of
    the line, such as "FASTPLAY 31x2", leaves the tag set unchanged; in a
    file, [fastplay] then keeps its default value.  When white space
    follows the digits, the number is stored whatever comes after the
    white space: the parser looks at the one character at which the
    conversion stopped. *)
Theorem fastplay_numeric_parameter (latin1_to_utf8 : list Z -> list Z)
    (dm : SAP.DataModel) (tags : SAP.TagData) :
  SAP.parse_line latin1_to_utf8 dm (ascii_bytes "FASTPLAY 312") tags =
    SAP.set_fastplay 312 tags /\
  SAP.parse_line latin1_to_utf8 dm (ascii_bytes "FASTPLAY 31x2") tags = tags /\
  (forall d ds c rest,
     Forall (fun x => is_digit x = true) (d :: ds) ->
     SAP.digit_val 10 c = None -> c <> 0 -> SAP.ISSPACE c = false ->
     SAP.parse_line latin1_to_utf8 dm
       (ascii_bytes "FASTPLAY " ++ d :: ds ++ c :: rest) tags = tags) /\
  SAP.fastplay
    (SAP.parseTags latin1_to_utf8 dm
       (ascii_bytes "SAP" ++ [13; 10] ++ ascii_bytes "FASTPLAY 312" ++
        [13; 10; 255; 255])) = 312 /\
  SAP.fastplay
    (SAP.parseTags latin1_to_utf8 dm
       (ascii_bytes "SAP" ++ [13; 10] ++ ascii_bytes "FASTPLAY 31x2" ++
        [13; 10; 255; 255])) = SAP.fastplay SAP.TagData_init /\
  (forall d ds c rest,
     Forall (fun x => is_digit x = true) (d :: ds) ->
     SAP.ISSPACE c = true ->
     SAP.parse_line latin1_to_utf8 dm
       (ascii_bytes "FASTPLAY " ++ d :: ds ++ c :: rest) tags =
     SAP.store_u16 SAP.P_fastplay
       (u16 (fst (SAP.strtol dm (d :: ds ++ c :: rest) 10))) tags).
Proof.
  assert (Hline : forall d ds c rest,
    Forall (fun x => is_digit x = true) (d :: ds) ->
    SAP.digit_val 10 c = None ->
    SAP.parse_line latin1_to_utf8 dm
      (ascii_bytes "FASTPLAY " ++ d :: ds ++ c :: rest) tags =
    if (c =? 0) || SAP.ISSPACE c
    then SAP.store_u16 SAP.P_fastplay
           (u16 (fst (SAP.strtol dm (d :: ds ++ c :: rest) 10))) tags
    else tags).
  { intros d ds c rest Hds Hc.
    pose proof (strtol_trailing dm d ds c rest Hds Hc) as Hend.
    inversion Hds as [|? ? Hd Hds']; subst.
    assert (Hsplit :
      SAP.split_token (ascii_bytes "FASTPLAY " ++ d :: ds ++ c :: rest) =
      (ascii_bytes "FASTPLAY", Some (d :: ds ++ c :: rest))).
    { unfold SAP.split_token.
      change (SAP.strchr (ascii_bytes "FASTPLAY " ++ d :: ds ++ c :: rest) 32)
        with (Some 8%nat).
      cbv beta iota zeta.
      change (drop 9 (ascii_bytes "FASTPLAY " ++ d :: ds ++ c :: rest))
        with (d :: ds ++ c :: rest).
      change (take 8 (ascii_bytes "FASTPLAY " ++ d :: ds ++ c :: rest))
        with (ascii_bytes "FASTPLAY").
      cbn [SAP.skip_space]. rewrite (digit_not_space d Hd). reflexivity. }
    unfold SAP.parse_line. rewrite Hsplit.
    change (SAP.scan_kwds latin1_to_utf8 dm SAP.kwds (ascii_bytes "FASTPLAY")
              (Some (d :: ds ++ c :: rest)) tags)
      with (let '(val, endptr) := SAP.strtol dm (d :: ds ++ c :: rest) 10 in
            if bool_decide (0 < endptr)%nat &&
               ((byte_at (d :: ds ++ c :: rest) endptr =? 0) ||
                SAP.ISSPACE (byte_at (d :: ds ++ c :: rest) endptr))
            then SAP.store_u16 SAP.P_fastplay (u16 val) tags else tags).
    destruct (SAP.strtol dm (d :: ds ++ c :: rest) 10) as [val endptr].
    simpl in Hend. subst endptr.
    unfold byte_at. cbn [nth fst]. rewrite nth_digits_end.
    rewrite bool_decide_eq_true_2 by lia. reflexivity. }
  split; [destruct dm, tags; reflexivity|].
  split; [destruct dm, tags; reflexivity|].
  split.
  { intros d ds c rest Hds Hc Hc0 Hsp.
    rewrite (Hline d ds c rest Hds Hc), Hsp.
    apply Z.eqb_neq in Hc0. rewrite Hc0. reflexivity. }
  split; [destruct dm; reflexivity|].
  split; [destruct dm; reflexivity|].
  intros d ds c rest Hds Hsp.
  rewrite (Hline d ds c rest Hds (space_not_digit c Hsp)), Hsp.
  rewrite orb_true_r. reflexivity.
Qed.

Lemma fastplay_numeric_parameter_witness :
  SAP.parse_line latin1_to_utf8_std SAP.LLP64
    (ascii_bytes "FASTPLAY " ++ 51 :: [49] ++ 120 :: [50]) SAP.TagData_init =
  SAP.TagData_init /\
  SAP.parse_line latin1_to_utf8_std SAP.LLP64
    (ascii_bytes "FASTPLAY " ++ 51 :: [49] ++ 32 :: [120; 50])
    SAP.TagData_init =
  SAP.set_fastplay 31 SAP.TagData_init.
Proof.
  destruct (fastplay_numeric_parameter latin1_to_utf8_std SAP.LLP64
              SAP.TagData_init) as (_ & _ & Hrej & _ & _ & Hacc).
  split.
  - apply Hrej.
    + repeat constructor.
    + reflexivity.
    + discriminate.
    + reflexivity.
  - rewrite Hacc.
    + reflexivity.
    + repeat constructor.
    + reflexivity.
Defined.

(** Claim C6 as stated fails: in the line "FASTPLAY 31 x2" the numeric
    parameter has non-numeric trailing characters, and the line sets
    [fastplay] to 31: in a file with this line the field does not keep
    its default value. *)
Lemma trailing_text_after_space_stored :
  SAP.parse_line latin1_to_utf8_std SAP.LP64 (ascii_bytes "FASTPLAY 31 x2")
    SAP.TagData_init = SAP.set_fastplay 31 SAP.TagData_init /\
  SAP.fastplay
    (SAP.parseTags latin1_to_utf8_std SAP.LP64
       (ascii_bytes "SAP" ++ [13; 10] ++ ascii_bytes "FASTPLAY 31 x2" ++
        [13; 10; 255; 255])) = 31 /\
  SAP.fastplay
    (SAP.parseTags latin1_to_utf8_std SAP.LP64
       (ascii_bytes "SAP" ++ [13; 10] ++ ascii_bytes "FASTPLAY 31 x2" ++
        [13; 10; 255; 255])) <> SAP.fastplay SAP.TagData_init.
Proof.
  split; [reflexivity|]. split; [reflexivity|]. discriminate.
Qed.

Lemma seekAndRead_head (f : list Z) (n : nat) :
  seekAndRead f 0 (Z.of_nat n) = take n f.
Proof.
  unfold seekAndRead.
  replace (Z.of_nat n <? 0) with false by (symmetry; apply Z.ltb_ge; lia).
  simpl. rewrite Nat2Z.id. reflexivity.
Qed.

Lemma mem_eq_head (f : list Z) (m n : nat) (pat : list Z) :
  List.length pat = n -> (n <= m)%nat -> (n < List.length (take m f))%nat ->
  mem_eq (take m f ++ [0]) 0 pat = true -> take n f = pat.
Proof.
  intros Hn Hm Hlen H. unfold mem_eq in H.
  apply bool_decide_eq_true in H. rewrite Hn in H.
  rewrite drop_0 in H.
  rewrite take_app_le in H by lia.
  rewrite take_take in H. rewrite Nat.min_l in H by lia. exact H.
Qed.

(** Claim C10.  The parser depends on the first 4096 bytes of the file
    only: two files with the same first 4096 bytes, in particular two
    files that differ in what follows a common 4096-byte head, give the
    same tag set.  A file of fewer than 6 bytes, and a file that starts
    neither with "SAP\r\n" nor with "SAP\n", give the initial tag set, in
    which [tags_read] is false and every tag has its default value. *)
Theorem parseTags_header_window (latin1_to_utf8 : list Z -> list Z)
    (dm : SAP.DataModel) :
  (forall f1 f2 : list Z, take 4096 f1 = take 4096 f2 ->
     SAP.parseTags latin1_to_utf8 dm f1 =
     SAP.parseTags latin1_to_utf8 dm f2) /\
  (forall hd tl tl' : list Z, List.length hd = 4096%nat ->
     SAP.parseTags latin1_to_utf8 dm (hd ++ tl) =
     SAP.parseTags latin1_to_utf8 dm (hd ++ tl')) /\
  (forall f : list Z, (List.length f < 6)%nat ->
     SAP.parseTags latin1_to_utf8 dm f = SAP.TagData_init) /\
  (forall f : list Z,
     take 5 f <> ascii_bytes "SAP" ++ [13; 10] ->
     take 4 f <> ascii_bytes "SAP" ++ [10] ->
     SAP.parseTags latin1_to_utf8 dm f = SAP.TagData_init).
Proof.
  assert (Hwin : forall f1 f2 : list Z, take 4096 f1 = take 4096 f2 ->
     SAP.parseTags latin1_to_utf8 dm f1 =
     SAP.parseTags latin1_to_utf8 dm f2).
  { intros f1 f2 H. unfold SAP.parseTags.
    change 4096 with (Z.of_nat 4096). rewrite !seekAndRead_head.
    rewrite H. reflexivity. }
  split; [exact Hwin|]. split; [|split].
  - intros hd tl tl' Hlen. apply Hwin.
    rewrite !take_app_le by lia. reflexivity.
  - intros f Hlen. unfold SAP.parseTags.
    change 4096 with (Z.of_nat 4096). rewrite seekAndRead_head.
    assert (Hsz : (List.length (take 4096 f) <? 6)%nat = true).
    { apply Nat.ltb_lt. rewrite length_take. lia. }
    rewrite Hsz. reflexivity.
  - intros f H5 H4. unfold SAP.parseTags.
    change 4096 with (Z.of_nat 4096). rewrite seekAndRead_head.
    destruct (List.length (take 4096 f) <? 6)%nat eqn:Hsz; [reflexivity|].
    apply Nat.ltb_ge in Hsz.
    destruct (mem_eq (take 4096 f ++ [0]) 0 (ascii_bytes "SAP" ++ [13; 10]))
      eqn:E5.
    { exfalso. apply H5.
      apply (mem_eq_head f 4096 5); [reflexivity | lia | lia | exact E5]. }
    destruct (mem_eq (take 4096 f ++ [0]) 0 (ascii_bytes "SAP" ++ [10]))
      eqn:E4.
    { exfalso. apply H4.
      apply (mem_eq_head f 4096 4); [reflexivity | lia | lia | exact E4]. }
    reflexivity.
Qed.

Lemma parseTags_header_window_witness :
  SAP.parseTags latin1_to_utf8_std SAP.LP64
    ((ascii_bytes "SAP" ++ [10] ++ replicate 4092 32) ++
     ascii_bytes "NTSC" ++ [10]) =
  SAP.parseTags latin1_to_utf8_std SAP.LP64
    ((ascii_bytes "SAP" ++ [10] ++ replicate 4092 32) ++ []) /\
  SAP.parseTags latin1_to_utf8_std SAP.LP64 (ascii_bytes "SAP" ++ [10]) =
    SAP.TagData_init /\
  SAP.parseTags latin1_to_utf8_std SAP.LP64 (ascii_bytes "RIFF....") =
    SAP.TagData_init.
Proof.
  pose proof (parseTags_header_window latin1_to_utf8_std SAP.LP64)
    as [_ [Htail [Hshort Hmagic]]].
  split; [|split].
  - apply Htail. reflexivity.
  - apply Hshort. simpl. lia.
  - apply Hmagic; discriminate.
Defined.

(** ** Properties of the detectors *)

(** Two buffers that agree on their first [n] bytes agree on every window
    inside these bytes. *)
Lemma window_agree (p q : list Z) (n off w : nat) (pad : list Z) :
  (n <= List.length p)%nat -> (n <= List.length q)%nat ->
  take n p = take n q -> (off + w <= n)%nat ->
  take w (drop off p ++ pad) = take w (drop off q ++ pad).
Proof.
  intros Hp Hq H Hw.
  rewrite !take_app_le by (rewrite length_drop; lia).
  assert (Hpq : take (off + w) p = take (off + w) q).
  { rewrite <- (Nat.min_l (off + w) n) by lia.
    rewrite <- !take_take. rewrite H. reflexivity. }
  apply (f_equal (drop off)) in Hpq.
  rewrite !skipn_firstn_comm in Hpq.
  replace (off + w - off)%nat with w in Hpq by lia. exact Hpq.
Qed.

Lemma field_agree (p q : list Z) (n off w : nat) :
  (n <= List.length p)%nat -> (n <= List.length q)%nat ->
  take n p = take n q -> (off + w <= n)%nat ->
  field p off w = field q off w.
Proof.
  intros Hp Hq H Hw. unfold field.
  rewrite (window_agree p q n off w _ Hp Hq H Hw). reflexivity.
Qed.

Lemma mem_eq_agree (p q : list Z) (n : nat) (pat : list Z) :
  (n <= List.length p)%nat -> (n <= List.length q)%nat ->
  take n p = take n q -> (List.length pat <= n)%nat ->
  mem_eq p 0 pat = mem_eq q 0 pat.
Proof.
  intros Hp Hq H Hw. unfold mem_eq.
  pose proof (window_agree p q n 0 (List.length pat) [] Hp Hq H) as Hwin.
  rewrite !app_nil_r in Hwin. rewrite Hwin by lia. reflexivity.
Qed.

Local Opaque mem_eq field.

(** Claim C7.  Detection is a function of its input: on the same input
    (the same header bytes, extension and file size) each detector
    returns the same result, whatever else memory holds.  The XDBF, 3DS
    and XEX detectors are taken with the layouts of the format. *)
Theorem detection_deterministic (a b : RomData.DetectInfo) :
  same_detect_input a b ->
  SAP.isRomSupported_static (Some a) = SAP.isRomSupported_static (Some b) /\
  XDBF.isRomSupported_static XDBF.xdbf_structs (Some a) =
    XDBF.isRomSupported_static XDBF.xdbf_structs (Some b) /\
  N3DS.isRomSupported_static N3DS.n3ds_structs (Some a) =
    N3DS.isRomSupported_static N3DS.n3ds_structs (Some b) /\
  XEX.isRomSupported_static XEX.xex_structs (Some a) =
    XEX.isRomSupported_static XEX.xex_structs (Some b).
Proof.
  intros [-> | Hsame]; [repeat split; reflexivity|].
  destruct a as [addr sz pa ea fa], b as [addr' sz' pb eb fb].
  simpl in Hsame. destruct Hsame as (-> & -> & -> & -> & Hbuf).
  destruct pa as [p|], pb as [q|]; try contradiction;
    [|repeat split; reflexivity].
  destruct Hbuf as (Hp & Hq & Hpq).
  repeat split.
  - (* SAP *)
    unfold SAP.isRomSupported_static. simpl.
    destruct (negb (addr' =? 0) || (sz' <? 6)) eqn:E; [reflexivity|].
    apply orb_false_iff in E as [_ E]. apply Z.ltb_ge in E.
    rewrite !(mem_eq_agree p q (Z.to_nat sz'))
      by (try assumption; simpl; lia).
    reflexivity.
  - (* XDBF *)
    unfold XDBF.isRomSupported_static. simpl.
    destruct (negb (addr' =? 0) || (sz' <? 18)) eqn:E; [reflexivity|].
    apply orb_false_iff in E as [_ E]. apply Z.ltb_ge in E.
    rewrite (field_agree p q (Z.to_nat sz') 0 4) by (try assumption; lia).
    rewrite (field_agree p q (Z.to_nat sz') 4 4) by (try assumption; lia).
    reflexivity.
  - (* Nintendo 3DS *)
    unfold N3DS.isRomSupported_static. simpl.
    destruct (negb (addr' =? 0) || (sz' <? 512)) eqn:E; [reflexivity|].
    apply orb_false_iff in E as [_ E]. apply Z.ltb_ge in E.
    assert (Hcia : N3DS.is_cia N3DS.n3ds_structs
                     (RomData.mkDetectInfo addr' sz' (Some p) eb fb) p =
                   N3DS.is_cia N3DS.n3ds_structs
                     (RomData.mkDetectInfo addr' sz' (Some q) eb fb) q).
    { unfold N3DS.is_cia, N3DS.cia_sz_min. simpl.
      rewrite (field_agree p q (Z.to_nat sz') 0 4) by (try assumption; lia).
      rewrite (field_agree p q (Z.to_nat sz') 4 2) by (try assumption; lia).
      rewrite (field_agree p q (Z.to_nat sz') 6 2) by (try assumption; lia).
      rewrite (field_agree p q (Z.to_nat sz') 8 4) by (try assumption; lia).
      rewrite (field_agree p q (Z.to_nat sz') 12 4) by (try assumption; lia).
      rewrite (field_agree p q (Z.to_nat sz') 16 4) by (try assumption; lia).
      rewrite (field_agree p q (Z.to_nat sz') 20 4) by (try assumption; lia).
      rewrite (field_agree p q (Z.to_nat sz') 24 8) by (try assumption; lia).
      reflexivity. }
    rewrite Hcia.
    rewrite !(mem_eq_agree p q (Z.to_nat sz'))
      by (try assumption; simpl; lia).
    rewrite (window_agree p q (Z.to_nat sz') (Z.to_nat 256) 4)
      by (try assumption; lia).
    rewrite !drop_drop.
    rewrite !(window_agree p q (Z.to_nat sz') (Z.to_nat 256 + 24) 8)
      by (try assumption; lia).
    reflexivity.
  - (* XEX *)
    unfold XEX.isRomSupported_static. simpl.
    destruct (negb (addr' =? 0) || (sz' <? 24)) eqn:E; [reflexivity|].
    apply orb_false_iff in E as [_ E]. apply Z.ltb_ge in E.
    rewrite (field_agree p q (Z.to_nat sz') 0 4) by (try assumption; lia).
    reflexivity.
Qed.

Local Transparent mem_eq field.

Lemma detection_deterministic_witness :
  SAP.isRomSupported_static
    (Some (RomData.mkDetectInfo 0 6
             (Some (ascii_bytes "SAP" ++ [10; 65; 66; 1; 2; 3])) None 0)) =
  SAP.isRomSupported_static
    (Some (RomData.mkDetectInfo 0 6
             (Some (ascii_bytes "SAP" ++ [10; 65; 66; 9])) None 0)).
Proof.
  apply (detection_deterministic
           (RomData.mkDetectInfo 0 6
              (Some (ascii_bytes "SAP" ++ [10; 65; 66; 1; 2; 3])) None 0)
           (RomData.mkDetectInfo 0 6
              (Some (ascii_bytes "SAP" ++ [10; 65; 66; 9])) None 0)).
  right. simpl. repeat split; lia.
Defined.

(** Claim C4, at an input where the code departs from it.  For a [.cia]
    file of 8224 bytes whose header declares a certificate chain of
    0xFFFFE000 bytes, the sum of the declared section sizes, each rounded
    up to 64 bytes, is 4294967360 and exceeds the file size; the 32-bit sum
    of the detector wraps to 64, the detector classifies the file as a CIA
    and the constructor takes it as one. *)
Theorem cia_size_sum_wraps :
  N3DS.isRomSupported_static N3DS.n3ds_structs (Some cia_overflow_info) =
    N3DS.ROM_TYPE_CIA /\
  N3DS.romType _
    (N3DS.Nintendo3DS N3DS.n3ds_structs unit cia_overflow_file
       (ascii_bytes ".cia")) = N3DS.ROM_TYPE_CIA /\
  N3DS.cia_sz_min
    (N3DS.as_N3DS_CIA_Header_t N3DS.n3ds_structs cia_overflow_file) = 64 /\
  cia_declared_total
    (N3DS.as_N3DS_CIA_Header_t N3DS.n3ds_structs cia_overflow_file) =
    4294967360 /\
  cia_declared_total
    (N3DS.as_N3DS_CIA_Header_t N3DS.n3ds_structs cia_overflow_file) >
    RomData.szFile cia_overflow_info.
Proof. vm_compute. repeat split. Qed.

(** What the CIA classification does guarantee: the header size matches
    and the 32-bit sum of the detector does not exceed the file size. *)
Lemma cia_only_if (S : N3DS.Structs) (info : RomData.DetectInfo) :
  N3DS.isRomSupported_static S (Some info) = N3DS.ROM_TYPE_CIA ->
  exists pData, RomData.header_pData info = Some pData /\
    N3DS.header_size (N3DS.as_N3DS_CIA_Header_t S pData) =
      u32 (N3DS.sizeof_N3DS_CIA_Header_t S) /\
    N3DS.cia_sz_min (N3DS.as_N3DS_CIA_Header_t S pData) <=
      RomData.szFile info.
Proof.
  unfold N3DS.isRomSupported_static.
  destruct (RomData.header_pData info) as [p|]; [|discriminate].
  destruct (negb (RomData.header_addr info =? 0) ||
            (RomData.header_size info <? 512)); [discriminate|].
  destruct (N3DS.is_cia S info p) eqn:Hcia.
  - intros _. exists p. split; [reflexivity|].
    unfold N3DS.is_cia in Hcia.
    destruct (RomData.ext info); [|discriminate].
    destruct ((RomData.header_size info >? N3DS.offsetof_CIA_content_index S)
              && SAP.strcaseeq l (ascii_bytes ".cia")); [|discriminate].
    destruct ((le32_to_cpu
                 (N3DS.header_size (N3DS.as_N3DS_CIA_Header_t S p)) =?
               u32 (N3DS.sizeof_N3DS_CIA_Header_t S)) &&
              (le16_to_cpu
                 (N3DS.cia_type (N3DS.as_N3DS_CIA_Header_t S p)) =? 0) &&
              (le16_to_cpu
                 (N3DS.cia_version (N3DS.as_N3DS_CIA_Header_t S p)) =? 0))
      eqn:E; [|discriminate].
    apply andb_true_iff in E as [E _]. apply andb_true_iff in E as [E _].
    apply Z.eqb_eq in E. split; [exact E|].
    apply Z.geb_le in Hcia. exact Hcia.
  - repeat match goal with
           | |- context [if ?c then _ else _] => destruct c
           end; discriminate.
Qed.

(** ** Properties of the XDBF decoder *)

(** Claim C1, at an input where the code departs from it.  For an XACH
    resource of 50 bytes (the header and one record) whose header declares
    513 achievements, the bound of the claim is
    [min (513, 512, (50 - 14) / 36) = 1]; the code takes 512 as the entry
    count, and the loop over the records leaves the 50-byte buffer at its
    second record, at offset 50. *)
Theorem achievements_count_overrun :
  XDBF.xach_count XDBF.xdbf_structs 50 513 = 512 /\
  Z.min (Z.min 513 512) ((50 - 14) / 36) = 1 /\
  fst (XDBF.addFields_achievements XDBF.xdbf_structs unit (fun _ => None) 1
         (fun s => s) (XDBF.init XDBF.xdbf_structs unit (xach_file 513 1))) =
    OutOfBounds 50 36 50.
Proof. repeat split. Qed.

(** A declared count above 512 is replaced by 512 without regard to the
    length of the resource. *)
Lemma xach_count_over_cap (S : XDBF.Structs) (length count : Z) :
  512 < count -> XDBF.xach_count S length count = 512.
Proof.
  intros H. unfold XDBF.xach_count, XDBF.XACH_MAX_COUNT.
  destruct (count >? 512) eqn:E1; [reflexivity|].
  rewrite Z.gtb_ltb in E1. apply Z.ltb_ge in E1. lia.
Qed.

(** A declared count of at most 512 is limited by the records that the
    resource can hold. *)
Lemma xach_count_within_cap (S : XDBF.Structs) (length count : Z) :
  0 < XDBF.sizeof_XDBF_XACH_Entry S ->
  count <= 512 ->
  XDBF.xach_count S length count =
    Z.min count
      ((length - XDBF.sizeof_XDBF_XACH_Header S) /
       XDBF.sizeof_XDBF_XACH_Entry S).
Proof.
  intros Hent Hcap. unfold XDBF.xach_count, XDBF.XACH_MAX_COUNT.
  generalize ((length - XDBF.sizeof_XDBF_XACH_Header S) /
              XDBF.sizeof_XDBF_XACH_Entry S). intros q.
  destruct (count >? 512) eqn:E1; [apply Z.gtb_lt in E1; lia|].
  destruct (count >? q) eqn:E2.
  - apply Z.gtb_lt in E2. lia.
  - rewrite Z.gtb_ltb in E2. apply Z.ltb_ge in E2. lia.
Qed.

(** The loop over the records stays inside the buffer when the records
    it is asked for fit, and then gives one row and one icon per record. *)
Lemma xach_loop_in_bounds (S : XDBF.Structs) (rp_image : Type)
    (RpPng_load : list Z -> option rp_image)
    (dos2unix : list Z -> list Z) (xach_buf : list Z) (langID : Z)
    (n : nat) :
  0 <= XDBF.sizeof_XDBF_XACH_Entry S ->
  forall (p : Z) (st : XDBF.State rp_image),
  p + Z.of_nat n * XDBF.sizeof_XDBF_XACH_Entry S <=
    Z.of_nat (List.length xach_buf) ->
  exists ld st',
    XDBF.xach_loop S rp_image RpPng_load dos2unix n xach_buf p langID st =
      (Done ld, st') /\
    List.length (XDBF.rows _ ld) = n /\
    List.length (XDBF.icons _ ld) = n.
Proof.
  intros Hent. induction n as [|n IH]; intros p st Hfit.
  - simpl. eexists _, _. repeat split.
  - cbn [XDBF.xach_loop].
    destruct (p + XDBF.sizeof_XDBF_XACH_Entry S >?
              Z.of_nat (List.length xach_buf)) eqn:E.
    { apply Z.gtb_lt in E. lia. }
    destruct (XDBF.xach_row S rp_image RpPng_load dos2unix xach_buf p langID
                st) as [[row icon] st1].
    destruct (IH (p + XDBF.sizeof_XDBF_XACH_Entry S) st1)
      as (ld & st' & Hloop & Hrows & Hicons); [lia|].
    rewrite Hloop. eexists _, _. split; [reflexivity|].
    simpl. rewrite Hrows, Hicons. split; reflexivity.
Qed.

Lemma le_decode_nonneg (bs : list Z) :
  Forall (fun b => 0 <= b) bs -> 0 <= le_decode bs.
Proof.
  induction 1 as [|b bs Hb _ IH]; simpl; lia.
Qed.

Lemma le_encode_nonneg (n : nat) (x : Z) :
  Forall (fun b => 0 <= b) (le_encode n x).
Proof.
  revert x. induction n as [|n IH]; intros x; simpl; constructor.
  - apply Z.mod_pos_bound. lia.
  - apply IH.
Qed.

Lemma bswap_nonneg (n : nat) (x : Z) : 0 <= bswap n x.
Proof.
  unfold bswap. apply le_decode_nonneg.
  apply Forall_rev. apply le_encode_nonneg.
Qed.

Lemma u32_nonneg (x : Z) : 0 <= u32 x.
Proof. unfold u32. apply Z.mod_pos_bound. lia. Qed.

Lemma seekAndRead_length (f : list Z) (pos size : Z) :
  0 <= pos -> 0 <= size ->
  Z.of_nat (List.length (seekAndRead f pos size)) =
  Z.min size (Z.max 0 (Z.of_nat (List.length f) - pos)).
Proof.
  intros Hp Hs. unfold seekAndRead.
  replace (pos <? 0) with false by (symmetry; apply Z.ltb_ge; lia).
  replace (size <? 0) with false by (symmetry; apply Z.ltb_ge; lia).
  simpl. rewrite length_take, length_drop. lia.
Qed.

(** A read that reaches past the end of the file is short. *)
Lemma short_read (f : list Z) (pos size : Z) :
  0 <= pos -> 0 < size -> pos + size > Z.of_nat (List.length f) ->
  (Z.of_nat (List.length (seekAndRead f pos size)) =? size) = false.
Proof.
  intros Hp Hs Hover. apply Z.eqb_neq.
  rewrite seekAndRead_length by lia. lia.
Qed.

(** Claim C2, as the code has it.  For a table entry whose byte offset
    in the file, the offset of the entry plus the start of the data, fits
    in 32 bits and whose byte offset plus length exceeds the size of the
    file, a string-table load or an image load that is not answered from
    the cache returns null and caches nothing.  The range is not checked
    before the read: when the object is valid and the length passes the
    sanity limits, the loader issues the read of the resource and rejects
    it because the read is short.  Entries whose byte offset does not fit
    in 32 bits are left out. *)
Theorem out_of_range_resource_rejected
    (S : XDBF.Structs) (rp_image : Type)
    (RpPng_load : list Z -> option rp_image)
    (st : XDBF.State rp_image) (f : list Z) (id : Z) (e : XDBF.XDBF_Entry) :
  let byte_offset := be32_to_cpu (XDBF.offset e) + XDBF.data_offset _ st in
  XDBF.file _ st = Some f ->
  0 <= XDBF.data_offset _ st ->
  byte_offset < 2 ^ 32 ->
  byte_offset + XDBF.resource_length e > Z.of_nat (List.length f) ->
  0 <= XDBF.sizeof_XDBF_XSTR_Header S ->
  (XDBF.findResource _ st (XDBF.XDBF_SPA_NAMESPACE_STRING_TABLE S) id =
     Some e ->
   XDBF.strTbl _ st !! id = None ->
   let r := XDBF.loadStringTable S _ id st in
   fst r = None /\
   XDBF.strTbl _ (snd r) = XDBF.strTbl _ st /\
   XDBF.io _ (snd r) =
     if negb ((id <=? XDBF.XDBF_LANGUAGE_UNKNOWN S) ||
              (id >=? XDBF.XDBF_LANGUAGE_MAX S)) &&
        XDBF.isValid _ st &&
        negb ((XDBF.resource_length e <=? XDBF.sizeof_XDBF_XSTR_Header S) ||
              (XDBF.resource_length e >? 1024 * 1024))
     then (byte_offset, XDBF.resource_length e) :: XDBF.io _ st
     else XDBF.io _ st) /\
  (XDBF.findResource _ st (XDBF.XDBF_SPA_NAMESPACE_IMAGE S) id = Some e ->
   XDBF.map_images _ st !! id = None ->
   let r := XDBF.loadImage S _ RpPng_load id st in
   fst r = None /\
   XDBF.map_images _ (snd r) = XDBF.map_images _ st /\
   XDBF.io _ (snd r) =
     if XDBF.isValid _ st &&
        negb ((XDBF.resource_length e <? 16) ||
              (XDBF.resource_length e >? 1024 * 1024))
     then (byte_offset, XDBF.resource_length e) :: XDBF.io _ st
     else XDBF.io _ st).
Proof.
  intros byte_offset Hf Hdata Hfit Hover Hhdr.
  assert (Haddr : u32 (be32_to_cpu (XDBF.offset e) + XDBF.data_offset _ st) =
                  byte_offset).
  { unfold u32. apply Z.mod_small. subst byte_offset.
    pose proof (bswap_nonneg 4 (XDBF.offset e)) as Ho.
    fold (be32_to_cpu (XDBF.offset e)) in Ho. lia. }
  assert (Hpos : 0 <= byte_offset) by (rewrite <- Haddr; apply u32_nonneg).
  unfold XDBF.resource_length in *.
  split.
  - intros Hfind Hnc. unfold XDBF.loadStringTable.
    destruct ((id <=? XDBF.XDBF_LANGUAGE_UNKNOWN S) ||
              (id >=? XDBF.XDBF_LANGUAGE_MAX S)); [repeat split|].
    rewrite Hnc, Hf.
    destruct (XDBF.isValid _ st); [|repeat split].
    rewrite Hfind.
    destruct ((be32_to_cpu (XDBF.length e) <=?
               XDBF.sizeof_XDBF_XSTR_Header S) ||
              (be32_to_cpu (XDBF.length e) >? 1024 * 1024)) eqn:Hrange;
      [repeat split|].
    apply orb_false_iff in Hrange as [Hmin _]. apply Z.leb_gt in Hmin.
    unfold XDBF.file_read. rewrite Haddr.
    rewrite short_read by lia.
    repeat split.
  - intros Hfind Hnc. unfold XDBF.loadImage. rewrite Hnc.
    unfold XDBF.findResource in Hfind.
    destruct (XDBF.entryTable _ st) as [tbl|] eqn:Htbl; [|discriminate].
    rewrite Hf.
    destruct (XDBF.isValid _ st); [|repeat split].
    unfold XDBF.findResource. rewrite Htbl, Hfind.
    destruct ((be32_to_cpu (XDBF.length e) <? 16) ||
              (be32_to_cpu (XDBF.length e) >? 1024 * 1024)) eqn:Hrange;
      [repeat split|].
    apply orb_false_iff in Hrange as [Hmin _]. apply Z.ltb_ge in Hmin.
    unfold XDBF.file_read. rewrite Haddr.
    rewrite short_read by lia.
    repeat split.
Qed.

Lemma out_of_range_resource_rejected_witness :
  let st := XDBF.init XDBF.xdbf_structs unit (strings_file 100) in
  let r := XDBF.loadStringTable XDBF.xdbf_structs unit 1 st in
  fst r = None /\
  XDBF.strTbl _ (snd r) = XDBF.strTbl _ st /\
  XDBF.io _ (snd r) = (42, 100) :: XDBF.io _ st.
Proof.
  refine (proj1
    (out_of_range_resource_rejected XDBF.xdbf_structs unit (fun _ => None)
       (XDBF.init XDBF.xdbf_structs unit (strings_file 100))
       (strings_file 100) 1
       (XDBF.mkXDBF_Entry (cpu_to_be16 5) (cpu_to_be64 1) 0 (cpu_to_be32 100))
       _ _ _ _ _) _ _).
  - reflexivity.
  - vm_compute. discriminate.
  - reflexivity.
  - reflexivity.
  - simpl; lia.
  - reflexivity.
  - reflexivity.
Defined.

(** Claim C2 as stated fails: for the string table that the entry table
    of [strings_file 100] places at bytes 42 to 142 of a 62-byte file, the
    load returns null, but only after it has issued the read. *)
Lemma read_attempted_on_out_of_range_entry :
  let st := XDBF.init XDBF.xdbf_structs unit (strings_file 100) in
  let r := XDBF.loadStringTable XDBF.xdbf_structs unit 1 st in
  exists e,
    XDBF.findResource unit st 5 1 = Some e /\
    be32_to_cpu (XDBF.offset e) + XDBF.data_offset _ st +
      be32_to_cpu (XDBF.length e) >
      Z.of_nat (List.length (strings_file 100)) /\
    ~ (fst r = None /\ XDBF.io _ (snd r) = XDBF.io _ st).
Proof.
  eexists. split; [vm_compute; reflexivity|].
  split; [vm_compute; reflexivity|].
  intros [_ H]. vm_compute in H. discriminate H.
Qed.

(** The loaders add the offset of an entry to the start of the data in
    [uint32_t] and do not look at the carry.  The entry of
    [wrapped_offset_file] lies 2^32 + 42 bytes into a file of 66 bytes;
    its table is read at byte 42 and returned. *)
Lemma wrapped_offset_entry_loaded :
  let st := XDBF.init XDBF.xdbf_structs unit wrapped_offset_file in
  let r := XDBF.loadStringTable XDBF.xdbf_structs unit 1 st in
  exists e,
    XDBF.findResource unit st 5 1 = Some e /\
    be32_to_cpu (XDBF.offset e) + XDBF.data_offset _ st = 2 ^ 32 + 42 /\
    Z.of_nat (List.length wrapped_offset_file) = 66 /\
    fst r = Some (take 20 (drop 42 wrapped_offset_file)) /\
    XDBF.io _ (snd r) = [(42, 20)].
Proof.
  eexists. split; [vm_compute; reflexivity|].
  repeat split; vm_compute; reflexivity.
Qed.

(** ** The marks of the lazy loaders *)

Lemma land_lor_absorb (a m : Z) : Z.land a (Z.lor a m) = a.
Proof.
  apply Z.bits_inj'. intros n _.
  rewrite Z.land_spec, Z.lor_spec. destruct (Z.testbit a n); reflexivity.
Qed.

Lemma land_lor_other (a m k : Z) :
  Z.land m k = 0 -> Z.land (Z.lor a m) k = Z.land a k.
Proof.
  intros H. rewrite Z.land_lor_distr_l, H. apply Z.lor_0_r.
Qed.

Lemma land_lor_same (a m : Z) : m <> 0 -> Z.land (Z.lor a m) m <> 0.
Proof.
  intros Hm H. apply Hm.
  rewrite Z.land_lor_distr_l, Z.land_diag in H.
  apply Z.lor_eq_0_iff in H. tauto.
Qed.

Section N3DSMarks.

Variable S : N3DS.Structs.
Variable ENABLE_DECRYPTION : bool.
Variable NintendoDS : Type.
Variable NintendoDS_open : list Z -> Z -> Z -> option NintendoDS.
Variable AesCTR_decrypt : list Z -> list Z -> list Z -> list Z * Z.

Local Abbreviation State := (N3DS.State NintendoDS).
Local Abbreviation hl := (N3DS.headers_loaded NintendoDS).
Local Abbreviation loadTMD := (N3DS.loadTMD S NintendoDS NintendoDS_open).
Local Abbreviation loadNCCH_idx :=
  (N3DS.loadNCCH_idx S NintendoDS NintendoDS_open).
Local Abbreviation loadNCCH := (N3DS.loadNCCH S NintendoDS NintendoDS_open).
Local Abbreviation loadExHeader :=
  (N3DS.loadExHeader S ENABLE_DECRYPTION NintendoDS NintendoDS_open
     AesCTR_decrypt).

(** Case analysis on the next test of the code under study. *)
Ltac break_if :=
  match goal with
  | |- context [if ?c then _ else _] => destruct c eqn:?
  | |- context [match ?c with _ => _ end] => destruct c eqn:?
  end.

Lemma probe_srl_marks (st st' : State) :
  N3DS.probe_srl S NintendoDS NintendoDS_open st = Done st' ->
  hl st' = hl st.
Proof.
  unfold N3DS.probe_srl. repeat break_if; intros H; inversion H; reflexivity.
Qed.

Lemma loadTMD_marks (st : State) :
  hl (snd (loadTMD st)) = hl st \/
  (fst (loadTMD st) = Done 0 /\
   hl (snd (loadTMD st)) = Z.lor (hl st) N3DS.HEADER_TMD).
Proof.
  unfold N3DS.loadTMD, N3DS.read_at.
  repeat (break_if; try (left; reflexivity)).
  right. split; [reflexivity|]. simpl.
  match goal with
  | H : N3DS.probe_srl _ _ _ _ = Done _ |- _ =>
      rewrite (probe_srl_marks _ _ H)
  end.
  reflexivity.
Qed.

Lemma read_ncch_marks offset length hdr0 (st : State) :
  hl (snd (N3DS.read_ncch S NintendoDS offset length hdr0 st)) = hl st.
Proof.
  unfold N3DS.read_ncch, N3DS.read_at. repeat break_if; reflexivity.
Qed.

Lemma loadNCCH_idx_marks idx hdr0 (st : State) :
  hl (snd (loadNCCH_idx idx hdr0 st)) = hl st \/
  hl (snd (loadNCCH_idx idx hdr0 st)) = Z.lor (hl st) N3DS.HEADER_TMD.
Proof.
  unfold N3DS.loadNCCH_idx.
  destruct (N3DS.romType NintendoDS st =? N3DS.ROM_TYPE_CIA).
  - destruct (negb (N3DS.has_header NintendoDS st N3DS.HEADER_CIA));
      [left; reflexivity|].
    pose proof (loadTMD_marks st) as Htmd.
    destruct (loadTMD st) as [[r|o s l|] st1]; simpl in Htmd |- *.
    + assert (Hst1 : hl st1 = hl st \/ hl st1 = Z.lor (hl st) N3DS.HEADER_TMD)
        by tauto.
      repeat (break_if; try exact Hst1).
      simpl.
      match goal with
      | H : N3DS.read_ncch _ _ ?o ?l ?h ?s = (_, ?s2) |- _ =>
          pose proof (read_ncch_marks o l h s) as Hrd; rewrite H in Hrd;
          simpl in Hrd; rewrite Hrd
      end.
      exact Hst1.
    + tauto.
    + tauto.
  - repeat (break_if; try (left; reflexivity)).
    simpl.
    match goal with
    | H : N3DS.read_ncch _ _ ?o ?l ?h ?s = (_, ?s2) |- _ =>
        pose proof (read_ncch_marks o l h s) as Hrd; rewrite H in Hrd;
        simpl in Hrd; rewrite Hrd
    end.
    left; reflexivity.
Qed.

(** What [loadNCCH] does to the marks: on failure it leaves them or adds
    the TMD mark; on success the NCCH mark is set. *)
Lemma loadNCCH_marks (st : State) :
  (exists m, (m = 0 \/ m = N3DS.HEADER_TMD) /\
     hl (snd (loadNCCH st)) = Z.lor (hl st) m) \/
  (fst (loadNCCH st) = Done 0 /\
   exists m, (m = 0 \/ m = N3DS.HEADER_TMD) /\
     hl (snd (loadNCCH st)) = Z.lor (Z.lor (hl st) m) N3DS.HEADER_NCCH).
Proof.
  unfold N3DS.loadNCCH.
  destruct (N3DS.has_header NintendoDS st N3DS.HEADER_NCCH).
  { left. exists 0. rewrite Z.lor_0_r. auto. }
  pose proof (loadNCCH_idx_marks 0 (N3DS.ncch_header NintendoDS st) st) as Hidx.
  destruct (loadNCCH_idx 0 (N3DS.ncch_header NintendoDS st) st)
    as [[[[ret hdr] ol]|o s l|] st1]; simpl in Hidx.
  - assert (Hm : exists m, (m = 0 \/ m = N3DS.HEADER_TMD) /\
                   hl st1 = Z.lor (hl st) m).
    { destruct Hidx as [H|H]; [exists 0; rewrite Z.lor_0_r|
                               exists N3DS.HEADER_TMD]; auto. }
    destruct Hm as (m & Hm & Hst1).
    destruct (ret =? 0) eqn:Hret.
    + right. apply Z.eqb_eq in Hret. subst ret. split; [reflexivity|].
      exists m. split; [exact Hm|].
      destruct ol as [[? ?]|]; simpl; rewrite Hst1; reflexivity.
    + left. exists m. split; [exact Hm|].
      destruct ol as [[? ?]|]; simpl; exact Hst1.
  - left. simpl.
    destruct Hidx as [H|H]; [exists 0; rewrite Z.lor_0_r|
                             exists N3DS.HEADER_TMD]; auto.
  - left. simpl.
    destruct Hidx as [H|H]; [exists 0; rewrite Z.lor_0_r|
                             exists N3DS.HEADER_TMD]; auto.
Qed.

Lemma readExHeader_marks key (st : State) :
  let r := N3DS.readExHeader S NintendoDS AesCTR_decrypt key st in
  (fst r <> Done 0 /\ hl (snd r) = hl st) \/
  (fst r = Done 0 /\ hl (snd r) = Z.lor (hl st) N3DS.HEADER_EXHEADER).
Proof.
  unfold N3DS.readExHeader, N3DS.read_at.
  repeat (break_if; try (left; split; [discriminate | reflexivity]));
    right; split; reflexivity.
Qed.

(** A read of the ExHeader that succeeds is the latest read in the log,
    and it leaves the place of the ExHeader as it is. *)
Lemma readExHeader_read key (st : State) :
  let r := N3DS.readExHeader S NintendoDS AesCTR_decrypt key st in
  fst r = Done 0 ->
  hd_error (N3DS.io NintendoDS (snd r)) =
    Some (exheader_pos S st, exheader_len st) /\
  exheader_pos S (snd r) = exheader_pos S st /\
  exheader_len (snd r) = exheader_len st.
Proof.
  unfold N3DS.readExHeader, N3DS.read_at, exheader_pos, exheader_len.
  repeat break_if; cbn [fst snd]; intros H; try discriminate H;
    repeat split.
Qed.

(** [loadExHeader] goes through [readExHeader] whenever it succeeds on an
    object whose ExHeader mark is not set. *)
Lemma loadExHeader_read (st : State) :
  N3DS.has_header NintendoDS st N3DS.HEADER_EXHEADER = false ->
  fst (loadExHeader st) = Done 0 ->
  hd_error (N3DS.io NintendoDS (snd (loadExHeader st))) =
    Some (exheader_pos S (snd (loadExHeader st)),
          exheader_len (snd (loadExHeader st))).
Proof.
  intros Hnot. unfold N3DS.loadExHeader. rewrite Hnot.
  destruct (if negb (N3DS.has_header NintendoDS st N3DS.HEADER_NCCH)
            then loadNCCH st else (Done 0, st)) as [[ret|o s l|] st1];
    [|discriminate|discriminate].
  destruct (negb (ret =? 0)); [discriminate|].
  destruct (N3DS.exheader_key S ENABLE_DECRYPTION NintendoDS st1)
    as [err|key] eqn:Hkey.
  { unfold N3DS.exheader_key in Hkey. cbn [fst]. intros H.
    injection H as ->.
    repeat match type of Hkey with
           | (if ?c then _ else _) = _ => destruct c
           end; inversion Hkey. }
  intros Hok.
  destruct (readExHeader_read key st1 Hok) as (Hio & Hpos & Hlen).
  rewrite Hio, Hpos, Hlen. reflexivity.
Qed.

(** What [loadExHeader] does to the marks when the ExHeader mark is not
    set. *)
Lemma loadExHeader_marks (st : State) :
  N3DS.has_header NintendoDS st N3DS.HEADER_EXHEADER = false ->
  exists m, (m = 0 \/ m = N3DS.HEADER_TMD \/ m = N3DS.HEADER_NCCH \/
             m = Z.lor N3DS.HEADER_TMD N3DS.HEADER_NCCH) /\
    ((fst (loadExHeader st) <> Done 0 /\
      hl (snd (loadExHeader st)) = Z.lor (hl st) m) \/
     (fst (loadExHeader st) = Done 0 /\
      hl (snd (loadExHeader st)) =
        Z.lor (Z.lor (hl st) m) N3DS.HEADER_EXHEADER)).
Proof.
  intros Hnot. unfold N3DS.loadExHeader. rewrite Hnot.
  assert (Hpre :
    let a := if negb (N3DS.has_header NintendoDS st N3DS.HEADER_NCCH)
             then loadNCCH st else (Done 0, st) in
    exists m, (m = 0 \/ m = N3DS.HEADER_TMD \/ m = N3DS.HEADER_NCCH \/
               m = Z.lor N3DS.HEADER_TMD N3DS.HEADER_NCCH) /\
      hl (snd a) = Z.lor (hl st) m).
  { destruct (negb (N3DS.has_header NintendoDS st N3DS.HEADER_NCCH)).
    - destruct (loadNCCH_marks st) as [(m & Hm & H)|(_ & m & Hm & H)].
      + exists m. split; [tauto | exact H].
      + destruct Hm as [-> | ->].
        * exists N3DS.HEADER_NCCH. split; [tauto|].
          rewrite H, Z.lor_0_r. reflexivity.
        * exists (Z.lor N3DS.HEADER_TMD N3DS.HEADER_NCCH). split; [tauto|].
          rewrite H, Z.lor_assoc. reflexivity.
    - exists 0. split; [tauto | simpl; rewrite Z.lor_0_r; reflexivity]. }
  cbv zeta in Hpre.
  destruct (if negb (N3DS.has_header NintendoDS st N3DS.HEADER_NCCH)
            then loadNCCH st else (Done 0, st)) as [[ret|o s l|] st1].
  - simpl in Hpre. destruct Hpre as (m & Hm & Hst1). exists m.
    split; [exact Hm|].
    destruct (negb (ret =? 0)).
    { left. split; [discriminate | exact Hst1]. }
    destruct (N3DS.exheader_key S ENABLE_DECRYPTION NintendoDS st1)
      as [err|key] eqn:Hkey.
    { left. split; [|exact Hst1].
      unfold N3DS.exheader_key in Hkey. simpl.
      repeat match type of Hkey with
             | (if ?c then _ else _) = _ => destruct c
             end; inversion Hkey; discriminate. }
    pose proof (readExHeader_marks key st1) as Hrd. cbv zeta in Hrd.
    rewrite <- Hst1. exact Hrd.
  - simpl in Hpre. destruct Hpre as (m & Hm & Hst1). exists m.
    split; [exact Hm|]. left. split; [discriminate | exact Hst1].
  - simpl in Hpre. destruct Hpre as (m & Hm & Hst1). exists m.
    split; [exact Hm|]. left. split; [discriminate | exact Hst1].
Qed.

End N3DSMarks.




(** The ExHeader mark shares its bit with the 3DSX mark: on a 3DSX file
    the constructor sets the bit, and [loadExHeader] reports success
    without reading the file. *)
Lemma exheader_mark_aliases_3dsx :
  let st :=
    N3DS.Nintendo3DS N3DS.n3ds_structs unit
      (ascii_bytes "3DSX" ++ replicate (Z.to_nat 8220) 0)
      (ascii_bytes ".3dsx") in
  N3DS.romType _ st = N3DS.ROM_TYPE_3DSX /\
  N3DS.headers_loaded _ st = N3DS.HEADER_EXHEADER /\
  N3DS.loadExHeader N3DS.n3ds_structs true unit (fun _ _ _ => None)
    (fun _ _ d => (d, 0)) st = (Done 0, st).
Proof.
  vm_compute. repeat split.
Qed.

(** ** Properties of the XEX decoder *)

Lemma chunks_lookup (n size : nat) : forall (buf : list Z) (i : nat),
  (i < n)%nat ->
  XEX.chunks n size buf !! i = Some (take size (drop (i * size) buf)).
Proof.
  induction n as [|n IH]; intros buf i Hi; [lia|].
  destruct i as [|i]; simpl.
  - rewrite drop_0. reflexivity.
  - rewrite IH by lia. rewrite drop_drop. reflexivity.
Qed.

Lemma chunks_length (n size : nat) (buf : list Z) :
  List.length (XEX.chunks n size buf) = n.
Proof. revert buf. induction n; intros; simpl; auto. Qed.

Lemma find_none_iff {A} (p : A -> bool) (l : list A) :
  (forall i x, l !! i = Some x -> p x = false) -> List.find p l = None.
Proof.
  induction l as [|a l IH]; intros H; [reflexivity|]. simpl.
  rewrite (H 0%nat a eq_refl). apply IH.
  intros i x Hx. apply (H (Datatypes.S i) x Hx).
Qed.

Lemma find_some_lookup {A} (p : A -> bool) (l : list A) (x : A) :
  List.find p l = Some x -> exists i, l !! i = Some x /\ p x = true.
Proof.
  induction l as [|a l IH]; [discriminate|]. simpl.
  destruct (p a) eqn:Hp.
  - intros H. inversion H; subst. exists 0%nat. auto.
  - intros H. destruct (IH H) as (i & Hi & Hx). exists (Datatypes.S i). auto.
Qed.

(** Claim C9.  When the header of an XEX file declares more than 32
    optional headers and the constructor accepts the file, the table kept
    by the decoder is made of the first 32 entries of the table in the
    file; [getOptHdrTblEntry] returns one of these 32 entries or nothing,
    so that a header whose ID occurs only after the 32nd entry is not
    found. *)
Theorem opt_headers_capped (S : XEX.Structs) (f : list Z) :
  let st := XEX.Xbox360_XEX S f in
  0 <= XEX.sizeof_XEX2_Header S ->
  0 <= XEX.sizeof_XEX2_Optional_Header_Tbl S ->
  XEX.file st = Some f ->
  32 < XEX.opt_header_count (XEX.xex2Header st) ->
  List.length (XEX.optHdrTbl st) = 32%nat /\
  (forall i, (i < 32)%nat ->
     XEX.optHdrTbl st !! i = Some (file_opt_header S f i)) /\
  (forall id e, XEX.getOptHdrTblEntry st id = Some e ->
     exists i, (i < 32)%nat /\ e = file_opt_header S f i /\
               XEX.header_id e = cpu_to_be32 id) /\
  (forall id,
     (forall i, (i < 32)%nat ->
        XEX.header_id (file_opt_header S f i) <> cpu_to_be32 id) ->
     XEX.getOptHdrTblEntry st id = None).
Proof.
  intros st Hhdr Hsz Hfile Hcount.
  assert (Htbl :
    List.length (XEX.optHdrTbl st) = 32%nat /\
    (forall i, (i < 32)%nat ->
       XEX.optHdrTbl st !! i = Some (file_opt_header S f i))).
  { subst st. revert Hfile Hcount. unfold XEX.Xbox360_XEX.
    repeat match goal with
           | |- context [if ?c then _ else _] => destruct c eqn:?
           end; try discriminate.
    cbn [XEX.file XEX.xex2Header XEX.optHdrTbl XEX.opt_header_count
         XEX.sec_info_offset] in *.
    intros _ Hcount.
    rewrite Z.min_r in * by lia.
    match goal with
    | H : negb (_ =? 32 * _) = false |- _ =>
        apply negb_false_iff in H; apply Z.eqb_eq in H; rename H into Hlen
    end.
    split.
    - rewrite length_map, chunks_length. reflexivity.
    - intros i Hi. rewrite list_lookup_fmap, chunks_lookup by lia.
      simpl. unfold file_opt_header. f_equal. f_equal.
      unfold seekAndRead in *.
      replace (XEX.sizeof_XEX2_Header S <? 0) with false in *
        by (symmetry; apply Z.ltb_ge; lia).
      replace (32 * XEX.sizeof_XEX2_Optional_Header_Tbl S <? 0) with false
        in * by (symmetry; apply Z.ltb_ge; lia).
      simpl in *.
      set (sz := Z.to_nat (XEX.sizeof_XEX2_Optional_Header_Tbl S)) in *.
      replace (Z.to_nat (32 * XEX.sizeof_XEX2_Optional_Header_Tbl S))
        with (32 * sz)%nat in * by (subst sz; lia).
      rewrite skipn_firstn_comm, take_take, drop_drop.
      f_equal. nia. }
  destruct Htbl as [Hlen Hlook]. split; [exact Hlen|]. split; [exact Hlook|].
  split.
  - intros id e. unfold XEX.getOptHdrTblEntry.
    destruct (XEX.optHdrTbl st) as [|e0 tbl] eqn:Htbl; [discriminate|].
    intros Hfind. apply find_some_lookup in Hfind as (i & Hi & Hid).
    assert (Hi32 : (i < 32)%nat).
    { apply lookup_lt_Some in Hi. rewrite Hlen in Hi. exact Hi. }
    exists i. split; [exact Hi32|]. rewrite (Hlook i Hi32) in Hi.
    inversion Hi; subst e. split; [reflexivity|].
    apply Z.eqb_eq in Hid. exact Hid.
  - intros id Hnone. unfold XEX.getOptHdrTblEntry.
    destruct (XEX.optHdrTbl st) as [|e0 tbl] eqn:Htbl; [reflexivity|].
    apply find_none_iff. intros i x Hx.
    assert (Hi32 : (i < 32)%nat).
    { apply lookup_lt_Some in Hx. rewrite Hlen in Hx. exact Hx. }
    rewrite (Hlook i Hi32) in Hx. inversion Hx; subst x.
    apply Z.eqb_neq. apply Hnone. exact Hi32.
Qed.

Lemma opt_headers_capped_witness :
  XEX.getOptHdrTblEntry (XEX.Xbox360_XEX XEX.xex_structs xex_33_headers) 33 =
    None /\
  XEX.header_id (file_opt_header XEX.xex_structs xex_33_headers 32) =
    cpu_to_be32 33.
Proof.
  split; [|reflexivity].
  apply (opt_headers_capped XEX.xex_structs xex_33_headers).
  - simpl; lia.
  - simpl; lia.
  - reflexivity.
  - vm_compute. reflexivity.
  - intros i Hi.
    do 32 (destruct i as [|i]; [vm_compute; discriminate|]). lia.
Defined.

Lemma mz_bytes (bs : list Z) :
  Forall (fun b => 0 <= b < 256) bs ->
  Z.of_nat (List.length bs) = 2 ->
  le_decode bs = cpu_to_be16 (multichar "MZ") ->
  bs = ascii_bytes "MZ".
Proof.
  intros Hb Hlen Hmz.
  destruct bs as [|a [|b [|c bs]]]; simpl in Hlen; try lia.
  inversion Hb as [|? ? Ha Hb']; subst. inversion Hb' as [|? ? Hb0 _]; subst.
  change (cpu_to_be16 (multichar "MZ")) with 23117 in Hmz.
  simpl in Hmz.
  assert (a = 77 /\ b = 90) as [-> ->] by lia. reflexivity.
Qed.

Section KeyFallback.

Variable S : XEX.Structs.
Variable ENABLE_DECRYPTION : bool.
Variable getAndVerify_retail : XEX.VerifyResult * list Z.
Variable cipher_setKey : list Z -> Z.
Variable cipher_setChainingMode_CBC : Z.
Variable cipher_decrypt : list Z -> list Z -> list Z -> list Z * Z.
Variable CBCReader_isOpen : XEX.CBCReader -> bool.
Variable CBCReader_read : XEX.CBCReader -> Z -> list Z * XEX.CBCReader.
Variable fresh_byte : nat -> Z.
Variable fresh_segment : nat -> XEX.BasicZDataSeg_t.

Local Abbreviation try_key :=
  (XEX.try_key cipher_setKey cipher_setChainingMode_CBC cipher_decrypt
     CBCReader_isOpen CBCReader_read).
Local Abbreviation try_keys :=
  (XEX.try_keys cipher_setKey cipher_setChainingMode_CBC cipher_decrypt
     CBCReader_isOpen CBCReader_read).
Local Abbreviation load_format_info :=
  (XEX.load_format_info S fresh_byte fresh_segment).
Local Abbreviation open_pe_reader :=
  (XEX.open_pe_reader S ENABLE_DECRYPTION getAndVerify_retail cipher_setKey
     cipher_setChainingMode_CBC cipher_decrypt CBCReader_isOpen
     CBCReader_read).
Local Abbreviation initPeReader :=
  (XEX.initPeReader S ENABLE_DECRYPTION getAndVerify_retail cipher_setKey
     cipher_setChainingMode_CBC cipher_decrypt CBCReader_isOpen
     CBCReader_read fresh_byte fresh_segment).
Local Abbreviation reader_for := (image_reader cipher_decrypt).
Local Abbreviation starts_MZ :=
  (begins_with_MZ cipher_decrypt CBCReader_read).
Local Abbreviation yields :=
  (key_yields cipher_setKey cipher_setChainingMode_CBC cipher_decrypt
     CBCReader_isOpen CBCReader_read).
Local Abbreviation rejected :=
  (key_rejected cipher_setKey cipher_setChainingMode_CBC cipher_decrypt
     CBCReader_isOpen CBCReader_read).

Local Arguments XEX.key_reader : simpl never.
Local Arguments XEX.pe_length : simpl never.

(** Building the segment table changes the segment table only. *)
Lemma load_basic_segments_frame (f : list Z) (pos : Z) (st st' : XEX.State) :
  XEX.load_basic_segments S fresh_byte fresh_segment f pos st =
    Done (Some st') ->
  st' = XEX.set_basicZDataSegments (XEX.basicZDataSegments st') st.
Proof.
  unfold XEX.load_basic_segments.
  repeat match goal with
         | |- context [if ?c then _ else _] => destruct c
         end; intros H; inversion H. reflexivity.
Qed.

(** The first part of [initPeReader] changes the file format info and
    the segment table only, and it goes on with the file of the object. *)
Lemma load_format_info_frame (st st' : XEX.State)
    (o : outcome (option (list Z))) :
  load_format_info st = (o, st') ->
  XEX.file st' = XEX.file st /\
  XEX.isValid st' = XEX.isValid st /\
  XEX.xex2Header st' = XEX.xex2Header st /\
  XEX.xex2Security st' = XEX.xex2Security st /\
  XEX.optHdrTbl st' = XEX.optHdrTbl st /\
  XEX.keyInUse st' = XEX.keyInUse st /\
  XEX.peReader st' = XEX.peReader st /\
  (forall f, o = Done (Some f) -> XEX.file st = Some f).
Proof.
  clear. unfold XEX.load_format_info.
  destruct (XEX.getOptHdrTblEntry st _) as [entry|];
    [|intros H; inversion H; subst; repeat split; discriminate].
  destruct (XEX.file st) as [f|] eqn:Hfile;
    [|intros H; inversion H; subst; repeat split; auto; discriminate].
  destruct (negb _);
    [intros H; inversion H; subst; repeat split; auto; discriminate|].
  cbv zeta.
  destruct (_ =? XEX.XEX2_COMPRESSION_TYPE_BASIC S).
  - destruct (XEX.load_basic_segments _ _ _ _ _ _) as [[st2|]| |] eqn:Hseg;
      intros H; inversion H; subst; clear H;
      try (repeat split; auto; discriminate).
    apply load_basic_segments_frame in Hseg. rewrite Hseg.
    repeat split; auto. intros f0 H0. congruence.
  - intros H; inversion H; subst. repeat split; auto.
    intros f0 H0. congruence.
Qed.

(** A reader returns bytes. *)
Hypothesis read_bytes :
  forall r n, Forall (fun b => 0 <= b < 256) (fst (CBCReader_read r n)).

(** A round of the key loop keeps a reader exactly when the key yields
    the image. *)
Lemma try_key_yields (f : list Z) (st : XEX.State) (key : list Z)
    (rd : XEX.CBCReader) :
  try_key f (XEX.pe_offset (XEX.xex2Header st)) (XEX.pe_length st f)
    (XEX.title_key (XEX.xex2Security st)) key = Some rd <->
  yields f st key rd.
Proof.
  unfold XEX.try_key, key_yields, begins_with_MZ, image_reader,
    XEX.key_reader.
  destruct (Z.lor (cipher_setKey key) cipher_setChainingMode_CBC =? 0)
    eqn:Hset; cbn [negb].
  2:{ apply Z.eqb_neq in Hset. split; [discriminate | tauto]. }
  apply Z.eqb_eq in Hset.
  destruct (cipher_decrypt key (XEX.title_key (XEX.xex2Security st))
              (replicate 16 0)) as [tk' dsize]. cbn [fst snd].
  destruct (dsize =? 16) eqn:Hd; cbn [negb].
  2:{ apply Z.eqb_neq in Hd. split; [discriminate | tauto]. }
  apply Z.eqb_eq in Hd.
  destruct (CBCReader_isOpen _) eqn:Hopen; cbn [negb].
  2:{ split; [discriminate | intros (_ & _ & H & _); discriminate H]. }
  pose proof (read_bytes
    (XEX.mkCBCReader f (XEX.pe_offset (XEX.xex2Header st))
       (XEX.pe_length st f) (Some tk') (Some (replicate 16 0)) 0) 2) as Hb.
  destruct (CBCReader_read _ 2) as [mzb rd'] eqn:Hread. cbn [fst snd] in *.
  destruct (Z.of_nat (List.length mzb) =? 2) eqn:Hlen; cbn [negb].
  2:{ apply Z.eqb_neq in Hlen. split; [discriminate|].
      intros (_ & _ & _ & Hmz & _). rewrite Hmz in Hlen.
      exfalso. apply Hlen. reflexivity. }
  apply Z.eqb_eq in Hlen.
  destruct (le_decode mzb =? cpu_to_be16 (multichar "MZ")) eqn:Hmz;
    cbn [negb].
  - apply Z.eqb_eq in Hmz. pose proof (mz_bytes mzb Hb Hlen Hmz) as ->.
    split.
    + intros H. injection H as <-. auto.
    + intros (_ & _ & _ & _ & ->). reflexivity.
  - apply Z.eqb_neq in Hmz. split; [discriminate|].
    intros (_ & _ & _ & Hmz' & _). subst mzb.
    exfalso. apply Hmz. reflexivity.
Qed.

Lemma try_key_rejected (f : list Z) (st : XEX.State) (key : list Z) :
  try_key f (XEX.pe_offset (XEX.xex2Header st)) (XEX.pe_length st f)
    (XEX.title_key (XEX.xex2Security st)) key = None <->
  rejected f st key.
Proof.
  unfold key_rejected. split.
  - intros Hn rd Hy. apply try_key_yields in Hy. congruence.
  - intros Hr.
    destruct (try_key f _ _ _ key) as [rd|] eqn:E; [|reflexivity].
    apply try_key_yields in E. exfalso. exact (Hr rd E).
Qed.

(** Claim C5.  With decryption built in, for an object without a reader
    whose file format info has been read from the open file and tells
    that the PE image is encrypted.  The retail key is tried first: when
    it is verified and yields the image, the reader returned and kept is
    the reader of the retail key, whatever the debug key would give, and
    [keyInUse] is 0.  When the retail key is not verified, or is rejected,
    the all-zero debug key decides: when it yields the image, the reader
    returned and kept is its reader and [keyInUse] is 1; when it is
    rejected as well, the result is null, no reader is kept and
    [keyInUse] is left as it was.  A key under which the image does not
    begin with "MZ" is rejected.  (The reader that a key yields is
    returned unless it reports that it is not open after the magic was
    read; the result is then null.) *)
Theorem pe_key_fallback (st st2 : XEX.State) (f : list Z) :
  XEX.peReader st = None ->
  load_format_info st = (Done (Some f), st2) ->
  XEX.encryption_type (XEX.fileFormatInfo st2) <>
    cpu_to_be16 (XEX.XEX2_ENCRYPTION_TYPE_NONE S) ->
  let r :=
    XEX.initPeReader S true getAndVerify_retail cipher_setKey
      cipher_setChainingMode_CBC cipher_decrypt CBCReader_isOpen
      CBCReader_read fresh_byte fresh_segment st in
  let retail := snd getAndVerify_retail in
  let debug := replicate 16 0 in
  let kept (rd : XEX.CBCReader) :=
    if CBCReader_isOpen rd then Some rd else None in
  (fst getAndVerify_retail = XEX.VERIFY_OK ->
   forall rd, yields f st retail rd ->
     fst r = Done (kept rd) /\ XEX.peReader (snd r) = kept rd /\
     XEX.keyInUse (snd r) = 0) /\
  (fst getAndVerify_retail <> XEX.VERIFY_OK \/ rejected f st retail ->
   (forall rd, yields f st debug rd ->
      fst r = Done (kept rd) /\ XEX.peReader (snd r) = kept rd /\
      XEX.keyInUse (snd r) = 1) /\
   (rejected f st debug ->
      fst r = Done None /\ XEX.peReader (snd r) = None /\
      XEX.keyInUse (snd r) = XEX.keyInUse st)) /\
  (forall key, ~ starts_MZ f st key -> rejected f st key).
Proof.
  clear ENABLE_DECRYPTION.
  intros Hnone Hload Henc r retail debug kept.
  pose proof (load_format_info_frame _ _ _ Hload)
    as (_ & _ & Hh & Hs & _ & Hk & Hp & _).
  rewrite Hnone in Hp.
  assert (Hr : r =
    let '(reader, st3) :=
      XEX.open_pe_reader S true getAndVerify_retail cipher_setKey
        cipher_setChainingMode_CBC cipher_decrypt CBCReader_isOpen
        CBCReader_read f st2 in
    (Done reader, st3)).
  { subst r. unfold XEX.initPeReader. rewrite Hnone, Hload. reflexivity. }
  unfold XEX.open_pe_reader in Hr.
  apply Z.eqb_neq in Henc. rewrite Henc, Hh, Hs in Hr.
  replace (XEX.pe_length st2 f) with (XEX.pe_length st f) in Hr
    by (unfold XEX.pe_length; rewrite Hh; reflexivity).
  assert (Hround : forall key i,
    (forall rd, yields f st key rd ->
       (let '(reader, st3) :=
          (if negb (CBCReader_isOpen rd)
           then (None, XEX.set_keyInUse i st2)
           else (Some rd, XEX.set_peReader (Some rd)
                            (XEX.set_keyInUse i st2)))
        in (Done reader, st3)) = r ->
       fst r = Done (kept rd) /\ XEX.peReader (snd r) = kept rd /\
       XEX.keyInUse (snd r) = i)).
  { intros key i rd _ <-. subst kept. cbv beta.
    destruct (CBCReader_isOpen rd); cbn; auto. }
  subst retail debug.
  destruct getAndVerify_retail as [v key0]. cbn [fst snd] in *.
  split; [|split].
  - intros -> rd Hy. apply (Hround key0 0 rd Hy).
    rewrite Hr. cbn [drop XEX.try_keys Z.of_nat].
    apply try_key_yields in Hy. rewrite Hy. reflexivity.
  - intros Hfall.
    assert (Htail : r =
      let '(reader, st3) :=
        match try_keys f (XEX.pe_offset (XEX.xex2Header st))
                (XEX.pe_length st f) (XEX.title_key (XEX.xex2Security st))
                [replicate 16 0] 1 with
        | Some (reader, i) =>
            if negb (CBCReader_isOpen reader)
            then (None, XEX.set_keyInUse i st2)
            else (Some reader,
                  XEX.set_peReader (Some reader) (XEX.set_keyInUse i st2))
        | None => (None, st2)
        end in
      (Done reader, st3)).
    { rewrite Hr. destruct v as [|code].
      - destruct Hfall as [Hv|Hrej]; [contradiction|].
        apply try_key_rejected in Hrej.
        cbn [drop XEX.try_keys Z.of_nat]. rewrite Hrej. reflexivity.
      - reflexivity. }
    cbn [XEX.try_keys] in Htail. split.
    + intros rd Hy. apply (Hround _ 1 rd Hy). rewrite Htail.
      apply try_key_yields in Hy. rewrite Hy. reflexivity.
    + intros Hrej. apply try_key_rejected in Hrej.
      rewrite Hrej in Htail. rewrite Htail. cbn. auto.
  - intros key Hno rd (_ & _ & _ & Hmz & _). exact (Hno Hmz).
Qed.

(** In a build without decryption no key is tried: an encrypted image
    has no reader. *)
Lemma pe_reader_without_decryption (st st2 : XEX.State) (f : list Z) :
  XEX.peReader st = None ->
  load_format_info st = (Done (Some f), st2) ->
  XEX.encryption_type (XEX.fileFormatInfo st2) <>
    cpu_to_be16 (XEX.XEX2_ENCRYPTION_TYPE_NONE S) ->
  let r :=
    XEX.initPeReader S false getAndVerify_retail cipher_setKey
      cipher_setChainingMode_CBC cipher_decrypt CBCReader_isOpen
      CBCReader_read fresh_byte fresh_segment st in
  fst r = Done None /\ XEX.peReader (snd r) = None.
Proof.
  clear ENABLE_DECRYPTION read_bytes.
  intros Hnone Hload Henc r.
  pose proof (load_format_info_frame _ _ _ Hload)
    as (_ & _ & _ & _ & _ & _ & Hp & _).
  subst r. unfold XEX.initPeReader. rewrite Hnone, Hload.
  unfold XEX.open_pe_reader.
  apply Z.eqb_neq in Henc. rewrite Henc. cbn. split; congruence.
Qed.

End KeyFallback.

Lemma xor_reader_bytes (r : XEX.CBCReader) (n : Z) :
  Forall (fun b => 0 <= b < 256) (fst (xor_reader_read r n)).
Proof.
  unfold xor_reader_read. cbn [fst].
  induction (seekAndRead (XEX.cbc_file r) (XEX.cbc_offset r + XEX.cbc_pos r)
               n) as [|b l IH]; simpl; constructor.
  - apply Z.mod_pos_bound. lia.
  - exact IH.
Qed.

Lemma pe_key_fallback_witness :
  let st := XEX.Xbox360_XEX XEX.xex_structs xex_encrypted in
  let r :=
    XEX.initPeReader XEX.xex_structs true wrong_retail_key (fun _ => 0) 0
      xor_cipher_decrypt (fun _ => true) xor_reader_read zero_byte
      zero_segment st in
  fst wrong_retail_key = XEX.VERIFY_OK /\
  key_rejected (fun _ => 0) 0 xor_cipher_decrypt (fun _ => true)
    xor_reader_read xex_encrypted st (snd wrong_retail_key) /\
  exists rd,
    fst r = Done (Some rd) /\ XEX.peReader (snd r) = Some rd /\
    XEX.keyInUse (snd r) = 1.
Proof.
  intros st r.
  destruct (pe_key_fallback XEX.xex_structs wrong_retail_key (fun _ => 0) 0
              xor_cipher_decrypt (fun _ => true) xor_reader_read zero_byte
              zero_segment xor_reader_bytes st
              (snd (XEX.load_format_info XEX.xex_structs zero_byte
                      zero_segment st))
              xex_encrypted)
    as (_ & Hdebug & Hmz).
  - reflexivity.
  - vm_compute. reflexivity.
  - vm_compute. discriminate.
  - assert (Hrej : key_rejected (fun _ => 0) 0 xor_cipher_decrypt
                     (fun _ => true) xor_reader_read xex_encrypted st
                     (snd wrong_retail_key)).
    { apply Hmz. vm_compute. discriminate. }
    split; [reflexivity|]. split; [exact Hrej|].
    destruct (Hdebug (or_intror Hrej)) as [Hy _].
    eexists. apply (Hy _).
    repeat split; vm_compute; reflexivity.
Defined.


(** ** The SAP object: constructor and field list *)

Local Abbreviation sap_crlf := (ascii_bytes "SAP" ++ [13; 10]).
Local Abbreviation sap_lf := (ascii_bytes "SAP" ++ [10]).

Lemma mem_eq_take (f : list Z) (m n : nat) (pat : list Z) :
  List.length pat = n -> (n <= m)%nat ->
  mem_eq (take m f) 0 pat = bool_decide (take n f = pat).
Proof.
  intros Hn Hm. unfold mem_eq. rewrite Hn, drop_0, take_take.
  rewrite Nat.min_l by lia. reflexivity.
Qed.

Lemma mem_eq_take_nul (f : list Z) (m n : nat) (pat : list Z) :
  List.length pat = n -> (n <= List.length (take m f))%nat ->
  mem_eq (take m f ++ [0]) 0 pat = bool_decide (take n f = pat).
Proof.
  intros Hn Hm. unfold mem_eq. rewrite Hn, drop_0.
  rewrite take_app_le by lia. rewrite take_take.
  rewrite length_take in Hm. rewrite Nat.min_l by lia. reflexivity.
Qed.

(** What the constructor decides, on the contents of the file. *)
Lemma SAP_isValid_iff (f : list Z) :
  SAP.isValid (SAP.SAP f) = true <->
  (16 <= List.length f)%nat /\ (take 5 f = sap_crlf \/ take 4 f = sap_lf).
Proof.
  unfold SAP.SAP. change 16 with (Z.of_nat 16). rewrite seekAndRead_head.
  destruct (Z.of_nat (List.length (take 16 f)) =? Z.of_nat 16) eqn:E16.
  - apply Z.eqb_eq in E16. rewrite length_take in E16.
    assert (Hlen : (16 <= List.length f)%nat) by lia.
    unfold SAP.isRomSupported_static. cbn [RomData.header_pData
      RomData.header_addr RomData.header_size negb orb andb Z.eqb Z.ltb
      Z.geb Z.compare Pos.compare Pos.compare_cont].
    rewrite (mem_eq_take f 16 5) by (first [reflexivity | lia]).
    rewrite (mem_eq_take f 16 4) by (first [reflexivity | lia]).
    destruct (bool_decide (take 5 f = sap_crlf)) eqn:E5.
    + apply bool_decide_eq_true in E5. simpl. split; auto.
    + apply bool_decide_eq_false in E5.
      destruct (bool_decide (take 4 f = sap_lf)) eqn:E4.
      * apply bool_decide_eq_true in E4. simpl. split; auto.
      * apply bool_decide_eq_false in E4. simpl.
        split; [discriminate | intros [_ [H|H]]; contradiction].
  - apply Z.eqb_neq in E16. rewrite length_take in E16. simpl.
    split; [discriminate | intros [H _]; lia].
Qed.

(** The file pointer and the fields of the object that the constructor
    builds. *)
Lemma SAP_members (f : list Z) :
  SAP.file (SAP.SAP f) = (if SAP.isValid (SAP.SAP f) then Some f else None) /\
  SAP.fields (SAP.SAP f) = [].
Proof.
  unfold SAP.SAP.
  destruct (negb (Z.of_nat (List.length (seekAndRead f 0 16)) =? 16));
    [split; reflexivity|].
  cbv zeta.
  destruct (SAP.isRomSupported_static _ >=? 0); split; reflexivity.
Qed.

(** X1.  The constructor of the SAP object accepts a file exactly when it
    holds at least 16 bytes and starts with "SAP\r\n" or "SAP\n"; it keeps
    the file open exactly for the files it accepts (a rejected file is
    closed), and it adds no field. *)
Theorem SAP_constructor_accepts (f : list Z) :
  (SAP.isValid (SAP.SAP f) = true <->
   (16 <= List.length f)%nat /\
   (take 5 f = ascii_bytes "SAP" ++ [13; 10] \/
    take 4 f = ascii_bytes "SAP" ++ [10])) /\
  SAP.file (SAP.SAP f) = (if SAP.isValid (SAP.SAP f) then Some f else None) /\
  SAP.fields (SAP.SAP f) = [].
Proof.
  split; [apply SAP_isValid_iff | apply SAP_members].
Qed.

(** A file that the constructor accepts is one whose tags [parseTags]
    reads. *)
Lemma SAP_valid_tags_read (latin1_to_utf8 : list Z -> list Z)
    (dm : SAP.DataModel) (f : list Z) :
  SAP.isValid (SAP.SAP f) = true ->
  SAP.tags_read (SAP.parseTags latin1_to_utf8 dm f) = true.
Proof.
  intros H. apply SAP_isValid_iff in H as [Hlen Hmagic].
  unfold SAP.parseTags. change 4096 with (Z.of_nat 4096).
  rewrite seekAndRead_head.
  assert (Hsz : (List.length (take 4096 f) <? 6)%nat = false).
  { apply Nat.ltb_ge. rewrite length_take. lia. }
  rewrite Hsz.
  rewrite (mem_eq_take_nul f 4096 5)
    by (first [reflexivity | rewrite length_take; lia]).
  rewrite (mem_eq_take_nul f 4096 4)
    by (first [reflexivity | rewrite length_take; lia]).
  destruct (bool_decide (take 5 f = sap_crlf)) eqn:E5; [reflexivity|].
  destruct (bool_decide (take 4 f = sap_lf)) eqn:E4; [reflexivity|].
  apply bool_decide_eq_false in E5, E4. destruct Hmagic; contradiction.
Qed.

(** The number of fields added for a tag set. *)
Lemma tag_fields_length (ISALPHA : Z -> bool)
    (rp_sprintf : string -> Z -> list Z) (tags : SAP.TagData) :
  (5 <= List.length (SAP.tag_fields ISALPHA rp_sprintf tags) <= 11)%nat.
Proof.
  unfold SAP.tag_fields. rewrite !length_app.
  destruct (SAP.author tags), (SAP.name tags), (SAP.date tags),
    (SAP.songs tags >? 1), (ISALPHA (SAP.type tags)),
    ((SAP.toupper (SAP.type tags) =? 66) ||
     (SAP.toupper (SAP.type tags) =? 68) ||
     (SAP.toupper (SAP.type tags) =? 83)),
    (SAP.toupper (SAP.type tags) =? 67),
    (negb (SAP.covox_addr tags =? 0)); simpl; lia.
Qed.

(** X2.  On the object of a file that the constructor accepted,
    [loadFieldData] always finds the tags: it adds between 5 and 11
    fields (the 11 that the function reserves are enough), returns their
    number, and a second call returns 0 and leaves the object as it is. *)
Theorem loadFieldData_count (latin1_to_utf8 : list Z -> list Z)
    (dm : SAP.DataModel) (ISALPHA : Z -> bool)
    (rp_sprintf : string -> Z -> list Z) (f : list Z) :
  SAP.isValid (SAP.SAP f) = true ->
  let r :=
    SAP.loadFieldData latin1_to_utf8 dm ISALPHA rp_sprintf (SAP.SAP f) in
  5 <= fst r <= 11 /\
  fst r = Z.of_nat (List.length (SAP.fields (snd r))) /\
  SAP.loadFieldData latin1_to_utf8 dm ISALPHA rp_sprintf (snd r) =
    (0, snd r).
Proof.
  intros Hvalid r. subst r.
  pose proof (SAP_valid_tags_read latin1_to_utf8 dm f Hvalid) as Htags.
  pose proof (SAP_members f) as [Hfile Hfields].
  rewrite Hvalid in Hfile.
  set (fs := SAP.tag_fields ISALPHA rp_sprintf
               (SAP.parseTags latin1_to_utf8 dm f)).
  assert (Hr : SAP.loadFieldData latin1_to_utf8 dm ISALPHA rp_sprintf
                 (SAP.SAP f) =
    (Z.of_nat (List.length fs), SAP.mkSAPPrivate (Some f) true fs)).
  { unfold SAP.loadFieldData. rewrite Hfields, Hfile, Hvalid, Htags.
    reflexivity. }
  rewrite Hr. cbn [fst snd SAP.fields].
  pose proof (tag_fields_length ISALPHA rp_sprintf
                (SAP.parseTags latin1_to_utf8 dm f)) as Hlen.
  fold fs in Hlen.
  split; [lia|]. split; [reflexivity|].
  unfold SAP.loadFieldData. cbn [SAP.fields].
  destruct fs; [simpl in Hlen; lia | reflexivity].
Qed.

Lemma loadFieldData_count_witness :
  let r :=
    SAP.loadFieldData latin1_to_utf8_std SAP.LP64
      (fun c => ((65 <=? c) && (c <=? 90)) || ((97 <=? c) && (c <=? 122)))
      (fun _ c => [c]) (SAP.SAP example_tags_file) in
  5 <= fst r <= 11 /\
  fst r = Z.of_nat (List.length (SAP.fields (snd r))) /\
  SAP.loadFieldData latin1_to_utf8_std SAP.LP64
    (fun c => ((65 <=? c) && (c <=? 90)) || ((97 <=? c) && (c <=? 122)))
    (fun _ c => [c]) (snd r) =
    (0, snd r).
Proof.
  apply (loadFieldData_count latin1_to_utf8_std SAP.LP64
           (fun c => ((65 <=? c) && (c <=? 90)) || ((97 <=? c) && (c <=? 122)))
           (fun _ c => [c]) example_tags_file).
  reflexivity.
Defined.

(** ** The end marker and the keywords of the SAP parser *)

Lemma split_on_nonempty (d : Z) (s : list Z) : SAP.split_on d s <> [].
Proof.
  destruct s as [|c s]; simpl; [discriminate|].
  destruct (c =? d); [discriminate|].
  destruct (SAP.split_on d s); discriminate.
Qed.

Lemma split_on_app (d : Z) (a t : list Z) :
  SAP.split_on d (a ++ d :: t) = SAP.split_on d a ++ SAP.split_on d t.
Proof.
  induction a as [|c a IH]; simpl.
  - rewrite Z.eqb_refl. reflexivity.
  - destruct (c =? d); [rewrite IH; reflexivity|].
    rewrite IH. pose proof (split_on_nonempty d a) as Hne.
    destruct (SAP.split_on d a); [contradiction | reflexivity].
Qed.

Lemma cstr_app (a r : list Z) :
  SAP.cstr (a ++ r) =
  if forallb (fun c => negb (c =? 0)) a then a ++ SAP.cstr r else SAP.cstr a.
Proof.
  induction a as [|c a IH]; simpl; [reflexivity|].
  destruct (c =? 0); simpl; [reflexivity|].
  rewrite IH. destruct (forallb (fun c0 => negb (c0 =? 0)) a); reflexivity.
Qed.

(** The line loop does not look past a token that starts with 0xFF. *)
Lemma parse_tokens_stop (latin1_to_utf8 : list Z -> list Z)
    (dm : SAP.DataModel) (l1 : list (list Z)) (t : list Z)
    (l2 : list (list Z)) : forall tags,
  SAP.parse_tokens latin1_to_utf8 dm (l1 ++ (255 :: t) :: l2) tags =
  SAP.parse_tokens latin1_to_utf8 dm l1 tags.
Proof.
  induction l1 as [|tok l1 IH]; intros tags; cbn [app SAP.parse_tokens].
  - reflexivity.
  - destruct (byte_at tok 0 =? 255); [reflexivity | apply IH].
Qed.

(** What follows a line feed in the text is without effect when it is
    empty or starts with 0xFF. *)
Lemma tokens_after_lf (latin1_to_utf8 : list Z -> list Z)
    (dm : SAP.DataModel) (a r : list Z) (tags : SAP.TagData) :
  r = [] \/ (exists r', r = 255 :: r') ->
  SAP.parse_tokens latin1_to_utf8 dm
    (SAP.strtok_r_tokens (SAP.cstr (a ++ 10 :: r ++ [0]))) tags =
  SAP.parse_tokens latin1_to_utf8 dm
    (SAP.strtok_r_tokens (SAP.cstr (a ++ [0]))) tags.
Proof.
  intros Hr. rewrite !cstr_app.
  destruct (forallb (fun c => negb (c =? 0)) a); [|reflexivity].
  change (SAP.cstr [0]) with (@nil Z). rewrite app_nil_r.
  change (SAP.cstr (10 :: r ++ [0])) with (10 :: SAP.cstr (r ++ [0])).
  unfold SAP.strtok_r_tokens. rewrite split_on_app, filter_app.
  destruct Hr as [-> | [r' ->]].
  - change (SAP.cstr ([] ++ [0])) with (@nil Z).
    change (SAP.split_on 10 []) with [@nil Z].
    rewrite filter_cons. destruct (decide (@nil Z <> [])) as [Hn|_];
      [contradiction|].
    rewrite filter_nil, app_nil_r. reflexivity.
  - change (SAP.cstr ((255 :: r') ++ [0]))
      with (255 :: SAP.cstr (r' ++ [0])).
    cbn [SAP.split_on]. change (255 =? 10) with false. cbv iota.
    pose proof (split_on_nonempty 10 (SAP.cstr (r' ++ [0]))) as Hne.
    destruct (SAP.split_on 10 (SAP.cstr (r' ++ [0]))) as [|t ts];
      [contradiction|].
    rewrite filter_cons.
    destruct (decide (255 :: t <> [])) as [_|Hn];
      [|exfalso; apply Hn; discriminate].
    apply parse_tokens_stop.
Qed.

(** The tags of a file that starts with the magic, in terms of the text
    that follows it. *)
Lemma parseTags_text (latin1_to_utf8 : list Z -> list Z)
    (dm : SAP.DataModel) (hdr X : list Z) :
  hdr = sap_crlf \/ hdr = sap_lf -> (6 <= List.length (hdr ++ X))%nat ->
  SAP.parseTags latin1_to_utf8 dm (hdr ++ X) =
  SAP.set_tags_read true
    (SAP.parse_tokens latin1_to_utf8 dm
       (SAP.strtok_r_tokens
          (SAP.cstr (take (4096 - List.length hdr) X ++ [0])))
       SAP.TagData_init).
Proof.
  intros Hhdr Hlen. unfold SAP.parseTags.
  change 4096 with (Z.of_nat 4096). rewrite seekAndRead_head.
  assert (Hsz : (List.length (take 4096 (hdr ++ X)) <? 6)%nat = false).
  { apply Nat.ltb_ge. rewrite length_take. lia. }
  rewrite Hsz.
  rewrite (mem_eq_take_nul (hdr ++ X) 4096 5)
    by (first [reflexivity | rewrite length_take; lia]).
  rewrite (mem_eq_take_nul (hdr ++ X) 4096 4)
    by (first [reflexivity | rewrite length_take; lia]).
  rewrite (take_app hdr X 4096).
  rewrite (take_ge hdr 4096) by (destruct Hhdr as [-> | ->]; vm_compute; lia).
  rewrite <- app_assoc.
  destruct Hhdr as [-> | ->].
  - change (bool_decide (take 5 (sap_crlf ++ X) = sap_crlf)) with true.
    reflexivity.
  - assert (H5 : bool_decide (take 5 (sap_lf ++ X) = sap_crlf) = false).
    { apply bool_decide_eq_false. intros H. discriminate H. }
    rewrite H5.
    change (bool_decide (take 4 (sap_lf ++ X) = sap_lf)) with true.
    reflexivity.
Qed.

(** X3.  In a file that starts with the SAP magic, a line that begins with
    the byte 0xFF ends the tags: whatever follows it, the tags are those of
    the text before that line. *)
Theorem end_marker_stops_parsing (latin1_to_utf8 : list Z -> list Z)
    (dm : SAP.DataModel) (hdr a b : list Z) :
  hdr = ascii_bytes "SAP" ++ [13; 10] \/ hdr = ascii_bytes "SAP" ++ [10] ->
  (6 <= List.length (hdr ++ a))%nat ->
  SAP.parseTags latin1_to_utf8 dm (hdr ++ a ++ 10 :: 255 :: b) =
  SAP.parseTags latin1_to_utf8 dm (hdr ++ a).
Proof.
  intros Hhdr Hlen.
  rewrite (parseTags_text latin1_to_utf8 dm hdr a Hhdr Hlen).
  rewrite (parseTags_text latin1_to_utf8 dm hdr (a ++ 10 :: 255 :: b) Hhdr)
    by (rewrite !length_app in *; lia).
  f_equal. rewrite (take_app a).
  destruct (4096 - List.length hdr - List.length a)%nat as [|k] eqn:Ek.
  - rewrite take_0, app_nil_r. reflexivity.
  - rewrite (take_ge a) by lia.
    cbn [take]. rewrite <- app_assoc. cbn [app].
    apply tokens_after_lf.
    destruct k as [|k]; [left; reflexivity | right; eexists; reflexivity].
Qed.

Lemma end_marker_stops_parsing_witness :
  SAP.parseTags latin1_to_utf8_std SAP.LP64
    ((ascii_bytes "SAP" ++ [13; 10]) ++ ascii_bytes "NTSC" ++
     10 :: 255 :: ascii_bytes "STEREO") =
  SAP.parseTags latin1_to_utf8_std SAP.LP64
    ((ascii_bytes "SAP" ++ [13; 10]) ++ ascii_bytes "NTSC").
Proof.
  apply (end_marker_stops_parsing latin1_to_utf8_std SAP.LP64).
  - left. reflexivity.
  - vm_compute. lia.
Defined.

(** X4.  A line whose keyword is none of the thirteen keywords of the
    table, compared without regard to case, leaves every tag as it is. *)
Theorem unknown_keyword_ignored (latin1_to_utf8 : list Z -> list Z)
    (dm : SAP.DataModel) (token : list Z) (tags : SAP.TagData) :
  Forall
    (fun k =>
       SAP.strcaseeq (SAP.keyword k) (fst (SAP.split_token token)) = false)
    SAP.kwds ->
  SAP.parse_line latin1_to_utf8 dm token tags = tags.
Proof.
  unfold SAP.parse_line.
  destruct (SAP.split_token token) as [kw params]. cbn [fst].
  generalize SAP.kwds. intros ks Hks.
  induction Hks as [|k ks Hk _ IH]; cbn [SAP.scan_kwds]; [reflexivity|].
  rewrite Hk. exact IH.
Qed.

Lemma unknown_keyword_ignored_witness :
  SAP.parse_line latin1_to_utf8_std SAP.LP64 (ascii_bytes "TIME 01:23.45")
    (SAP.set_ntsc true SAP.TagData_init) =
  SAP.set_ntsc true SAP.TagData_init.
Proof.
  apply (unknown_keyword_ignored latin1_to_utf8_std SAP.LP64).
  repeat constructor.
Defined.

Lemma scan_kwds_case (latin1_to_utf8 : list Z -> list Z)
    (dm : SAP.DataModel) (ks : list SAP.KeywordDef) (kw kw' : list Z)
    (params : option (list Z)) (tags : SAP.TagData) :
  map SAP.tolower kw = map SAP.tolower kw' ->
  SAP.scan_kwds latin1_to_utf8 dm ks kw params tags =
  SAP.scan_kwds latin1_to_utf8 dm ks kw' params tags.
Proof.
  intros H. induction ks as [|k ks IH]; cbn [SAP.scan_kwds]; [reflexivity|].
  unfold SAP.strcaseeq. rewrite H, IH. reflexivity.
Qed.

Lemma no_space_case (kw : list Z) : forall kw',
  map SAP.tolower kw = map SAP.tolower kw' ->
  Forall (fun x => x <> 32) kw -> Forall (fun x => x <> 32) kw'.
Proof.
  induction kw as [|c kw IH]; intros [|c' kw'] H Hkw; try discriminate H;
    [constructor|].
  simpl in H. injection H as Hc Hrest.
  inversion Hkw as [|? ? Hc32 Hkw']; subst.
  constructor; [|apply IH; assumption].
  intros ->. apply Hc32. revert Hc. unfold SAP.tolower.
  destruct ((65 <=? c) && (c <=? 90)) eqn:E; simpl; [|auto].
  apply andb_true_iff in E as [E1 E2]. apply Z.leb_le in E1, E2. lia.
Qed.

(** The first occurrence of a character in a string that starts with
    characters other than it. *)
Lemma strchr_skip (kw : list Z) (c : Z) (tail : list Z) :
  Forall (fun x => x <> c) kw ->
  SAP.strchr (kw ++ tail) c =
  (fun i => (List.length kw + i)%nat) <$> SAP.strchr tail c.
Proof.
  induction 1 as [|x kw Hx _ IH]; cbn [app SAP.strchr List.length].
  - destruct (SAP.strchr tail c); reflexivity.
  - apply Z.eqb_neq in Hx. rewrite Hx, IH.
    destruct (SAP.strchr tail c); reflexivity.
Qed.

(** A character that is not a letter is found at the same place in two
    strings that differ only in the case of their letters. *)
Lemma strchr_case (c : Z) (l : list Z) : forall l',
  (forall x, (SAP.tolower x =? c) = (x =? c)) ->
  map SAP.tolower l = map SAP.tolower l' ->
  SAP.strchr l c = SAP.strchr l' c.
Proof.
  induction l as [|x l IH]; intros [|x' l'] Hc H; try discriminate H;
    [reflexivity|].
  cbn in H. injection H as Hx Hl. cbn [SAP.strchr].
  rewrite <- (Hc x), <- (Hc x'), Hx, (IH l' Hc Hl). reflexivity.
Qed.

Lemma tolower_cr (x : Z) : (SAP.tolower x =? 13) = (x =? 13).
Proof.
  unfold SAP.tolower.
  destruct ((65 <=? x) && (x <=? 90)) eqn:E; [|reflexivity].
  apply andb_true_iff in E as [E1 E2]. apply Z.leb_le in E1, E2.
  transitivity false; [|symmetry]; apply Z.eqb_neq; lia.
Qed.

(** The keywords of two lines that differ only in the case of their first
    part, which holds no space, differ only in case, and their
    parameters are the same. *)
Lemma split_token_case (kw kw' tail : list Z) :
  Forall (fun x => x <> 32) kw ->
  map SAP.tolower kw = map SAP.tolower kw' ->
  map SAP.tolower (fst (SAP.split_token (kw ++ tail))) =
    map SAP.tolower (fst (SAP.split_token (kw' ++ tail))) /\
  snd (SAP.split_token (kw ++ tail)) = snd (SAP.split_token (kw' ++ tail)).
Proof.
  intros Hkw Hcase.
  pose proof (no_space_case kw kw' Hcase Hkw) as Hkw'.
  assert (Hlen : List.length kw' = List.length kw).
  { apply (f_equal (@List.length Z)) in Hcase.
    rewrite !length_map in Hcase. auto. }
  assert (Hall : map SAP.tolower (kw ++ tail) =
                 map SAP.tolower (kw' ++ tail))
    by (rewrite !map_app, Hcase; reflexivity).
  unfold SAP.split_token.
  rewrite (strchr_skip kw 32 tail Hkw), (strchr_skip kw' 32 tail Hkw'), Hlen.
  destruct (SAP.strchr tail 32) as [i|]; cbn [fmap option_fmap option_map].
  - cbn [fst snd].
    rewrite (take_app_add' kw tail _ i eq_refl),
      (take_app_add' kw' tail _ i (eq_sym Hlen)), !map_app, Hcase.
    replace (Datatypes.S (List.length kw + i))
      with (List.length kw + Datatypes.S i)%nat by lia.
    rewrite (drop_app_add' kw tail _ _ eq_refl),
      (drop_app_add' kw' tail _ _ (eq_sym Hlen)).
    split; reflexivity.
  - rewrite (strchr_case 13 (kw ++ tail) (kw' ++ tail) tolower_cr Hall).
    destruct (SAP.strchr (kw' ++ tail) 13) as [j|]; cbn [fst snd].
    + split; [|reflexivity].
      change (SAP.tolower <$> take j (kw ++ tail) =
              SAP.tolower <$> take j (kw' ++ tail)).
      rewrite !fmap_take. f_equal. exact Hall.
    + split; [exact Hall | reflexivity].
Qed.

(** X5.  The keyword of a line is matched without regard to case: two
    lines that differ only in the case of the letters of their keywords
    have the same effect on the tags.  This holds for a line with
    parameters, where a space ends the keyword, and for a line without,
    where the keyword ends at a carriage return or at the end of the
    line: [kw] and [kw'] are the two spellings of the keyword, or of its
    first characters, and [tail] is the rest of the line. *)
Theorem keyword_case_insensitive (latin1_to_utf8 : list Z -> list Z)
    (dm : SAP.DataModel) (kw kw' tail : list Z) (tags : SAP.TagData) :
  Forall (fun x => x <> 32) kw ->
  map SAP.tolower kw = map SAP.tolower kw' ->
  SAP.parse_line latin1_to_utf8 dm (kw ++ tail) tags =
  SAP.parse_line latin1_to_utf8 dm (kw' ++ tail) tags.
Proof.
  intros Hkw Hcase.
  destruct (split_token_case kw kw' tail Hkw Hcase) as [Hk Hp].
  unfold SAP.parse_line.
  destruct (SAP.split_token (kw ++ tail)) as [k p].
  destruct (SAP.split_token (kw' ++ tail)) as [k' p'].
  cbn [fst snd] in *. subst p'.
  apply scan_kwds_case. exact Hk.
Qed.

Lemma keyword_case_insensitive_witness :
  SAP.parse_line latin1_to_utf8_std SAP.LP64
    (ascii_bytes "FastPlay" ++ 32 :: ascii_bytes "262") SAP.TagData_init =
  SAP.parse_line latin1_to_utf8_std SAP.LP64
    (ascii_bytes "FASTPLAY" ++ 32 :: ascii_bytes "262") SAP.TagData_init /\
  SAP.parse_line latin1_to_utf8_std SAP.LP64
    (ascii_bytes "Stereo" ++ [13]) SAP.TagData_init =
  SAP.set_stereo true SAP.TagData_init.
Proof.
  split.
  - apply (keyword_case_insensitive latin1_to_utf8_std SAP.LP64).
    + repeat constructor; discriminate.
    + reflexivity.
  - rewrite (keyword_case_insensitive latin1_to_utf8_std SAP.LP64
               (ascii_bytes "Stereo") (ascii_bytes "STEREO") [13]).
    + reflexivity.
    + repeat constructor; discriminate.
    + reflexivity.
Defined.

(** ** The 8-bit counters of the SAP tags *)

Lemma strtol_digits_value (ds : list Z) : forall acc n,
  Forall (fun d => is_digit d = true) ds ->
  SAP.strtol_digits 10 ds acc n =
  (fold_left (fun a c => a * 10 + (c - 48)) ds acc, (n + List.length ds)%nat).
Proof.
  induction ds as [|d ds IH]; intros acc n Hds; simpl.
  - f_equal. lia.
  - inversion Hds as [|? ? Hd Hds']; subst.
    rewrite (digit_val_digit d Hd). rewrite IH by assumption.
    f_equal. lia.
Qed.

(** [strtol] on a string of decimal digits whose value fits a [long]. *)
Lemma strtol_decimal (dm : SAP.DataModel) (d : Z) (ds : list Z) :
  Forall (fun x => is_digit x = true) (d :: ds) ->
  decimal (d :: ds) <= SAP.LONG_MAX dm ->
  SAP.strtol dm (d :: ds) 10 =
  (decimal (d :: ds), Datatypes.S (List.length ds)).
Proof.
  intros Hds Hmax.
  pose proof (strtol_digits_value (d :: ds) 0 0 Hds) as Hrun.
  inversion Hds as [|? ? Hd Hds']; subst.
  pose proof Hd as Hd'. unfold is_digit in Hd'.
  apply andb_true_iff in Hd' as [H1 H2]. apply Z.leb_le in H1, H2.
  unfold SAP.strtol. cbn [SAP.skip_space]. rewrite (digit_not_space d Hd).
  assert (E45 : (d =? 45) = false) by (apply Z.eqb_neq; lia).
  assert (E43 : (d =? 43) = false) by (apply Z.eqb_neq; lia).
  rewrite E45, E43.
  assert (Hpfx : (match d :: ds with
           | c0 :: x :: r =>
               if (10 =? 16) && (c0 =? 48) && ((x =? 120) || (x =? 88))
               then (true, r, 2%nat) else (false, d :: ds, 0%nat)
           | _ => (false, d :: ds, 0%nat)
           end) = (false, d :: ds, 0%nat)).
  { destruct ds; reflexivity. }
  rewrite Hpfx. rewrite Hrun. fold (decimal (d :: ds)).
  cbn [List.length Nat.add Nat.eqb].
  destruct (decimal (d :: ds) >? SAP.LONG_MAX dm) eqn:E; [|reflexivity].
  apply Z.gtb_lt in E. lia.
Qed.

Lemma decimal_nonneg (ds : list Z) :
  Forall (fun x => is_digit x = true) ds -> 0 <= decimal ds.
Proof.
  unfold decimal.
  assert (H : forall acc, 0 <= acc ->
            Forall (fun x => is_digit x = true) ds ->
            0 <= fold_left (fun a c => a * 10 + (c - 48)) ds acc).
  { induction ds as [|d ds IH]; intros acc Hacc Hds; simpl; [exact Hacc|].
    inversion Hds as [|? ? Hd Hds']; subst.
    unfold is_digit in Hd. apply andb_true_iff in Hd as [H1 H2].
    apply Z.leb_le in H1, H2. apply IH; [lia | assumption]. }
  apply H. lia.
Qed.

(** X6.  The counters [songs] and [def_song] are 8-bit members that the
    parser writes as 16-bit words.  A "DEFSONG" line with a value below
    256 stores the value and clears the [ntsc] flag, the member that
    follows [def_song]; a "SONGS" line with a value below 256 stores the
    value and resets [def_song], the member that follows [songs], to 0. *)
Theorem u8_counters_written_as_u16 (latin1_to_utf8 : list Z -> list Z)
    (dm : SAP.DataModel) (tags : SAP.TagData) (d : Z) (ds : list Z) :
  Forall (fun x => is_digit x = true) (d :: ds) ->
  decimal (d :: ds) < 256 ->
  SAP.parse_line latin1_to_utf8 dm (ascii_bytes "DEFSONG " ++ d :: ds) tags =
    SAP.set_ntsc false (SAP.set_def_song (decimal (d :: ds)) tags) /\
  SAP.parse_line latin1_to_utf8 dm (ascii_bytes "SONGS " ++ d :: ds) tags =
    SAP.set_def_song 0 (SAP.set_songs (decimal (d :: ds)) tags).
Proof.
  intros Hds Hlt.
  pose proof (decimal_nonneg (d :: ds) Hds) as Hge.
  assert (Hmax : decimal (d :: ds) <= SAP.LONG_MAX dm)
    by (destruct dm; simpl; lia).
  pose proof (strtol_decimal dm d ds Hds Hmax) as Hval.
  inversion Hds as [|? ? Hd Hds']; subst.
  assert (Hend : byte_at (d :: ds) (Datatypes.S (List.length ds)) = 0).
  { unfold byte_at. apply nth_overflow. simpl. lia. }
  assert (Hu16 : u16 (decimal (d :: ds)) = decimal (d :: ds)).
  { unfold u16. apply Z.mod_small. lia. }
  assert (Hdiv : decimal (d :: ds) / 256 = 0) by (apply Z.div_small; lia).
  assert (Hmod : decimal (d :: ds) mod 256 = decimal (d :: ds))
    by (apply Z.mod_small; lia).
  split.
  - assert (Hsplit :
      SAP.split_token (ascii_bytes "DEFSONG " ++ d :: ds) =
      (ascii_bytes "DEFSONG", Some (d :: ds))).
    { unfold SAP.split_token.
      change (SAP.strchr (ascii_bytes "DEFSONG " ++ d :: ds) 32)
        with (Some 7%nat).
      cbv beta iota zeta.
      change (drop 8 (ascii_bytes "DEFSONG " ++ d :: ds)) with (d :: ds).
      change (take 7 (ascii_bytes "DEFSONG " ++ d :: ds))
        with (ascii_bytes "DEFSONG").
      cbn [SAP.skip_space]. rewrite (digit_not_space d Hd). reflexivity. }
    unfold SAP.parse_line. rewrite Hsplit.
    change (SAP.scan_kwds latin1_to_utf8 dm SAP.kwds (ascii_bytes "DEFSONG")
              (Some (d :: ds)) tags)
      with (let '(val, endptr) := SAP.strtol dm (d :: ds) 10 in
            if bool_decide (0 < endptr)%nat &&
               ((byte_at (d :: ds) endptr =? 0) ||
                SAP.ISSPACE (byte_at (d :: ds) endptr))
            then SAP.store_u16 SAP.P_def_song (u16 val) tags else tags).
    rewrite Hval. cbv beta iota zeta. rewrite Hend, Hu16.
    rewrite bool_decide_eq_true_2 by lia.
    cbn [Z.eqb andb orb SAP.store_u16]. rewrite Hdiv, Hmod. reflexivity.
  - assert (Hsplit :
      SAP.split_token (ascii_bytes "SONGS " ++ d :: ds) =
      (ascii_bytes "SONGS", Some (d :: ds))).
    { unfold SAP.split_token.
      change (SAP.strchr (ascii_bytes "SONGS " ++ d :: ds) 32)
        with (Some 5%nat).
      cbv beta iota zeta.
      change (drop 6 (ascii_bytes "SONGS " ++ d :: ds)) with (d :: ds).
      change (take 5 (ascii_bytes "SONGS " ++ d :: ds))
        with (ascii_bytes "SONGS").
      cbn [SAP.skip_space]. rewrite (digit_not_space d Hd). reflexivity. }
    unfold SAP.parse_line. rewrite Hsplit.
    change (SAP.scan_kwds latin1_to_utf8 dm SAP.kwds (ascii_bytes "SONGS")
              (Some (d :: ds)) tags)
      with (let '(val, endptr) := SAP.strtol dm (d :: ds) 10 in
            if bool_decide (0 < endptr)%nat &&
               ((byte_at (d :: ds) endptr =? 0) ||
                SAP.ISSPACE (byte_at (d :: ds) endptr))
            then SAP.store_u16 SAP.P_songs (u16 val) tags else tags).
    rewrite Hval. cbv beta iota zeta. rewrite Hend, Hu16.
    rewrite bool_decide_eq_true_2 by lia.
    cbn [Z.eqb andb orb SAP.store_u16]. rewrite Hdiv, Hmod. reflexivity.
Qed.

Lemma u8_counters_written_as_u16_witness :
  SAP.parse_line latin1_to_utf8_std SAP.LP64
    (ascii_bytes "DEFSONG " ++ 50 :: [])
    (SAP.set_ntsc true SAP.TagData_init) =
    SAP.set_ntsc false
      (SAP.set_def_song (decimal (50 :: []))
         (SAP.set_ntsc true SAP.TagData_init)) /\
  SAP.parse_line latin1_to_utf8_std SAP.LP64
    (ascii_bytes "SONGS " ++ 50 :: [])
    (SAP.set_ntsc true SAP.TagData_init) =
    SAP.set_def_song 0
      (SAP.set_songs (decimal (50 :: []))
         (SAP.set_ntsc true SAP.TagData_init)).
Proof.
  apply (u8_counters_written_as_u16 latin1_to_utf8_std SAP.LP64).
  - repeat constructor.
  - vm_compute. reflexivity.
Defined.

(** ** Byte order *)

Lemma le_encode_length (n : nat) : forall x,
  List.length (le_encode n x) = n.
Proof. induction n as [|n IH]; intros x; simpl; [|rewrite IH]; reflexivity. Qed.

Lemma le_encode_bytes (n : nat) : forall x,
  Forall (fun b => 0 <= b < 256) (le_encode n x).
Proof.
  induction n as [|n IH]; intros x; simpl; constructor; [|apply IH].
  apply Z.mod_pos_bound. lia.
Qed.

Lemma le_decode_encode (n : nat) : forall x,
  le_decode (le_encode n x) = x mod 256 ^ Z.of_nat n.
Proof.
  induction n as [|n IH]; intros x.
  - simpl. rewrite Z.mod_1_r. reflexivity.
  - cbn [le_encode le_decode]. rewrite IH.
    rewrite Nat2Z.inj_succ, Z.pow_succ_r by lia.
    rewrite Z.rem_mul_r by lia. reflexivity.
Qed.

Lemma le_encode_decode (bs : list Z) :
  Forall (fun b => 0 <= b < 256) bs ->
  le_encode (List.length bs) (le_decode bs) = bs.
Proof.
  induction 1 as [|b bs Hb _ IH]; [reflexivity|].
  cbn [List.length le_encode le_decode].
  assert (Hm : (b + 256 * le_decode bs) mod 256 = b)
    by (generalize (le_decode bs); intros r; Z.div_mod_to_equations; lia).
  assert (Hd : (b + 256 * le_decode bs) / 256 = le_decode bs)
    by (generalize (le_decode bs); intros r; Z.div_mod_to_equations; lia).
  rewrite Hm, Hd.
  rewrite IH. reflexivity.
Qed.

(** Swapping the bytes of an [n]-byte value twice gives the value back. *)
Lemma bswap_involutive (n : nat) (x : Z) :
  0 <= x < 256 ^ Z.of_nat n -> bswap n (bswap n x) = x.
Proof.
  intros Hx. unfold bswap.
  pose proof (le_encode_decode (rev (le_encode n x))
                (Forall_rev (le_encode_bytes n x))) as H.
  rewrite length_rev, le_encode_length in H. rewrite H.
  rewrite rev_involutive, le_decode_encode. apply Z.mod_small. exact Hx.
Qed.

(** ** The resource table and the caches of the XDBF object *)

Lemma find_none_lookup {A} (p : A -> bool) (l : list A) :
  List.find p l = None -> forall i x, l !! i = Some x -> p x = false.
Proof.
  induction l as [|a l IH]; intros H i x Hx; [discriminate Hx|].
  simpl in H. destruct (p a) eqn:Hp; [discriminate|].
  destruct i as [|i]; simpl in Hx.
  - injection Hx as <-. exact Hp.
  - exact (IH H i x Hx).
Qed.

(** Case analysis along the tests of a function body. *)
Ltac break_tests :=
  repeat match goal with
         | |- context [match ?x with _ => _ end] => destruct x eqn:?
         end.

(** The same, innermost test first. *)
Ltac break_inner :=
  repeat match goal with
         | |- context [match ?x with _ => _ end] =>
             lazymatch x with
             | context [match _ with _ => _ end] => fail
             | _ => destruct x eqn:?
             end
         end.

Section XDBFCaches.

Variable S : XDBF.Structs.
Variable rp_image : Type.
Variable RpPng_load : list Z -> option rp_image.
Variable getXbox360Language : Z.
Variable dos2unix : list Z -> list Z.
Variable IMG_INT_ICON : Z.
Variable ASSERT_loadInternalImage :
  Z -> bool -> option (Z * option rp_image).

Local Abbreviation State := (XDBF.State rp_image).
Local Abbreviation findResource := (XDBF.findResource rp_image).
Local Abbreviation loadStringTable := (XDBF.loadStringTable S rp_image).
Local Abbreviation loadString := (XDBF.loadString S rp_image dos2unix).
Local Abbreviation getLangID :=
  (XDBF.getLangID S rp_image getXbox360Language).
Local Abbreviation loadImage := (XDBF.loadImage S rp_image RpPng_load).
Local Abbreviation loadIcon := (XDBF.loadIcon S rp_image RpPng_load).
Local Abbreviation getGameTitle :=
  (XDBF.getGameTitle S rp_image getXbox360Language dos2unix).
Local Abbreviation find_string := (XDBF.find_string S dos2unix).

(** An entry that [findResource] returns is one of the first
    [entry_table_length] entries of the table and carries the key. *)
Lemma findResource_some (st : State) (ns id : Z) (e : XDBF.XDBF_Entry) :
  findResource st ns id = Some e ->
  exists tbl i,
    XDBF.entryTable rp_image st = Some tbl /\ tbl !! i = Some e /\
    (i < Z.to_nat (XDBF.entry_table_length (XDBF.xdbfHeader rp_image st)))%nat
    /\ XDBF.namespace_id e = cpu_to_be16 ns
    /\ XDBF.resource_id e = cpu_to_be64 id.
Proof.
  unfold XDBF.findResource.
  destruct (XDBF.entryTable rp_image st) as [tbl|]; [|discriminate].
  intros H. apply find_some_lookup in H as (i & Hi & Hp).
  apply lookup_take_Some in Hi as [Hi Hlt].
  apply andb_true_iff in Hp as [Hns Hid].
  apply Z.eqb_eq in Hns, Hid.
  exists tbl, i. auto.
Qed.

(** X7.  [findResource] looks a resource up by namespace and ID among the
    first [entry_table_length] entries of the table.  The entry it returns
    is one of these entries, and its key, read as big-endian, is the
    namespace and the ID asked for; it returns nothing exactly when the
    table is not loaded or none of these entries carries the key. *)
Theorem findResource_spec (st : State) (ns id : Z) :
  0 <= ns < 2 ^ 16 -> 0 <= id < 2 ^ 64 ->
  match findResource st ns id with
  | Some e =>
      (exists tbl i,
         XDBF.entryTable rp_image st = Some tbl /\ tbl !! i = Some e /\
         Z.of_nat i < XDBF.entry_table_length (XDBF.xdbfHeader rp_image st))
      /\ be16_to_cpu (XDBF.namespace_id e) = ns
      /\ be64_to_cpu (XDBF.resource_id e) = id
  | None =>
      forall tbl i e,
        XDBF.entryTable rp_image st = Some tbl -> tbl !! i = Some e ->
        Z.of_nat i < XDBF.entry_table_length (XDBF.xdbfHeader rp_image st) ->
        ~ (XDBF.namespace_id e = cpu_to_be16 ns /\
           XDBF.resource_id e = cpu_to_be64 id)
  end.
Proof.
  intros Hns Hid.
  destruct (findResource st ns id) as [e|] eqn:E.
  - apply findResource_some in E as (tbl & i & Htbl & Hi & Hlt & Hn & Hr).
    split; [exists tbl, i; repeat split; [assumption .. | lia]|].
    rewrite Hn, Hr. unfold be16_to_cpu, cpu_to_be16, be64_to_cpu, cpu_to_be64.
    split; apply bswap_involutive; simpl; lia.
  - intros tbl i e Htbl Hi Hlt [Hn Hr].
    unfold XDBF.findResource in E. rewrite Htbl in E.
    assert (Hin :
      take (Z.to_nat (XDBF.entry_table_length (XDBF.xdbfHeader rp_image st)))
        tbl !! i = Some e).
    { apply lookup_take_Some. split; [exact Hi | lia]. }
    pose proof (find_none_lookup _ _ E i e Hin) as Hp. cbv beta in Hp.
    rewrite Hn, Hr, !Z.eqb_refl in Hp. discriminate.
Qed.

(** The table that [loadStringTable] returns is cached under the
    language, which is in range. *)
Lemma loadStringTable_some (lang : Z) (st : State) (vec : list Z) :
  fst (loadStringTable lang st) = Some vec ->
  XDBF.XDBF_LANGUAGE_UNKNOWN S < lang < XDBF.XDBF_LANGUAGE_MAX S /\
  XDBF.strTbl rp_image (snd (loadStringTable lang st)) !! lang = Some vec.
Proof.
  unfold XDBF.loadStringTable, XDBF.file_read.
  destruct ((lang <=? XDBF.XDBF_LANGUAGE_UNKNOWN S) ||
            (lang >=? XDBF.XDBF_LANGUAGE_MAX S)) eqn:R; [discriminate|].
  apply orb_false_iff in R as [R1 R2]. apply Z.leb_gt in R1.
  rewrite Z.geb_leb in R2. apply Z.leb_gt in R2.
  intros H. split; [lia|]. revert H.
  break_tests; cbn [fst snd XDBF.strTbl XDBF.set_strTbl]; intros H;
    try discriminate H.
  - congruence.
  - injection H as <-. apply lookup_insert_eq.
Qed.

(** [loadStringTable] touches the string tables and the read log only,
    and adds no table for a language that is out of range. *)
Lemma loadStringTable_frame (lang : Z) (st : State) :
  let st' := snd (loadStringTable lang st) in
  XDBF.m_langID rp_image st' = XDBF.m_langID rp_image st /\
  XDBF.file rp_image st' = XDBF.file rp_image st /\
  XDBF.isValid rp_image st' = XDBF.isValid rp_image st /\
  XDBF.entryTable rp_image st' = XDBF.entryTable rp_image st /\
  XDBF.xdbfHeader rp_image st' = XDBF.xdbfHeader rp_image st /\
  XDBF.data_offset rp_image st' = XDBF.data_offset rp_image st /\
  XDBF.map_images rp_image st' = XDBF.map_images rp_image st /\
  XDBF.img_icon rp_image st' = XDBF.img_icon rp_image st /\
  (forall k, k <= XDBF.XDBF_LANGUAGE_UNKNOWN S ->
     XDBF.strTbl rp_image st' !! k = XDBF.strTbl rp_image st !! k).
Proof.
  unfold XDBF.loadStringTable, XDBF.file_read.
  destruct ((lang <=? XDBF.XDBF_LANGUAGE_UNKNOWN S) ||
            (lang >=? XDBF.XDBF_LANGUAGE_MAX S)) eqn:R;
    [cbn [snd]; repeat split; reflexivity|].
  apply orb_false_iff in R as [R1 R2]. apply Z.leb_gt in R1.
  break_tests; cbn [snd]; repeat split; try reflexivity; try assumption.
  intros k Hk. cbn [XDBF.strTbl XDBF.set_strTbl XDBF.log_read].
  apply lookup_insert_ne. lia.
Qed.

(** [findResource] reads the header and the entry table only. *)
Lemma findResource_frame (st st' : State) (ns id : Z) :
  XDBF.entryTable rp_image st' = XDBF.entryTable rp_image st ->
  XDBF.xdbfHeader rp_image st' = XDBF.xdbfHeader rp_image st ->
  findResource st' ns id = findResource st ns id.
Proof. unfold XDBF.findResource. intros -> ->. reflexivity. Qed.

(** The language that [getLangID] settles on, and what it leaves in the
    object.  The call through [file] is reached on a closed object only,
    and only when no language is remembered and the table has an XSTC
    entry. *)
Lemma getLangID_inv (st : State) :
  lang_loaded S st (XDBF.m_langID rp_image st) ->
  let r := getLangID st in
  match fst r with
  | Done l =>
      lang_loaded S (snd r) l /\
      lang_loaded S (snd r) (XDBF.m_langID rp_image (snd r)) /\
      (l = XDBF.XDBF_LANGUAGE_UNKNOWN S \/
       XDBF.m_langID rp_image (snd r) = l) /\
      (forall k, k <= XDBF.XDBF_LANGUAGE_UNKNOWN S ->
         XDBF.strTbl rp_image (snd r) !! k = XDBF.strTbl rp_image st !! k)
  | OutOfBounds _ _ _ => False
  | NullDeref =>
      XDBF.file rp_image st = None /\
      XDBF.m_langID rp_image st = XDBF.XDBF_LANGUAGE_UNKNOWN S /\
      is_Some (findResource st (XDBF.XDBF_SPA_NAMESPACE_METADATA S)
                 (XDBF.XDBF_XSTC_MAGIC S))
  end.
Proof.
  clear RpPng_load dos2unix IMG_INT_ICON ASSERT_loadInternalImage.
  intros Hinv r. subst r.
  destruct (getLangID st) as [o st'] eqn:E. cbn [fst snd].
  unfold XDBF.getLangID, XDBF.file_read in E.
  destruct (negb (XDBF.m_langID rp_image st =? XDBF.XDBF_LANGUAGE_UNKNOWN S))
    eqn:C.
  { injection E as <- <-. repeat split; auto. }
  apply negb_false_iff in C. apply Z.eqb_eq in C.
  repeat match type of E with
         | context [XDBF.loadStringTable S rp_image ?l ?s] =>
             let E' := fresh "E" in
             let Hs := fresh "Hs" in
             let Hf := fresh "Hf" in
             pose proof (loadStringTable_some l s) as Hs;
             pose proof (loadStringTable_frame l s) as Hf;
             destruct (XDBF.loadStringTable S rp_image l s) as [[?|] ?] eqn:E';
             cbn [fst snd] in Hs, Hf;
             destruct Hf as (? & ? & _ & ? & ? & _ & _ & _ & ?)
         | context [match ?x with _ => _ end] =>
             lazymatch x with
             | context [match _ with _ => _ end] => fail
             | _ => destruct x eqn:?
             end
         end;
    injection E as <- <-;
    cbn [fst snd XDBF.m_langID XDBF.strTbl XDBF.set_m_langID XDBF.log_read
         XDBF.file XDBF.entryTable XDBF.xdbfHeader]
      in *;
    unfold lang_loaded;
    cbn [fst snd XDBF.m_langID XDBF.strTbl XDBF.set_m_langID XDBF.log_read];
    repeat match goal with
           | H : forall vec, Some ?v = Some vec -> _ |- _ =>
               specialize (H v eq_refl)
           end;
    try (split; [congruence|]; split; [exact C|];
         first [ eexists; reflexivity
               | eexists; eassumption
               | erewrite <- findResource_frame by eassumption;
                 eexists; eassumption ]);
    (split; [|split; [|split]]);
    try (left; congruence);
    try (right; reflexivity);
    try (right; split; [tauto | eexists; intuition eassumption]);
    try (intros k Hk;
         repeat match goal with
                | H : forall k, _ -> XDBF.strTbl rp_image _ !! k = _ |- _ =>
                    rewrite (H k Hk); clear H
                end; reflexivity).
Qed.

(** On an object whose file is open [getLangID] returns. *)
Lemma getLangID_returns (st : State) :
  XDBF.file rp_image st <> None -> exists l, fst (getLangID st) = Done l.
Proof.
  clear RpPng_load dos2unix IMG_INT_ICON ASSERT_loadInternalImage.
  intros Hopen.
  destruct (getLangID st) as [o st'] eqn:E. cbn [fst].
  unfold XDBF.getLangID, XDBF.file_read in E.
  repeat match type of E with
         | context [XDBF.loadStringTable S rp_image ?l ?s] =>
             let E' := fresh "E" in
             let Hf := fresh "Hf" in
             pose proof (loadStringTable_frame l s) as Hf;
             destruct (XDBF.loadStringTable S rp_image l s) as [[?|] ?] eqn:E';
             cbn [fst snd] in Hf;
             destruct Hf as (_ & ? & _)
         | context [match ?x with _ => _ end] =>
             lazymatch x with
             | context [match _ with _ => _ end] => fail
             | _ => destruct x eqn:?
             end
         end;
    injection E as <- <-;
    try (eexists; reflexivity);
    exfalso; apply Hopen;
    cbn [XDBF.file XDBF.set_m_langID XDBF.log_read] in *; congruence.
Qed.

(** X8.  When [getLangID] returns, it hands out the unknown language or a
    language in range whose string table it has loaded, and the language
    that the object remembers is such a language as well: it is the one
    handed out unless that is the unknown language.  It returns on every
    object whose file is open.  On a closed object it reads the XSTC
    resource through the null file pointer when no language is
    remembered, the system language has no cached table and the table
    has an XSTC entry of the size of the structure. *)
Theorem getLangID_loaded (st : State) :
  lang_loaded S st (XDBF.m_langID rp_image st) ->
  match fst (getLangID st) with
  | Done l =>
      lang_loaded S (snd (getLangID st)) l /\
      lang_loaded S (snd (getLangID st))
        (XDBF.m_langID rp_image (snd (getLangID st))) /\
      (l = XDBF.XDBF_LANGUAGE_UNKNOWN S \/
       XDBF.m_langID rp_image (snd (getLangID st)) = l)
  | OutOfBounds _ _ _ => False
  | NullDeref =>
      XDBF.file rp_image st = None /\
      XDBF.m_langID rp_image st = XDBF.XDBF_LANGUAGE_UNKNOWN S /\
      is_Some (findResource st (XDBF.XDBF_SPA_NAMESPACE_METADATA S)
                 (XDBF.XDBF_XSTC_MAGIC S))
  end /\
  (XDBF.file rp_image st <> None ->
   exists l, fst (getLangID st) = Done l) /\
  (forall e,
     XDBF.file rp_image st = None ->
     XDBF.m_langID rp_image st = XDBF.XDBF_LANGUAGE_UNKNOWN S ->
     XDBF.strTbl rp_image st !! getXbox360Language = None ->
     findResource st (XDBF.XDBF_SPA_NAMESPACE_METADATA S)
       (XDBF.XDBF_XSTC_MAGIC S) = Some e ->
     be32_to_cpu (XDBF.length e) = XDBF.sizeof_XDBF_XSTC S ->
     fst (getLangID st) = NullDeref).
Proof.
  intros Hinv. pose proof (getLangID_inv st Hinv) as H. cbv zeta in H.
  split; [|split].
  - destruct (fst (getLangID st)); [|exact H|exact H].
    destruct H as (H1 & H2 & H3 & _). auto.
  - intros Hopen. destruct (fst (getLangID st)) as [l| |];
      [exists l; reflexivity | contradiction | ].
    destruct H as (Hnull & _). contradiction.
  - clear H Hinv. intros e Hnull Hlang Hnc Hfind Hlen.
    unfold XDBF.getLangID. rewrite Hlang, Z.eqb_refl. cbn [negb].
    assert (Hsys : loadStringTable getXbox360Language st = (None, st)).
    { unfold XDBF.loadStringTable. rewrite Hnc, Hnull.
      destruct (_ || _); reflexivity. }
    rewrite Hsys.
    destruct ((getXbox360Language >? XDBF.XDBF_LANGUAGE_UNKNOWN S) &&
              (getXbox360Language <? XDBF.XDBF_LANGUAGE_MAX S));
      rewrite Hfind, Hlen, Z.eqb_refl; cbn [negb]; rewrite Hnull;
      reflexivity.
Qed.

(** An image that [loadImage] returns is in the cache under its ID. *)
Lemma loadImage_some (id : Z) (st : State) (img : rp_image) :
  fst (loadImage id st) = Some img ->
  XDBF.map_images rp_image (snd (loadImage id st)) !! id = Some img.
Proof.
  unfold XDBF.loadImage, XDBF.file_read.
  break_tests; cbn [fst snd XDBF.map_images XDBF.set_map_images];
    intros H; try discriminate H.
  - congruence.
  - injection H as <-. apply lookup_insert_eq.
Qed.

(** [loadImage] touches the image cache and the read log only, and the
    image cache only when it returns an image. *)
Lemma loadImage_frame (id : Z) (st : State) :
  let st' := snd (loadImage id st) in
  XDBF.file rp_image st' = XDBF.file rp_image st /\
  XDBF.isValid rp_image st' = XDBF.isValid rp_image st /\
  XDBF.entryTable rp_image st' = XDBF.entryTable rp_image st /\
  XDBF.img_icon rp_image st' = XDBF.img_icon rp_image st /\
  XDBF.strTbl rp_image st' = XDBF.strTbl rp_image st /\
  XDBF.m_langID rp_image st' = XDBF.m_langID rp_image st /\
  (fst (loadImage id st) = None ->
   XDBF.map_images rp_image st' = XDBF.map_images rp_image st).
Proof.
  unfold XDBF.loadImage, XDBF.file_read.
  break_tests; cbn [fst snd]; repeat split; try reflexivity; try assumption;
    try discriminate.
Qed.

(** X9.  [loadImage] memoizes: an image that it returns is in the cache
    under its ID, and asking for it again returns the same image and
    leaves the object, its read log included, as it is.  A call that
    returns no image leaves the cache as it was. *)
Theorem loadImage_memoizes (id : Z) (st : State) :
  (forall img, fst (loadImage id st) = Some img ->
     XDBF.map_images rp_image (snd (loadImage id st)) !! id = Some img /\
     loadImage id (snd (loadImage id st)) =
       (Some img, snd (loadImage id st))) /\
  (fst (loadImage id st) = None ->
   XDBF.map_images rp_image (snd (loadImage id st)) =
   XDBF.map_images rp_image st).
Proof.
  split.
  - intros img H. pose proof (loadImage_some id st img H) as Hc.
    split; [exact Hc|].
    unfold XDBF.loadImage at 1. rewrite Hc. reflexivity.
  - apply loadImage_frame.
Qed.

(** X10.  The icon of the object is the image of the title ID.  When the
    icon pointer of the object points into the image cache, it still does
    after [loadIcon]; an icon that [loadIcon] returns is the image cached
    under [XDBF_ID_TITLE], and a second call returns it again and leaves
    the object as it is. *)
Theorem loadIcon_cached (st : State) :
  icon_cached S st ->
  icon_cached S (snd (loadIcon st)) /\
  (forall img, fst (loadIcon st) = Some img ->
     XDBF.map_images rp_image (snd (loadIcon st)) !! XDBF.XDBF_ID_TITLE S =
       Some img /\
     loadIcon (snd (loadIcon st)) = (Some img, snd (loadIcon st))).
Proof.
  intros Hinv. remember (loadIcon st) as r eqn:Hr.
  unfold XDBF.loadIcon in Hr.
  destruct (XDBF.img_icon rp_image st) as [icon|] eqn:Hicon.
  { subst r. cbn [fst snd]. split; [exact Hinv|]. intros img H.
    injection H as <-. split; [apply Hinv; exact Hicon|].
    unfold XDBF.loadIcon. rewrite Hicon. reflexivity. }
  destruct (XDBF.file rp_image st) eqn:Hfile;
    [|subst r; cbn [fst snd]; split; [exact Hinv | discriminate]].
  destruct (negb (XDBF.isValid rp_image st)) eqn:Hvalid;
    [subst r; cbn [fst snd]; split; [exact Hinv | discriminate]|].
  destruct (XDBF.entryTable rp_image st) eqn:Htbl;
    [|subst r; cbn [fst snd]; split; [exact Hinv | discriminate]].
  pose proof (loadImage_some (XDBF.XDBF_ID_TITLE S) st) as Hsome.
  destruct (loadImage (XDBF.XDBF_ID_TITLE S) st) as [img' st1] eqn:E.
  subst r. cbn [fst snd] in *.
  assert (Hcached : forall img, img' = Some img ->
            XDBF.map_images rp_image st1 !! XDBF.XDBF_ID_TITLE S = Some img).
  { intros img ->. apply Hsome. reflexivity. }
  split.
  - intros img. cbn [XDBF.img_icon XDBF.set_img_icon XDBF.map_images].
    apply Hcached.
  - intros img ->. cbn [XDBF.map_images XDBF.set_img_icon].
    split; [apply Hcached; reflexivity|].
    unfold XDBF.loadIcon. cbn [XDBF.img_icon XDBF.set_img_icon].
    reflexivity.
Qed.


Lemma loadIcon_sets (st : State) (img : rp_image) :
  fst (loadIcon st) = Some img ->
  XDBF.img_icon rp_image (snd (loadIcon st)) = Some img.
Proof.
  unfold XDBF.loadIcon. break_tests; cbn [fst snd]; intros H;
    try discriminate H; try congruence.
  cbn [XDBF.img_icon XDBF.set_img_icon]. exact H.
Qed.

(** X12.  A call of [loadInternalImage] with a pointer that is not null
    and arguments that the macro [ASSERT_loadInternalImage] lets through
    returns, and it returns 0 exactly when it stores an image in
    [*pImage].  For an image type other than the internal icon it returns
    [-ENOENT] and leaves the object alone; an image that it hands out is
    remembered, so that a second call returns it again with 0 and leaves
    the object as it is.  A null pointer that the macro lets through is
    stored through. *)
Theorem loadInternalImage_result (imageType : Z) (st : State) :
  let load :=
    XDBF.loadInternalImage S rp_image RpPng_load IMG_INT_ICON
      ASSERT_loadInternalImage imageType in
  (ASSERT_loadInternalImage imageType true = None ->
   exists code img,
     fst (load true st) = Done (code, img) /\
     (code = 0 <-> img <> None) /\
     (imageType <> IMG_INT_ICON ->
      code = - ENOENT /\ img = None /\ snd (load true st) = st) /\
     (forall i, img = Some i ->
        load true (snd (load true st)) =
          (Done (0, Some i), snd (load true st)))) /\
  (ASSERT_loadInternalImage imageType false = None ->
   fst (load false st) = NullDeref).
Proof.
  intros load. subst load. split.
  2:{ intros Hm. unfold XDBF.loadInternalImage. rewrite Hm. reflexivity. }
  intros Hm. unfold XDBF.loadInternalImage. rewrite Hm. cbn [negb].
  destruct (negb (imageType =? IMG_INT_ICON)) eqn:Ht.
  { eexists _, _. split; [reflexivity|]. cbn [snd].
    split; [split; [discriminate | intros H; contradiction]|].
    split; [auto|]. discriminate. }
  assert (Hicon : imageType = IMG_INT_ICON).
  { apply negb_false_iff in Ht. apply Z.eqb_eq in Ht. exact Ht. }
  destruct (XDBF.img_icon rp_image st) as [icon|] eqn:Hicon0.
  { eexists _, _. split; [reflexivity|]. cbn [snd].
    split; [split; [discriminate | reflexivity]|].
    split; [intros Hne; contradiction|].
    intros i H. injection H as <-. rewrite Hicon0. reflexivity. }
  destruct (XDBF.file rp_image st) eqn:Hfile.
  2:{ eexists _, _. split; [reflexivity|]. cbn [snd].
      split; [split; [discriminate | intros H; contradiction]|].
      split; [intros Hne; contradiction | discriminate]. }
  destruct (negb (XDBF.isValid rp_image st)) eqn:Hvalid.
  { eexists _, _. split; [reflexivity|]. cbn [snd].
    split; [split; [discriminate | intros H; contradiction]|].
    split; [intros Hne; contradiction | discriminate]. }
  pose proof (loadIcon_sets st) as Hsets.
  destruct (loadIcon st) as [img' st1]. cbn [fst snd] in *.
  eexists _, _. split; [reflexivity|].
  split; [|split; [intros Hne; contradiction|]].
  - destruct img'; split; intros H; try reflexivity; try discriminate;
      contradiction.
  - intros i ->. rewrite (Hsets i eq_refl). reflexivity.
Qed.

(** The search loop of [loadString] moves forward: two bounds on the
    number of records that are both at least the number of bytes left in
    the table give the same result. *)
Lemma find_string_fuel (vec : list Z) (id : Z) :
  0 < XDBF.sizeof_XDBF_XSTR_Entry_Header S ->
  forall n m p,
    Z.of_nat (List.length vec) - p <= Z.of_nat n ->
    Z.of_nat (List.length vec) - p <= Z.of_nat m ->
    find_string n vec p id = find_string m vec p id.
Proof.
  intros Hsz. induction n as [|n IH]; intros m p Hn Hm.
  - destruct m as [|m]; [reflexivity|]. cbn [XDBF.find_string].
    replace (p <? Z.of_nat (List.length vec)) with false
      by (symmetry; apply Z.ltb_ge; lia).
    reflexivity.
  - destruct m as [|m]; cbn [XDBF.find_string].
    + replace (p <? Z.of_nat (List.length vec)) with false
        by (symmetry; apply Z.ltb_ge; lia).
      reflexivity.
    + destruct (negb (p <? Z.of_nat (List.length vec))); [reflexivity|].
      cbv zeta.
      destruct (XDBF.string_id _ =? id); [reflexivity|].
      pose proof (bswap_nonneg 2
        (XDBF.str_length
           (XDBF.as_XDBF_XSTR_Entry_Header S (drop (Z.to_nat p) vec)))) as Hlen.
      apply IH; unfold be16_to_cpu; lia.
Qed.

(** X13.  The search loop of [loadString] ends.  Every record moves the
    cursor forward by at least the size of a record header, so the loop
    visits at most as many records as the table has bytes: a bound on the
    number of records visited that is at least the length of the table is
    never reached, and all such bounds give the same string. *)
Theorem loadString_search_ends (vec : list Z) (id : Z) (n : nat) :
  0 < XDBF.sizeof_XDBF_XSTR_Entry_Header S ->
  0 <= XDBF.sizeof_XDBF_XSTR_Header S ->
  (List.length vec <= n)%nat ->
  find_string n vec (XDBF.sizeof_XDBF_XSTR_Header S) id =
  find_string (List.length vec) vec (XDBF.sizeof_XDBF_XSTR_Header S) id.
Proof.
  intros Hent Hhdr Hn. apply find_string_fuel; [exact Hent | lia | lia].
Qed.

(** Every row of the achievements list has three cells. *)
Lemma xach_row_cells (buf : list Z) (p lang : Z) (st : State) :
  List.length
    (fst (fst (XDBF.xach_row S rp_image RpPng_load dos2unix buf p lang st))) =
  3%nat.
Proof. unfold XDBF.xach_row. break_tests; reflexivity. Qed.

(** A loop over [n] records that completes gives [n] rows and [n]
    icons. *)
Lemma xach_loop_shape (n : nat) : forall buf p lang (st : State) ld,
  fst (XDBF.xach_loop S rp_image RpPng_load dos2unix n buf p lang st) =
    Done ld ->
  List.length (XDBF.rows rp_image ld) = n /\
  List.length (XDBF.icons rp_image ld) = n /\
  Forall (fun r => List.length r = 3%nat) (XDBF.rows rp_image ld).
Proof.
  induction n as [|n IH]; intros buf p lang st ld H; cbn [XDBF.xach_loop] in H.
  - injection H as <-. simpl. auto.
  - destruct (p + XDBF.sizeof_XDBF_XACH_Entry S >?
              Z.of_nat (List.length buf)); [discriminate H|].
    pose proof (xach_row_cells buf p lang st) as Hrow.
    destruct (XDBF.xach_row S rp_image RpPng_load dos2unix buf p lang st)
      as [[row icon] st1].
    specialize (IH buf (p + XDBF.sizeof_XDBF_XACH_Entry S) lang st1).
    destruct (XDBF.xach_loop S rp_image RpPng_load dos2unix n buf
                (p + XDBF.sizeof_XDBF_XACH_Entry S) lang st1)
      as [[ld'| |] st2]; cbn [fst] in *; [|discriminate H|discriminate H].
    injection H as <-. destruct (IH ld' eq_refl) as (Hr & Hi & Hc).
    cbn [XDBF.rows XDBF.icons List.length fst] in *.
    repeat split; [lia | lia | constructor; assumption].
Qed.

Lemma xach_count_le (len count : Z) :
  (Z.to_nat (XDBF.xach_count S len count) <= 512)%nat.
Proof.
  unfold XDBF.xach_count, XDBF.XACH_MAX_COUNT.
  destruct (count >? 512) eqn:E1; [simpl; lia|].
  rewrite Z.gtb_ltb in E1. apply Z.ltb_ge in E1.
  destruct (count >? _) eqn:E2; [|lia].
  rewrite Z.gtb_ltb in E2. apply Z.ltb_lt in E2. lia.
Qed.

(** X14.  When [addFields_achievements] completes, its return code is
    between 0 and 6 and the Achievements field is added exactly when the
    code is 0; the field then has one icon per row, at most 512 rows, and
    three cells in every row, one for each of its three columns. *)
Theorem achievements_field_shape (st : State) (code : Z)
    (fld : option (XDBF.ListData rp_image)) :
  fst (XDBF.addFields_achievements S rp_image RpPng_load getXbox360Language
         dos2unix st) = Done (code, fld) ->
  0 <= code <= 6 /\
  (code = 0 <-> fld <> None) /\
  (forall ld, fld = Some ld ->
     List.length (XDBF.rows rp_image ld) =
       List.length (XDBF.icons rp_image ld) /\
     (List.length (XDBF.rows rp_image ld) <= 512)%nat /\
     Forall (fun r => List.length r = 3%nat) (XDBF.rows rp_image ld)).
Proof.
  unfold XDBF.addFields_achievements, XDBF.file_read.
  repeat match goal with
         | |- context [XDBF.xach_loop S rp_image RpPng_load dos2unix
                         ?n ?b ?p ?l ?s] =>
             pose proof (xach_loop_shape n b p l s) as Hshape;
             destruct (XDBF.xach_loop S rp_image RpPng_load dos2unix
                         n b p l s) as [[?| |] ?]
         | |- context [match ?x with _ => _ end] => destruct x eqn:?
         end;
    cbn [fst]; intros H; try discriminate H;
    injection H as <- <-;
    (split; [lia|]);
    (split;
     [ split; intros Hx;
       first [reflexivity | discriminate | exfalso; apply Hx; reflexivity]
     | intros ld' Hld; try discriminate Hld ]).
  injection Hld as <-.
  destruct (Hshape _ eq_refl) as (Hr & Hi & Hc).
  split; [lia|]. split; [|exact Hc].
  rewrite Hr. apply xach_count_le.
Qed.

Lemma xdbf_chunks_length (n size : nat) (buf : list Z) :
  List.length (XDBF.chunks n size buf) = n.
Proof. revert buf. induction n; intros; simpl; auto. Qed.

(** X15.  The object that [init] builds either has its entry table, and
    then the file is open, the object is valid, the header carries the
    XDBF magic as stored in the file, and the table has exactly
    [entry_table_length] entries; or it has no entry table, the file is
    closed and the magic is cleared.  In both cases nothing is cached: no
    language, no string table, no image and no icon. *)
Theorem init_invariant (f : list Z) :
  let st := XDBF.init S rp_image f in
  match XDBF.entryTable rp_image st with
  | Some tbl =>
      XDBF.file rp_image st = Some f /\
      XDBF.isValid rp_image st = true /\
      XDBF.hdr_magic (XDBF.xdbfHeader rp_image st) =
        cpu_to_be32 (XDBF.XDBF_MAGIC S) /\
      List.length tbl =
        Z.to_nat (XDBF.entry_table_length (XDBF.xdbfHeader rp_image st))
  | None =>
      XDBF.file rp_image st = None /\
      XDBF.hdr_magic (XDBF.xdbfHeader rp_image st) = 0
  end /\
  XDBF.m_langID rp_image st = XDBF.XDBF_LANGUAGE_UNKNOWN S /\
  XDBF.strTbl rp_image st = empty /\
  XDBF.map_images rp_image st = empty /\
  XDBF.img_icon rp_image st = None /\
  lang_loaded S st (XDBF.m_langID rp_image st) /\
  icon_cached S st.
Proof.
  intros st. subst st. unfold XDBF.init.
  destruct (negb (Z.of_nat (List.length
              (seekAndRead f 0 (XDBF.sizeof_XDBF_Header S))) =?
            XDBF.sizeof_XDBF_Header S)).
  { cbn. repeat split; try reflexivity; [left; reflexivity | discriminate]. }
  destruct (negb (XDBF.isRomSupported_static S _ >=? 0)) eqn:D.
  { cbn. repeat split; try reflexivity; [left; reflexivity | discriminate]. }
  cbv zeta.
  destruct (negb (Z.of_nat (List.length _) =? _)).
  { cbn. repeat split; try reflexivity; [left; reflexivity | discriminate]. }
  cbn [XDBF.entryTable XDBF.file XDBF.isValid XDBF.xdbfHeader XDBF.hdr_magic
       XDBF.entry_table_length XDBF.m_langID XDBF.strTbl XDBF.map_images
       XDBF.img_icon XDBF.State_new].
  repeat split; try reflexivity;
    [ | rewrite length_map, xdbf_chunks_length; reflexivity
      | left; reflexivity | discriminate ].
  revert D. unfold XDBF.isRomSupported_static.
  cbn [RomData.header_pData RomData.header_addr RomData.header_size].
  destruct (negb (0 =? 0) || _); [discriminate|].
  destruct (XDBF.hdr_magic _ =? cpu_to_be32 (XDBF.XDBF_MAGIC S)) eqn:M;
    [|discriminate].
  intros _. apply Z.eqb_eq in M. exact M.
Qed.

End XDBFCaches.

Lemma findResource_spec_witness :
  match XDBF.findResource unit strings_obj 5 1 with
  | Some e =>
      (exists tbl i,
         XDBF.entryTable unit strings_obj = Some tbl /\ tbl !! i = Some e /\
         Z.of_nat i <
           XDBF.entry_table_length (XDBF.xdbfHeader unit strings_obj))
      /\ be16_to_cpu (XDBF.namespace_id e) = 5
      /\ be64_to_cpu (XDBF.resource_id e) = 1
  | None =>
      forall tbl i e,
        XDBF.entryTable unit strings_obj = Some tbl -> tbl !! i = Some e ->
        Z.of_nat i <
          XDBF.entry_table_length (XDBF.xdbfHeader unit strings_obj) ->
        ~ (XDBF.namespace_id e = cpu_to_be16 5 /\
           XDBF.resource_id e = cpu_to_be64 1)
  end.
Proof. apply (findResource_spec unit strings_obj 5 1); lia. Defined.

Lemma getLangID_loaded_witness :
  fst (XDBF.getLangID XDBF.xdbf_structs unit 1 strings_obj) = Done 1 /\
  lang_loaded XDBF.xdbf_structs
    (snd (XDBF.getLangID XDBF.xdbf_structs unit 1 strings_obj)) 1 /\
  XDBF.m_langID unit
    (snd (XDBF.getLangID XDBF.xdbf_structs unit 1 strings_obj)) = 1.
Proof.
  pose proof (getLangID_loaded XDBF.xdbf_structs unit 1 strings_obj
                (or_introl eq_refl)) as (H & _).
  assert (E : fst (XDBF.getLangID XDBF.xdbf_structs unit 1 strings_obj) =
              Done 1) by (vm_compute; reflexivity).
  rewrite E in H. destruct H as (H1 & _ & [H3|H3]); [discriminate H3|].
  split; [exact E|]. split; [exact H1 | exact H3].
Defined.

Lemma loadIcon_cached_witness :
  let load := XDBF.loadIcon XDBF.xdbf_structs (list Z) Some in
  exists img,
    fst (load title_obj) = Some img /\
    XDBF.map_images _ (snd (load title_obj)) !! 32768 = Some img /\
    load (snd (load title_obj)) = (Some img, snd (load title_obj)) /\
    icon_cached XDBF.xdbf_structs (snd (load (snd (load title_obj)))).
Proof.
  intros load.
  destruct (loadIcon_cached XDBF.xdbf_structs (list Z) Some title_obj)
    as [Hinv H].
  { intros img H. vm_compute in H. discriminate H. }
  destruct (loadIcon_cached XDBF.xdbf_structs (list Z) Some
              (snd (load title_obj)) Hinv) as [Hinv' _].
  exists (drop 80 title_file). split; [vm_compute; reflexivity|].
  split; [|split; [|exact Hinv']]; apply H; vm_compute; reflexivity.
Defined.


Lemma loadInternalImage_result_witness :
  let load :=
    XDBF.loadInternalImage XDBF.xdbf_structs (list Z) Some 0
      (assert_image_type 0 3) 0 true in
  exists img,
    fst (load title_obj) = Done (0, Some img) /\
    load (snd (load title_obj)) = (Done (0, Some img), snd (load title_obj)).
Proof.
  intros load.
  destruct (proj1 (loadInternalImage_result XDBF.xdbf_structs (list Z) Some 0
                     (assert_image_type 0 3) 0 title_obj) eq_refl)
    as (code & img & Hr & _ & _ & Hagain).
  assert (E : fst (load title_obj) = Done (0, Some (drop 80 title_file)))
    by (vm_compute; reflexivity).
  exists (drop 80 title_file). split; [exact E|].
  apply Hagain. subst load. rewrite E in Hr. congruence.
Defined.

Lemma loadString_search_ends_witness :
  XDBF.find_string XDBF.xdbf_structs (fun s => s) 64
    (drop 42 (strings_file 20)) 14 (cpu_to_be16 2) =
  XDBF.find_string XDBF.xdbf_structs (fun s => s)
    (List.length (drop 42 (strings_file 20)))
    (drop 42 (strings_file 20)) 14 (cpu_to_be16 2).
Proof.
  apply (loadString_search_ends XDBF.xdbf_structs (fun s => s)
           (drop 42 (strings_file 20)) (cpu_to_be16 2) 64).
  - reflexivity.
  - discriminate.
  - vm_compute. lia.
Defined.

Lemma achievements_field_shape_witness :
  0 <= 0 <= 6 /\
  (0 = 0 <->
   Some (XDBF.mkListData unit
           [[XDBF.CellUInt 7; XDBF.CellIds 0 0 0; XDBF.CellUInt 25]]
           [None]) <> None) /\
  (forall ld,
     Some (XDBF.mkListData unit
             [[XDBF.CellUInt 7; XDBF.CellIds 0 0 0; XDBF.CellUInt 25]]
             [None]) = Some ld ->
     List.length (XDBF.rows unit ld) = List.length (XDBF.icons unit ld) /\
     (List.length (XDBF.rows unit ld) <= 512)%nat /\
     Forall (fun r => List.length r = 3%nat) (XDBF.rows unit ld)).
Proof.
  apply (achievements_field_shape XDBF.xdbf_structs unit (fun _ => None) 1
           (fun s => s) xach_obj).
  vm_compute. reflexivity.
Defined.

(** ** Rounding to 64 bytes *)

(** [toNext64] in arithmetic: the sum, reduced to [w] bits, with its low
    six bits cleared. *)
Lemma toNext64_eq (w val : Z) :
  0 <= w -> N3DS.toNext64 w val = (val + 63) mod 2 ^ w / 64 * 64.
Proof.
  intros Hw. unfold N3DS.toNext64.
  assert (Hx : 0 <= (val + 63) mod 2 ^ w < 2 ^ w)
    by (apply Z.mod_pos_bound; apply Z.pow_pos_nonneg; lia).
  set (x := (val + 63) mod 2 ^ w) in *.
  rewrite <- (Z.land_ones (Z.lnot 63) w) by lia.
  rewrite (Z.land_comm (Z.lnot 63)), Z.land_assoc, Z.land_ones by lia.
  rewrite (Z.mod_small x) by lia.
  rewrite <- Z.ldiff_land. change 63 with (Z.ones 6).
  rewrite Z.ldiff_ones_r by lia.
  rewrite Z.shiftl_mul_pow2, Z.shiftr_div_pow2 by lia. reflexivity.
Qed.

(** X16.  [toNext64] on a [w]-bit unsigned type, [w >= 6].  The result is
    a multiple of 64 below [2^w], and a value that is already rounded is
    left as it is.  When [val + 63] fits in [w] bits the result is [val]
    rounded up to the next multiple of 64, which is less than 64 above
    [val]; for the 63 largest values of the type the sum wraps around and
    the result is 0. *)
Theorem toNext64_rounds_up (w val : Z) :
  6 <= w ->
  (N3DS.toNext64 w val mod 64 = 0 /\ 0 <= N3DS.toNext64 w val < 2 ^ w) /\
  N3DS.toNext64 w (N3DS.toNext64 w val) = N3DS.toNext64 w val /\
  (0 <= val -> val + 63 < 2 ^ w ->
   N3DS.toNext64 w val = round_up_64 val /\
   val <= N3DS.toNext64 w val < val + 64) /\
  (2 ^ w - 63 <= val < 2 ^ w -> N3DS.toNext64 w val = 0).
Proof.
  intros Hw.
  assert (Hpow : 2 ^ w = 64 * 2 ^ (w - 6)).
  { change 64 with (2 ^ 6). rewrite <- Z.pow_add_r by lia. f_equal. lia. }
  assert (Hk : 0 < 2 ^ (w - 6)) by (apply Z.pow_pos_nonneg; lia).
  assert (Hround : forall x, 0 <= x -> x + 63 < 2 ^ w ->
            N3DS.toNext64 w x = (x + 63) / 64 * 64).
  { intros x Hx Hfit. rewrite toNext64_eq by lia.
    rewrite (Z.mod_small (x + 63)) by lia. reflexivity. }
  assert (Hmult : N3DS.toNext64 w val mod 64 = 0 /\
                  0 <= N3DS.toNext64 w val /\
                  N3DS.toNext64 w val + 63 < 2 ^ w).
  { rewrite toNext64_eq by lia.
    assert (Hx : 0 <= (val + 63) mod 2 ^ w < 2 ^ w)
      by (apply Z.mod_pos_bound; lia).
    set (x := (val + 63) mod 2 ^ w) in *.
    split; [apply Z_mod_mult|].
    rewrite Hpow in *. generalize dependent (2 ^ (w - 6)). intros k _ Hk Hx.
    pose proof (Z.div_mod x 64 ltac:(lia)) as Hdm.
    pose proof (Z.mod_pos_bound x 64 ltac:(lia)) as Hmb.
    nia. }
  destruct Hmult as (Hm & Hlo & Hhi).
  split; [split; [exact Hm | lia]|]. split; [|split].
  - rewrite (Hround (N3DS.toNext64 w val)) by lia.
    revert Hm. generalize (N3DS.toNext64 w val). intros t Hm.
    Z.div_mod_to_equations. lia.
  - intros Hval Hfit. rewrite (Hround val) by lia.
    split; [reflexivity|].
    pose proof (Z.div_mod (val + 63) 64 ltac:(lia)) as Hdm.
    pose proof (Z.mod_pos_bound (val + 63) 64 ltac:(lia)) as Hmb.
    lia.
  - intros Hval. rewrite toNext64_eq by lia.
    replace ((val + 63) mod 2 ^ w) with (val + 63 - 2 ^ w).
    + rewrite Z.div_small by lia. reflexivity.
    + apply Z.mod_unique with (q := 1); lia.
Qed.

Lemma toNext64_rounds_up_witness :
  (N3DS.toNext64 32 100 mod 64 = 0 /\ 0 <= N3DS.toNext64 32 100 < 2 ^ 32) /\
  N3DS.toNext64 32 (N3DS.toNext64 32 100) = N3DS.toNext64 32 100 /\
  (0 <= 100 -> 100 + 63 < 2 ^ 32 ->
   N3DS.toNext64 32 100 = round_up_64 100 /\
   100 <= N3DS.toNext64 32 100 < 100 + 64) /\
  (2 ^ 32 - 63 <= 100 < 2 ^ 32 -> N3DS.toNext64 32 100 = 0).
Proof. apply (toNext64_rounds_up 32 100). lia. Defined.

(** ** The Nintendo 3DS object: constructor and loaders *)

Section N3DSLoaders.

Variable S : N3DS.Structs.
Variable ENABLE_DECRYPTION : bool.
Variable NintendoDS : Type.
Variable NintendoDS_open : list Z -> Z -> Z -> option NintendoDS.
Variable AesCTR_decrypt : list Z -> list Z -> list Z -> list Z * Z.

Local Abbreviation State := (N3DS.State NintendoDS).
Local Abbreviation has_header := (N3DS.has_header NintendoDS).
Local Abbreviation loadTMD := (N3DS.loadTMD S NintendoDS NintendoDS_open).
Local Abbreviation loadNCCH := (N3DS.loadNCCH S NintendoDS NintendoDS_open).
Local Abbreviation loadExHeader :=
  (N3DS.loadExHeader S ENABLE_DECRYPTION NintendoDS NintendoDS_open
     AesCTR_decrypt).

(** X17.  The object that the constructor builds.  No file read is logged
    and the ExHeader buffer is zero-filled; the type is unknown or one of
    the five supported types, and unknown for every file of fewer than
    8224 bytes, whatever it holds; the marks are the mark of the header
    that the constructor saved: 3DSX, CIA, or NCSD for a CCI or eMMC image,
    and none for an SMDH file or an unknown file. *)
Theorem constructor_marks (f ext : list Z) :
  let st := N3DS.Nintendo3DS S NintendoDS f ext in
  N3DS.file NintendoDS st = f /\
  N3DS.io NintendoDS st = [] /\
  N3DS.ncch_exheader NintendoDS st =
    replicate (Z.to_nat (N3DS.sizeof_N3DS_NCCH_ExHeader_t S)) 0 /\
  (N3DS.romType NintendoDS st = N3DS.ROM_TYPE_UNKNOWN \/
   0 <= N3DS.romType NintendoDS st <= 4) /\
  (Z.of_nat (List.length f) < 8224 ->
   N3DS.romType NintendoDS st = N3DS.ROM_TYPE_UNKNOWN) /\
  N3DS.headers_loaded NintendoDS st =
    (if N3DS.romType NintendoDS st =? N3DS.ROM_TYPE_3DSX
     then N3DS.HEADER_3DSX
     else if N3DS.romType NintendoDS st =? N3DS.ROM_TYPE_CIA
     then N3DS.HEADER_CIA
     else if (N3DS.romType NintendoDS st =? N3DS.ROM_TYPE_CCI) ||
             (N3DS.romType NintendoDS st =? N3DS.ROM_TYPE_eMMC)
     then N3DS.HEADER_NCSD
     else N3DS.HEADER_NONE).
Proof.
  intros st. subst st. unfold N3DS.Nintendo3DS.
  destruct (negb (Z.of_nat (List.length (seekAndRead f 0 8224)) =? 8224))
    eqn:Hlen.
  { cbn. repeat split; auto. }
  apply negb_false_iff in Hlen. apply Z.eqb_eq in Hlen.
  rewrite seekAndRead_length in Hlen by lia.
  cbv zeta.
  generalize (N3DS.isRomSupported_static S
                (Some (RomData.mkDetectInfo 0 8224
                         (Some (seekAndRead f 0 8224)) (Some ext)
                         (Z.of_nat (List.length f))))).
  intros r.
  assert (Hshort : ~ Z.of_nat (List.length f) < 8224) by lia.
  destruct (r =? N3DS.ROM_TYPE_SMDH) eqn:E0;
    [apply Z.eqb_eq in E0; subst r; cbn; repeat split; auto;
     [right; unfold N3DS.ROM_TYPE_SMDH; lia | contradiction]|].
  destruct (r =? N3DS.ROM_TYPE_3DSX) eqn:E1;
    [apply Z.eqb_eq in E1; subst r; cbn; repeat split; auto;
     [right; unfold N3DS.ROM_TYPE_3DSX; lia | contradiction]|].
  destruct (r =? N3DS.ROM_TYPE_CIA) eqn:E4;
    [apply Z.eqb_eq in E4; subst r; cbn; repeat split; auto;
     [right; unfold N3DS.ROM_TYPE_CIA; lia | contradiction]|].
  destruct (r =? N3DS.ROM_TYPE_CCI) eqn:E2;
    [apply Z.eqb_eq in E2; subst r; cbn; repeat split; auto;
     [right; unfold N3DS.ROM_TYPE_CCI; lia | contradiction]|].
  destruct (r =? N3DS.ROM_TYPE_eMMC) eqn:E3;
    [apply Z.eqb_eq in E3; subst r; cbn; repeat split; auto;
     [right; unfold N3DS.ROM_TYPE_eMMC; lia | contradiction]|].
  cbn. repeat split; auto.
Qed.

(** A load of the TMD that succeeds leaves the TMD mark set. *)
Lemma loadTMD_done (st : State) :
  fst (loadTMD st) = Done 0 ->
  has_header (snd (loadTMD st)) N3DS.HEADER_TMD = true.
Proof.
  unfold N3DS.loadTMD, N3DS.read_at.
  destruct (has_header st N3DS.HEADER_TMD) eqn:Hh; [intros _; exact Hh|].
  break_tests; cbn [fst snd]; intros H; try discriminate H.
  unfold N3DS.has_header.
  cbn [N3DS.headers_loaded N3DS.set_headers_loaded].
  apply negb_true_iff, Z.eqb_neq, land_lor_same. discriminate.
Qed.

(** A load of the NCCH header that succeeds leaves the NCCH mark set. *)
Lemma loadNCCH_done (st : State) :
  fst (loadNCCH st) = Done 0 ->
  has_header (snd (loadNCCH st)) N3DS.HEADER_NCCH = true.
Proof.
  unfold N3DS.loadNCCH.
  destruct (has_header st N3DS.HEADER_NCCH) eqn:Hh; [intros _; exact Hh|].
  destruct (N3DS.loadNCCH_idx S NintendoDS NintendoDS_open 0
              (N3DS.ncch_header NintendoDS st) st)
    as [[[[ret hdr] ol]| |] st1]; [|discriminate|discriminate].
  destruct (ret =? 0) eqn:Hret; cbn [fst snd].
  - intros _. unfold N3DS.has_header.
    cbn [N3DS.headers_loaded N3DS.set_headers_loaded].
    apply negb_true_iff, Z.eqb_neq, land_lor_same. discriminate.
  - intros H. injection H as ->. discriminate Hret.
Qed.

(** X18.  [loadTMD] and [loadNCCH] are idempotent once they have
    succeeded: a call that returns 0 leaves the mark of its header set, and
    the next call returns 0 at once and leaves the object, its log of file
    reads included, as it is. *)
Theorem loaders_idempotent (st : State) :
  (fst (loadTMD st) = Done 0 ->
   has_header (snd (loadTMD st)) N3DS.HEADER_TMD = true /\
   loadTMD (snd (loadTMD st)) = (Done 0, snd (loadTMD st))) /\
  (fst (loadNCCH st) = Done 0 ->
   has_header (snd (loadNCCH st)) N3DS.HEADER_NCCH = true /\
   loadNCCH (snd (loadNCCH st)) = (Done 0, snd (loadNCCH st))).
Proof.
  split; intros H.
  - pose proof (loadTMD_done st H) as Hm. split; [exact Hm|].
    unfold N3DS.loadTMD at 1. rewrite Hm. reflexivity.
  - pose proof (loadNCCH_done st H) as Hm. split; [exact Hm|].
    unfold N3DS.loadNCCH at 1. rewrite Hm. reflexivity.
Qed.

(** X19.  What a successful [loadNCCH] has done when the NCCH mark was
    not set.  The object is a CIA or a CCI; the last read issued to the
    file is the read of the NCCH header, at 0x100 past the offset that the
    object records for the NCCH; the header kept is the one read there,
    and it carries the NCCH magic; in a CCI the NCCH lies beyond the first
    0x2000 bytes. *)
Theorem loadNCCH_success (st : State) :
  has_header st N3DS.HEADER_NCCH = false ->
  fst (loadNCCH st) = Done 0 ->
  let st' := snd (loadNCCH st) in
  (N3DS.romType NintendoDS st = N3DS.ROM_TYPE_CIA \/
   N3DS.romType NintendoDS st = N3DS.ROM_TYPE_CCI) /\
  hd_error (N3DS.io NintendoDS st') =
    Some (s64_at_header st', N3DS.sizeof_N3DS_NCCH_Header_NoSig_t S) /\
  N3DS.ncch_header NintendoDS st' =
    N3DS.as_N3DS_NCCH_Header_NoSig_t S
      (seekAndRead (N3DS.file NintendoDS st') (s64_at_header st')
         (N3DS.sizeof_N3DS_NCCH_Header_NoSig_t S)) /\
  N3DS.ncch_magic (N3DS.ncch_header NintendoDS st') =
    take (List.length (N3DS.ncch_magic (N3DS.ncch_header NintendoDS st')))
      (N3DS.N3DS_NCCH_HEADER_MAGIC S) /\
  (N3DS.romType NintendoDS st = N3DS.ROM_TYPE_CCI ->
   8192 < N3DS.ncch_offset NintendoDS st').
Proof.
  intros Hnot. unfold N3DS.loadNCCH. rewrite Hnot.
  unfold N3DS.loadNCCH_idx, N3DS.read_ncch, N3DS.read_at, s64_at_header.
  break_inner; cbn [fst snd]; intros H; try discriminate H;
    cbn [N3DS.io N3DS.set_io N3DS.ncch_header N3DS.set_ncch_header
         N3DS.ncch_offset N3DS.set_ncch_offset N3DS.set_ncch_length
         N3DS.set_headers_loaded N3DS.file hd_error];
    repeat match goal with
           | E : (_, _) = (_, _) |- _ => injection E as <- <-
           | E : (_, _, _) = (_, _, _) |- _ => injection E as <- <- <-
           | E : Some _ = Some _ |- _ => injection E as <-
           | E : Done _ = Done _ |- _ => injection E as <-
           end.
  all: repeat match goal with
              | E : negb _ = false |- _ => apply negb_false_iff in E
              | E : (N3DS.romType _ _ =? _) = true |- _ =>
                  apply Z.eqb_eq in E
              | E : bool_decide _ = true |- _ =>
                  apply bool_decide_eq_true in E
              | E : (_ <=? _) = false |- _ => apply Z.leb_gt in E
              end.
  all: repeat split; auto;
    try (intros Hc; unfold N3DS.ROM_TYPE_CIA, N3DS.ROM_TYPE_CCI in *; lia).
Qed.

(** X20.  An ExHeader that is loaded without decryption.  When the NCCH
    header is loaded, no key is selected and [loadExHeader] returns 0, the
    size in the NCCH header is at least the minimum, the size rounded up to
    16 bytes is at most the size of the ExHeader structure, the last read
    issued is the read of that many bytes at the end of the NCCH header,
    and the structure holds the bytes read followed by zeros. *)
Theorem loadExHeader_plain_content (st : State) :
  has_header st N3DS.HEADER_EXHEADER = false ->
  has_header st N3DS.HEADER_NCCH = true ->
  N3DS.exheader_key S ENABLE_DECRYPTION NintendoDS st = inr None ->
  List.length (N3DS.ncch_exheader NintendoDS st) =
    Z.to_nat (N3DS.sizeof_N3DS_NCCH_ExHeader_t S) ->
  fst (loadExHeader st) = Done 0 ->
  let st' := snd (loadExHeader st) in
  let size :=
    le32_to_cpu (N3DS.exheader_size (N3DS.ncch_header NintendoDS st)) in
  let len := Z.land (u32 (size + 15)) (u32 (Z.lnot 15)) in
  let pos :=
    N3DS.s64 (N3DS.ncch_offset NintendoDS st +
              N3DS.sizeof_N3DS_NCCH_Header_t S) in
  N3DS.N3DS_NCCH_EXHEADER_MIN_SIZE S <= size /\
  len <= N3DS.sizeof_N3DS_NCCH_ExHeader_t S /\
  hd_error (N3DS.io NintendoDS st') = Some (pos, len) /\
  N3DS.ncch_exheader NintendoDS st' =
    seekAndRead (N3DS.file NintendoDS st) pos len ++
    replicate (Z.to_nat (N3DS.sizeof_N3DS_NCCH_ExHeader_t S - len)) 0 /\
  List.length (N3DS.ncch_exheader NintendoDS st') =
    Z.to_nat (N3DS.sizeof_N3DS_NCCH_ExHeader_t S).
Proof.
  intros Hnot Hncch Hkey Hbuf.
  unfold N3DS.loadExHeader. rewrite Hnot, Hncch. cbn [negb Z.eqb].
  rewrite Hkey. unfold N3DS.readExHeader, N3DS.read_at, le32_to_cpu.
  cbv zeta.
  set (size := N3DS.exheader_size (N3DS.ncch_header NintendoDS st)).
  set (len := Z.land (u32 (size + 15)) (u32 (Z.lnot 15))).
  set (pos := N3DS.s64 (N3DS.ncch_offset NintendoDS st +
                        N3DS.sizeof_N3DS_NCCH_Header_t S)).
  assert (Hlen0 : 0 <= len).
  { subst len. apply Z.land_nonneg. left. apply u32_nonneg. }
  destruct (size <? N3DS.N3DS_NCCH_EXHEADER_MIN_SIZE S) eqn:Hmin;
    [discriminate|]. apply Z.ltb_ge in Hmin.
  destruct (negb (N3DS.seek_ok pos)) eqn:Hseek; [discriminate|].
  apply negb_false_iff in Hseek. unfold N3DS.seek_ok in Hseek.
  apply Z.leb_le in Hseek.
  destruct (Z.of_nat (List.length (seekAndRead (N3DS.file NintendoDS st)
                                     pos len)) >?
            N3DS.sizeof_N3DS_NCCH_ExHeader_t S) eqn:Hover; [discriminate|].
  rewrite Z.gtb_ltb in Hover. apply Z.ltb_ge in Hover.
  destruct (negb (Z.of_nat (List.length (seekAndRead (N3DS.file NintendoDS st)
                                           pos len)) =? len)) eqn:Hfull;
    [discriminate|].
  apply negb_false_iff in Hfull. apply Z.eqb_eq in Hfull.
  intros _. split; [exact Hmin|]. split; [lia|].
  destruct (len <? N3DS.sizeof_N3DS_NCCH_ExHeader_t S) eqn:Hlt;
    cbn [snd N3DS.io N3DS.set_io N3DS.ncch_exheader N3DS.set_ncch_exheader
         N3DS.set_headers_loaded N3DS.file hd_error].
  - apply Z.ltb_lt in Hlt. repeat split.
    rewrite length_app, length_replicate. lia.
  - apply Z.ltb_ge in Hlt.
    assert (Heq : len = N3DS.sizeof_N3DS_NCCH_ExHeader_t S) by lia.
    rewrite drop_ge by lia.
    replace (Z.to_nat (N3DS.sizeof_N3DS_NCCH_ExHeader_t S - len)) with 0%nat
      by lia.
    cbn [replicate]. repeat split. rewrite app_nil_r. lia.
Qed.

(** X21.  [loadExHeader] puts no upper bound on the size that the NCCH
    header gives for the ExHeader.  When that size, rounded up to 16
    bytes, exceeds the size of the ExHeader structure and the file holds
    more bytes than the structure after the NCCH header, the read writes
    past the end of the structure: the load does not complete. *)
Theorem loadExHeader_overflow (st : State) (key : option (list Z)) :
  has_header st N3DS.HEADER_EXHEADER = false ->
  has_header st N3DS.HEADER_NCCH = true ->
  N3DS.exheader_key S ENABLE_DECRYPTION NintendoDS st = inr key ->
  let size :=
    le32_to_cpu (N3DS.exheader_size (N3DS.ncch_header NintendoDS st)) in
  let len := Z.land (u32 (size + 15)) (u32 (Z.lnot 15)) in
  let pos :=
    N3DS.s64 (N3DS.ncch_offset NintendoDS st +
              N3DS.sizeof_N3DS_NCCH_Header_t S) in
  N3DS.N3DS_NCCH_EXHEADER_MIN_SIZE S <= size ->
  0 <= N3DS.sizeof_N3DS_NCCH_ExHeader_t S < len ->
  0 <= pos ->
  pos + N3DS.sizeof_N3DS_NCCH_ExHeader_t S <
    Z.of_nat (List.length (N3DS.file NintendoDS st)) ->
  exists n,
    N3DS.sizeof_N3DS_NCCH_ExHeader_t S < n /\
    fst (loadExHeader st) =
      OutOfBounds 0 n (N3DS.sizeof_N3DS_NCCH_ExHeader_t S).
Proof.
  intros Hnot Hncch Hkey size len pos Hmin Hbig Hpos Hfile.
  unfold N3DS.loadExHeader. rewrite Hnot, Hncch. cbn [negb Z.eqb].
  rewrite Hkey. unfold N3DS.readExHeader, N3DS.read_at.
  fold size. cbv zeta. fold len. fold pos.
  replace (size <? N3DS.N3DS_NCCH_EXHEADER_MIN_SIZE S) with false
    by (symmetry; apply Z.ltb_ge; exact Hmin).
  replace (negb (N3DS.seek_ok pos)) with false
    by (symmetry; apply negb_false_iff, Z.leb_le; exact Hpos).
  pose proof (seekAndRead_length (N3DS.file NintendoDS st) pos len
                Hpos ltac:(lia)) as Hread.
  exists (Z.of_nat (List.length (seekAndRead (N3DS.file NintendoDS st)
                                   pos len))).
  split; [lia|].
  replace (Z.of_nat (List.length (seekAndRead (N3DS.file NintendoDS st)
                                    pos len)) >?
           N3DS.sizeof_N3DS_NCCH_ExHeader_t S) with true
    by (symmetry; rewrite Z.gtb_ltb; apply Z.ltb_lt; lia).
  reflexivity.
Qed.

(** X22.  The crypto type that [getNCCHCryptoType] shows for the NCCH
    header of the object tells whether [loadExHeader] can go on: it goes
    on without a key for an NCCH shown as "NoCrypto", with the all-zero
    key for one shown as "Fixed (?)" in a build with decryption, and
    gives up with -95 for every other NCCH, those shown with a key slot
    and those of unknown type included. *)
Theorem crypto_type_consistent (crypto_method : nat) (st : State) :
  N3DS.exheader_key S ENABLE_DECRYPTION NintendoDS st =
  match N3DS.getNCCHCryptoType S crypto_method
          (N3DS.ncch_header NintendoDS st) with
  | Some t =>
      if String.eqb t "NoCrypto" then inr None
      else if String.eqb t "Fixed (?)" && ENABLE_DECRYPTION
      then inr (Some (replicate 16 0))
      else inl (-95)
  | None => inl (-95)
  end.
Proof.
  unfold N3DS.exheader_key, N3DS.getNCCHCryptoType, N3DS.ncch_flag.
  destruct (negb (Z.land _ (N3DS.N3DS_NCCH_BIT_MASK_NoCrypto S) =? 0)).
  { destruct ENABLE_DECRYPTION; reflexivity. }
  destruct (negb (Z.land _ (N3DS.N3DS_NCCH_BIT_MASK_FixedCryptoKey S) =? 0)).
  { destruct ENABLE_DECRYPTION; reflexivity. }
  cbv zeta.
  destruct (nth crypto_method _ 0 =? 1);
    [destruct ENABLE_DECRYPTION; reflexivity|].
  destruct (nth crypto_method _ 0 =? 10);
    [destruct ENABLE_DECRYPTION; reflexivity|].
  destruct (nth crypto_method _ 0 =? 11);
    destruct ENABLE_DECRYPTION; reflexivity.
Qed.

End N3DSLoaders.

Lemma loadNCCH_success_witness :
  let st := cci_obj 1024 4 1024 in
  let st' :=
    snd (N3DS.loadNCCH N3DS.n3ds_structs unit (fun _ _ _ => None) st) in
  (N3DS.romType unit st = N3DS.ROM_TYPE_CIA \/
   N3DS.romType unit st = N3DS.ROM_TYPE_CCI) /\
  hd_error (N3DS.io unit st') =
    Some (s64_at_header st',
          N3DS.sizeof_N3DS_NCCH_Header_NoSig_t N3DS.n3ds_structs) /\
  N3DS.ncch_header unit st' =
    N3DS.as_N3DS_NCCH_Header_NoSig_t N3DS.n3ds_structs
      (seekAndRead (N3DS.file unit st') (s64_at_header st')
         (N3DS.sizeof_N3DS_NCCH_Header_NoSig_t N3DS.n3ds_structs)) /\
  N3DS.ncch_magic (N3DS.ncch_header unit st') =
    take (List.length (N3DS.ncch_magic (N3DS.ncch_header unit st')))
      (N3DS.N3DS_NCCH_HEADER_MAGIC N3DS.n3ds_structs) /\
  (N3DS.romType unit st = N3DS.ROM_TYPE_CCI ->
   8192 < N3DS.ncch_offset unit st').
Proof.
  exact (loadNCCH_success N3DS.n3ds_structs unit (fun _ _ _ => None)
           (cci_obj 1024 4 1024)
           ltac:(vm_compute; reflexivity) ltac:(vm_compute; reflexivity)).
Defined.

Lemma loadExHeader_plain_content_witness :
  let st := cci_ncch_obj 1024 4 1024 in
  let st' :=
    snd (N3DS.loadExHeader N3DS.n3ds_structs false unit (fun _ _ _ => None)
           (fun _ _ d => (d, 0)) st) in
  1024 <= 1024 /\
  1024 <= 2048 /\
  hd_error (N3DS.io unit st') = Some (9216, 1024) /\
  N3DS.ncch_exheader unit st' =
    seekAndRead (N3DS.file unit st) 9216 1024 ++
    replicate (Z.to_nat (2048 - 1024)) 0 /\
  List.length (N3DS.ncch_exheader unit st') = Z.to_nat 2048.
Proof.
  exact (loadExHeader_plain_content N3DS.n3ds_structs false unit
           (fun _ _ _ => None) (fun _ _ d => (d, 0))
           (cci_ncch_obj 1024 4 1024)
           ltac:(vm_compute; reflexivity) ltac:(vm_compute; reflexivity)
           ltac:(vm_compute; reflexivity) ltac:(vm_compute; reflexivity)
           ltac:(vm_compute; reflexivity)).
Defined.

Lemma loadExHeader_overflow_witness :
  exists n,
    2048 < n /\
    fst (N3DS.loadExHeader N3DS.n3ds_structs false unit (fun _ _ _ => None)
           (fun _ _ d => (d, 0)) (cci_ncch_obj 4096 4 4096)) =
    OutOfBounds 0 n 2048.
Proof.
  exact (loadExHeader_overflow N3DS.n3ds_structs false unit
           (fun _ _ _ => None) (fun _ _ d => (d, 0))
           (cci_ncch_obj 4096 4 4096) None
           ltac:(vm_compute; reflexivity) ltac:(vm_compute; reflexivity)
           ltac:(vm_compute; reflexivity) ltac:(vm_compute; discriminate)
           ltac:(vm_compute; split; [discriminate | reflexivity])
           ltac:(vm_compute; discriminate) ltac:(vm_compute; reflexivity)).
Defined.

(** ** GameTDB region codes *)

(** X23.  [n3dsRegionToGameTDB] never returns an empty list: for every
    SMDH region value and every game ID region, known or not, it returns
    between one and three region codes. *)
Theorem region_codes_never_empty (R : N3DS.Regions) (smdhRegion idRegion : Z) :
  (1 <= List.length (N3DS.n3dsRegionToGameTDB R smdhRegion idRegion) <= 3)%nat.
Proof.
  unfold N3DS.n3dsRegionToGameTDB.
  break_inner; subst; cbn; try lia;
    repeat match goal with
           | E : (_, _) = (_, _) |- _ => injection E as <- <-
           end; cbn; lia.
Qed.

(** X24.  The game ID region 'I', Italy, is given the Dutch code: for
    every SMDH region value the codes returned for 'I' are those returned
    for 'H', the Netherlands, and the code "IT" is never returned, whatever
    the arguments. *)
Theorem italy_mapped_to_dutch (R : N3DS.Regions) (smdhRegion : Z) :
  N3DS.n3dsRegionToGameTDB R smdhRegion (N3DS.char "I") =
  N3DS.n3dsRegionToGameTDB R smdhRegion (N3DS.char "H") /\
  (forall idRegion,
     ~ In "IT"%string (N3DS.n3dsRegionToGameTDB R smdhRegion idRegion)).
Proof.
  split.
  - unfold N3DS.n3dsRegionToGameTDB.
    repeat match goal with
           | |- context [if ?c then _ else _] =>
               lazymatch c with
               | context [smdhRegion] => destruct c
               end
           end; reflexivity.
  - intros idRegion. unfold N3DS.n3dsRegionToGameTDB.
    break_inner; subst;
      repeat match goal with
             | E : (_, _) = (_, _) |- _ => injection E as <- <-
             end; cbn; intuition discriminate.
Qed.

(** ** The segment table of an XEX file with basic compression *)

Lemma u32_add_l (a b : Z) : u32 (u32 a + b) = u32 (a + b).
Proof. unfold u32. apply Z.add_mod_idemp_l. lia. Qed.

Lemma u32_sub_r (a b : Z) : u32 (a - u32 b) = u32 (a - b).
Proof. unfold u32. apply Zminus_mod_idemp_r. Qed.

Lemma u32_sub (a b : Z) : u32 (a - b) = u32 (u32 a - u32 b).
Proof. unfold u32. apply Zminus_mod. Qed.

Lemma basic_segments_length (cbi : list XEX.XEX2_Compression_Basic_Info) :
  forall v p, List.length (XEX.basic_segments cbi v p) = List.length cbi.
Proof.
  induction cbi as [|c cbi IH]; intros v p; simpl; [|rewrite IH];
    reflexivity.
Qed.

(** Where the segments built by [initPeReader] lie. *)
Lemma basic_segments_lookup (cbi : list XEX.XEX2_Compression_Basic_Info) :
  forall v p i seg,
    XEX.basic_segments cbi v p !! i = Some seg ->
    (exists c, cbi !! i = Some c /\
               XEX.length seg = be32_to_cpu (XEX.data_size c)) /\
    u32 (XEX.physaddr seg) = u32 (p + data_before cbi i) /\
    u32 (XEX.vaddr seg) = u32 (v + data_before cbi i + zero_before cbi i).
Proof.
  induction cbi as [|c cbi IH]; intros v p i seg H; [discriminate H|].
  destruct i as [|i]; cbn [XEX.basic_segments] in H.
  - injection H as <-. cbn. split; [eauto|].
    rewrite !Z.add_0_r. auto.
  - apply IH in H as ((c' & Hc & Hlen) & Hp & Hv).
    split; [exists c'; auto|].
    unfold data_before, zero_before in *.
    cbn [take foldr]. split.
    + rewrite Hp, u32_add_l. f_equal. lia.
    + rewrite Hv.
      match goal with
      | |- u32 (u32 (u32 ?a + ?z) + ?D + ?Zs) = _ =>
          replace (u32 (u32 a + z) + D + Zs) with (u32 (u32 a + z) + (D + Zs))
            by lia;
          rewrite u32_add_l;
          replace (u32 a + z + (D + Zs)) with (u32 a + (z + (D + Zs))) by lia;
          rewrite u32_add_l
      end.
      f_equal. lia.
Qed.

(** The table after [resize]: the entries that it had, then fresh
    ones. *)
Lemma resized_lookup {A} (fresh : nat -> A) (old : list A) (n i : nat) :
  (i < n)%nat ->
  (take n old ++ map fresh (seq (List.length old) (n - List.length old)))
    !! i = Some (default (fresh i) (old !! i)).
Proof.
  intros Hi. destruct (old !! i) as [x|] eqn:Hx.
  - rewrite lookup_app_l
      by (rewrite length_take; apply lookup_lt_Some in Hx; lia).
    rewrite lookup_take_lt by lia. exact Hx.
  - apply lookup_ge_None in Hx.
    rewrite lookup_app_r by (rewrite length_take; lia).
    rewrite length_take, Nat.min_r by lia.
    rewrite list_lookup_fmap, lookup_seq_lt by lia. cbn.
    f_equal. f_equal. lia.
Qed.

(** X25.  The segment table that [initPeReader] builds for basic
    compression, for segment information that lies inside the file.  When
    the length of the segment information is a multiple of the record
    size, the table gets one entry per byte of the segment information,
    not one per record.  The entries at the front, one per record, are
    assigned: the segment of a record has the data size of the record as
    its length; in 32 bits, its physical address is the data of the
    records before it, and its virtual address is that data plus the zero
    padding of the records before it.  The entries after them are never
    assigned: they hold what the table held there before, or what fresh
    storage holds.  When the length is not a multiple of the record size,
    the read of the records writes past the end of the record buffer. *)
Theorem basic_segments_layout (S : XEX.Structs) (fresh_byte : nat -> Z)
    (fresh_segment : nat -> XEX.BasicZDataSeg_t) (f : list Z) (pos : Z)
    (st : XEX.State) :
  0 < XEX.sizeof_XEX2_Compression_Basic_Info S ->
  0 <= pos ->
  XEX.sizeof_XEX2_File_Format_Info S < XEX.size (XEX.fileFormatInfo st) ->
  let seg_len :=
    u32 (XEX.size (XEX.fileFormatInfo st) -
         XEX.sizeof_XEX2_File_Format_Info S) in
  let seg_count := seg_len / XEX.sizeof_XEX2_Compression_Basic_Info S in
  pos + seg_len <= Z.of_nat (List.length f) ->
  (seg_len mod XEX.sizeof_XEX2_Compression_Basic_Info S = 0 ->
   exists st',
     XEX.load_basic_segments S fresh_byte fresh_segment f pos st =
       Done (Some st') /\
     let table := XEX.basicZDataSegments st' in
     let cbi := file_records S f pos (Z.to_nat seg_count) in
     List.length table = Z.to_nat seg_len /\
     List.length cbi = Z.to_nat seg_count /\
     (forall i c, cbi !! i = Some c ->
        exists seg,
          table !! i = Some seg /\
          XEX.length seg = be32_to_cpu (XEX.data_size c) /\
          u32 (XEX.physaddr seg) = u32 (data_before cbi i) /\
          u32 (XEX.vaddr seg) =
            u32 (data_before cbi i + zero_before cbi i)) /\
     (forall i, (Z.to_nat seg_count <= i < Z.to_nat seg_len)%nat ->
        table !! i =
        Some (default (fresh_segment i)
                (XEX.basicZDataSegments st !! i)))) /\
  (seg_len mod XEX.sizeof_XEX2_Compression_Basic_Info S <> 0 ->
   XEX.load_basic_segments S fresh_byte fresh_segment f pos st =
     OutOfBounds 0 seg_len
       (seg_count * XEX.sizeof_XEX2_Compression_Basic_Info S)).
Proof.
  intros Hsz Hpos Hsize seg_len seg_count Hin.
  assert (Hlen0 : 0 <= seg_len) by apply u32_nonneg.
  assert (Hraw : Z.of_nat (List.length (seekAndRead f pos seg_len)) = seg_len)
    by (rewrite seekAndRead_length by lia; lia).
  pose proof (Z.div_mod seg_len (XEX.sizeof_XEX2_Compression_Basic_Info S)
                ltac:(lia)) as Hdm.
  pose proof (Z.mod_pos_bound seg_len
                (XEX.sizeof_XEX2_Compression_Basic_Info S) Hsz) as Hmb.
  fold seg_count in Hdm.
  assert (Hc0 : 0 <= seg_count) by (apply Z.div_pos; lia).
  unfold XEX.load_basic_segments.
  replace (XEX.size (XEX.fileFormatInfo st) <=?
           XEX.sizeof_XEX2_File_Format_Info S) with false
    by (symmetry; apply Z.leb_gt; lia).
  fold seg_len. fold seg_count. cbv zeta. rewrite Hraw.
  split.
  - intros Hmod.
    assert (Hroom : seg_count * XEX.sizeof_XEX2_Compression_Basic_Info S =
                    seg_len) by lia.
    rewrite Hroom.
    replace (seg_len >? seg_len) with false
      by (symmetry; rewrite Z.gtb_ltb; apply Z.ltb_ge; lia).
    assert (Hcl : seg_count <= seg_len) by nia.
    eexists. split; [reflexivity|].
    cbn [XEX.basicZDataSegments XEX.set_basicZDataSegments].
    replace (Z.to_nat seg_len - List.length (seekAndRead f pos seg_len))%nat
      with 0%nat by lia.
    cbn [seq map]. rewrite app_nil_r.
    assert (Hrec :
      map (XEX.as_XEX2_Compression_Basic_Info S)
        (XEX.chunks (Z.to_nat seg_count)
           (Z.to_nat (XEX.sizeof_XEX2_Compression_Basic_Info S))
           (seekAndRead f pos seg_len)) =
      file_records S f pos (Z.to_nat seg_count)).
    { unfold file_records. rewrite Z2Nat.id by lia. rewrite Hroom.
      reflexivity. }
    rewrite Hrec.
    set (cbi := file_records S f pos (Z.to_nat seg_count)).
    assert (Hcbi : List.length cbi = Z.to_nat seg_count).
    { subst cbi. unfold file_records.
      rewrite length_map, chunks_length. reflexivity. }
    set (old := XEX.basicZDataSegments st).
    set (resized :=
      take (Z.to_nat seg_len) old ++
      map fresh_segment
        (seq (List.length old) (Z.to_nat seg_len - List.length old))).
    assert (Hres : List.length resized = Z.to_nat seg_len).
    { subst resized. rewrite length_app, length_take, length_map, length_seq.
      lia. }
    split; [|split; [exact Hcbi|split]].
    + rewrite length_app, basic_segments_length, length_drop, Hcbi, Hres.
      lia.
    + intros i c Hc.
      assert (Hi : (i < Z.to_nat seg_count)%nat)
        by (apply lookup_lt_Some in Hc; lia).
      destruct (XEX.basic_segments cbi 0 0 !! i) as [seg|] eqn:Hseg.
      2:{ apply lookup_ge_None in Hseg.
          rewrite basic_segments_length in Hseg. lia. }
      exists seg. rewrite lookup_app_l
        by (rewrite basic_segments_length; lia).
      split; [exact Hseg|].
      apply basic_segments_lookup in Hseg as ((c' & Hc' & Hl) & Hp & Hv).
      rewrite Hc in Hc'. injection Hc' as <-.
      rewrite !Z.add_0_l in *. auto.
    + intros i Hi.
      rewrite lookup_app_r by (rewrite basic_segments_length; lia).
      rewrite basic_segments_length, Hcbi, lookup_drop.
      replace (Z.to_nat seg_count + (i - Z.to_nat seg_count))%nat with i
        by lia.
      subst resized. apply resized_lookup. lia.
  - intros Hmod.
    replace (seg_len >?
             seg_count * XEX.sizeof_XEX2_Compression_Basic_Info S) with true
      by (symmetry; rewrite Z.gtb_ltb; apply Z.ltb_lt; lia).
    reflexivity.
Qed.

(** The loop of [initXDBF] stops at the first segment that holds the
    address. *)
Lemma segment_physaddr_first (segs : list XEX.BasicZDataSeg_t) :
  forall unassigned i seg addr,
    segs !! i = Some seg ->
    (forall j s, (j < i)%nat -> segs !! j = Some s -> ~ seg_holds s addr) ->
    seg_holds seg addr ->
    XEX.segment_physaddr (segs ++ unassigned) addr =
    u32 (addr - u32 (XEX.vaddr seg - XEX.physaddr seg)).
Proof.
  induction segs as [|s segs IH]; intros u i seg addr Hi Hbefore Hholds;
    [discriminate Hi|].
  cbn [app XEX.segment_physaddr]. destruct i as [|i].
  - injection Hi as <-. destruct Hholds as [H1 H2].
    replace (addr >=? XEX.vaddr s) with true
      by (symmetry; rewrite Z.geb_leb; apply Z.leb_le; exact H1).
    replace (addr <? u32 (XEX.vaddr s + XEX.length s)) with true
      by (symmetry; apply Z.ltb_lt; exact H2).
    reflexivity.
  - assert (Hs : ~ seg_holds s addr)
      by (apply (Hbefore 0%nat s); [lia | reflexivity]).
    destruct ((addr >=? XEX.vaddr s) &&
              (addr <? u32 (XEX.vaddr s + XEX.length s))) eqn:E.
    { exfalso. apply Hs. apply andb_true_iff in E as [E1 E2].
      rewrite Z.geb_leb in E1. apply Z.leb_le in E1. apply Z.ltb_lt in E2.
      split; assumption. }
    apply (IH u i seg addr Hi); [|exact Hholds].
    intros j s' Hj Hs'. apply (Hbefore (Datatypes.S j) s'); [lia | exact Hs'].
Qed.

(** X26.  The address translation of [initXDBF] for an image with basic
    compression.  When a segment of the table built by [initPeReader]
    holds the address and no segment before it does, the address is
    lowered, in 32 bits, by the zero padding of the records before that
    segment, whatever the table holds after the assigned segments.  When
    no assigned segment holds the address, the result is the one that the
    entries after them give. *)
Theorem zero_padding_removed
    (cbi : list XEX.XEX2_Compression_Basic_Info)
    (unassigned : list XEX.BasicZDataSeg_t) (addr : Z) :
  (forall i seg,
     XEX.basic_segments cbi 0 0 !! i = Some seg ->
     (forall j s, (j < i)%nat -> XEX.basic_segments cbi 0 0 !! j = Some s ->
                  ~ seg_holds s addr) ->
     seg_holds seg addr ->
     XEX.segment_physaddr (XEX.basic_segments cbi 0 0 ++ unassigned) addr =
     u32 (addr - zero_before cbi i)) /\
  (Forall (fun s => ~ seg_holds s addr) (XEX.basic_segments cbi 0 0) ->
   XEX.segment_physaddr (XEX.basic_segments cbi 0 0 ++ unassigned) addr =
   XEX.segment_physaddr unassigned addr).
Proof.
  split.
  - intros i seg Hi Hbefore Hholds.
    rewrite (segment_physaddr_first _ unassigned i seg addr Hi Hbefore Hholds).
    apply basic_segments_lookup in Hi as (_ & Hp & Hv).
    assert (Hz : u32 (XEX.vaddr seg - XEX.physaddr seg) =
                 u32 (zero_before cbi i)).
    { rewrite u32_sub, Hp, Hv, <- u32_sub. f_equal. lia. }
    rewrite Hz. apply u32_sub_r.
  - generalize (XEX.basic_segments cbi 0 0). intros segs Hnone.
    induction Hnone as [|s segs Hs _ IH]; [reflexivity|].
    cbn [app XEX.segment_physaddr].
    destruct ((addr >=? XEX.vaddr s) &&
              (addr <? u32 (XEX.vaddr s + XEX.length s))) eqn:E; [|exact IH].
    exfalso. apply Hs. apply andb_true_iff in E as [E1 E2].
    rewrite Z.geb_leb in E1. apply Z.leb_le in E1. apply Z.ltb_lt in E2.
    split; assumption.
Qed.

Lemma basic_segments_layout_witness :
  let st :=
    XEX.set_fileFormatInfo (XEX.mkFileFormatInfo 24 0 1)
      (XEX.Xbox360_XEX XEX.xex_structs (xex_compressed 0)) in
  (exists st',
     XEX.load_basic_segments XEX.xex_structs zero_byte zero_segment
       (xex_compressed 0) 40 st = Done (Some st') /\
     List.length (XEX.basicZDataSegments st') = 16%nat /\
     (exists seg,
        XEX.basicZDataSegments st' !! 1%nat = Some seg /\
        XEX.length seg = 8192 /\ u32 (XEX.physaddr seg) = 4096 /\
        u32 (XEX.vaddr seg) = 4608) /\
     XEX.basicZDataSegments st' !! 2%nat = Some (XEX.mkSeg 0 0 0)) /\
  XEX.load_basic_segments XEX.xex_structs zero_byte zero_segment
    (xex_compressed 4) 40
    (XEX.set_fileFormatInfo (XEX.mkFileFormatInfo 28 0 1)
       (XEX.Xbox360_XEX XEX.xex_structs (xex_compressed 4))) =
    OutOfBounds 0 20 16.
Proof.
  intros st. split.
  - destruct (proj1 (basic_segments_layout XEX.xex_structs zero_byte
                       zero_segment (xex_compressed 0) 40 st
                       ltac:(reflexivity) ltac:(discriminate)
                       ltac:(reflexivity) ltac:(vm_compute; discriminate))
                eq_refl)
      as (st' & Hload & Hlen & _ & Hrec & Hun).
    exists st'. split; [exact Hload|]. split; [exact Hlen|]. split.
    + exact (Hrec 1%nat (XEX.mkBasicInfo (cpu_to_be32 8192) 0)
               ltac:(vm_compute; reflexivity)).
    + exact (Hun 2%nat ltac:(vm_compute; lia)).
  - exact (proj2 (basic_segments_layout XEX.xex_structs zero_byte
                    zero_segment (xex_compressed 4) 40
                    (XEX.set_fileFormatInfo (XEX.mkFileFormatInfo 28 0 1)
                       (XEX.Xbox360_XEX XEX.xex_structs (xex_compressed 4)))
                    ltac:(reflexivity) ltac:(discriminate)
                    ltac:(reflexivity) ltac:(vm_compute; discriminate))
             ltac:(vm_compute; discriminate)).
Defined.

(** ** The XEX object: constructor, PE reader and embedded XDBF *)

Lemma xex_chunks_take (n size : nat) (f : list Z) (pos : nat) (i : nat) :
  (i < n)%nat ->
  XEX.chunks n size (take (n * size) (drop pos f)) !! i =
  Some (take size (drop (pos + i * size) f)).
Proof.
  intros Hi. rewrite chunks_lookup by exact Hi. f_equal.
  rewrite skipn_firstn_comm, take_take, drop_drop. f_equal. nia.
Qed.

(** X27.  The object that the constructor of the XEX class builds.
    Either the file is open, and then the object is valid, the header
    carries the XEX2 magic as stored in the file, and the table of
    optional headers holds the first [min(opt_header_count, 32)] entries
    of the table of the file, in order; or the file is closed, the table
    is empty and the magic is cleared.  In both cases no PE reader exists,
    no key is in use and the segment table is empty. *)
Theorem xex_constructor_table (S : XEX.Structs) (f : list Z) :
  0 <= XEX.sizeof_XEX2_Header S ->
  0 <= XEX.sizeof_XEX2_Optional_Header_Tbl S ->
  let st := XEX.Xbox360_XEX S f in
  match XEX.file st with
  | Some f' =>
      f' = f /\ XEX.isValid st = true /\
      XEX.magic (XEX.xex2Header st) = cpu_to_be32 (XEX.XEX2_MAGIC S) /\
      List.length (XEX.optHdrTbl st) =
        Z.to_nat (Z.min (XEX.opt_header_count (XEX.xex2Header st)) 32) /\
      (forall i, (i < List.length (XEX.optHdrTbl st))%nat ->
         XEX.optHdrTbl st !! i = Some (file_opt_header S f i))
  | None =>
      XEX.optHdrTbl st = [] /\ XEX.magic (XEX.xex2Header st) = 0
  end /\
  XEX.peReader st = None /\ XEX.keyInUse st = -1 /\
  XEX.basicZDataSegments st = [].
Proof.
  intros Hhdr Hsz st. subst st. unfold XEX.Xbox360_XEX.
  destruct (negb (Z.of_nat (List.length
              (seekAndRead f 0 (XEX.sizeof_XEX2_Header S))) =?
            XEX.sizeof_XEX2_Header S)); [cbn; auto|].
  destruct (negb (XEX.isRomSupported_static S _ >=? 0)) eqn:D; [cbn; auto|].
  cbv zeta.
  destruct (negb (Z.of_nat (List.length (seekAndRead f _
              (XEX.sizeof_XEX2_Security_Info S))) =? _)); [cbn; auto|].
  set (count := be32_to_cpu
                  (XEX.opt_header_count
                     (XEX.as_XEX2_Header S
                        (seekAndRead f 0 (XEX.sizeof_XEX2_Header S))))).
  assert (Hcount : 0 <= count) by (apply bswap_nonneg).
  destruct (negb (Z.of_nat (List.length (seekAndRead f _ _)) =? _)) eqn:Ht;
    [cbn; auto|].
  cbn [XEX.file XEX.isValid XEX.xex2Header XEX.magic XEX.optHdrTbl
       XEX.opt_header_count XEX.peReader XEX.keyInUse
       XEX.basicZDataSegments].
  fold count.
  split; [|auto]. split; [reflexivity|]. split; [reflexivity|].
  split; [|split].
  - revert D. unfold XEX.isRomSupported_static.
    cbn [RomData.header_pData RomData.header_addr RomData.header_size].
    destruct (negb (0 =? 0) || _); [discriminate|].
    destruct (XEX.magic _ =? cpu_to_be32 (XEX.XEX2_MAGIC S)) eqn:M;
      [|discriminate].
    intros _. apply Z.eqb_eq in M. exact M.
  - rewrite length_map, chunks_length. reflexivity.
  - rewrite length_map, chunks_length. intros i Hi.
    rewrite list_lookup_fmap. unfold seekAndRead.
    replace (XEX.sizeof_XEX2_Header S <? 0) with false
      by (symmetry; apply Z.ltb_ge; lia).
    replace (Z.min count 32 * XEX.sizeof_XEX2_Optional_Header_Tbl S <? 0)
      with false by (symmetry; apply Z.ltb_ge; nia).
    cbn [orb].
    replace (Z.to_nat (Z.min count 32 *
                       XEX.sizeof_XEX2_Optional_Header_Tbl S))
      with (Z.to_nat (Z.min count 32) *
            Z.to_nat (XEX.sizeof_XEX2_Optional_Header_Tbl S))%nat by nia.
    rewrite xex_chunks_take by exact Hi. reflexivity.
Qed.

Lemma xex_constructor_table_witness :
  let st := XEX.Xbox360_XEX XEX.xex_structs xex_33_headers in
  match XEX.file st with
  | Some f' =>
      f' = xex_33_headers /\ XEX.isValid st = true /\
      XEX.magic (XEX.xex2Header st) =
        cpu_to_be32 (XEX.XEX2_MAGIC XEX.xex_structs) /\
      List.length (XEX.optHdrTbl st) =
        Z.to_nat (Z.min (XEX.opt_header_count (XEX.xex2Header st)) 32) /\
      (forall i, (i < List.length (XEX.optHdrTbl st))%nat ->
         XEX.optHdrTbl st !! i =
         Some (file_opt_header XEX.xex_structs xex_33_headers i))
  | None =>
      XEX.optHdrTbl st = [] /\ XEX.magic (XEX.xex2Header st) = 0
  end /\
  XEX.peReader st = None /\ XEX.keyInUse st = -1 /\
  XEX.basicZDataSegments st = [].
Proof.
  exact (xex_constructor_table XEX.xex_structs xex_33_headers
           ltac:(vm_compute; discriminate) ltac:(vm_compute; discriminate)).
Defined.

Section XEXReader.

Variable S : XEX.Structs.
Variable R : XEX.ResourceStructs.
Variable ENABLE_DECRYPTION : bool.
Variable getAndVerify_retail : XEX.VerifyResult * list Z.
Variable cipher_setKey : list Z -> Z.
Variable cipher_setChainingMode_CBC : Z.
Variable cipher_decrypt : list Z -> list Z -> list Z -> list Z * Z.
Variable CBCReader_isOpen : XEX.CBCReader -> bool.
Variable CBCReader_read : XEX.CBCReader -> Z -> list Z * XEX.CBCReader.
Variable fresh_byte : nat -> Z.
Variable fresh_segment : nat -> XEX.BasicZDataSeg_t.
Variable PartitionFile : Type.
Variable PartitionFile_new :
  option XEX.CBCReader -> Z -> Z -> PartitionFile.
Variable PartitionFile_isOpen : PartitionFile -> bool.
Variable Xbox360_XDBF : Type.
Variable Xbox360_XDBF_new : PartitionFile -> Xbox360_XDBF.
Variable Xbox360_XDBF_isOpen : Xbox360_XDBF -> bool.

Local Abbreviation load_format_info :=
  (XEX.load_format_info S fresh_byte fresh_segment).
Local Abbreviation open_pe_reader :=
  (XEX.open_pe_reader S ENABLE_DECRYPTION getAndVerify_retail cipher_setKey
     cipher_setChainingMode_CBC cipher_decrypt CBCReader_isOpen
     CBCReader_read).
Local Abbreviation initPeReader :=
  (XEX.initPeReader S ENABLE_DECRYPTION getAndVerify_retail cipher_setKey
     cipher_setChainingMode_CBC cipher_decrypt CBCReader_isOpen
     CBCReader_read fresh_byte fresh_segment).
Local Abbreviation Embedded := (XEX.Embedded PartitionFile Xbox360_XDBF).
Local Abbreviation initXDBF :=
  (XEX.initXDBF S R ENABLE_DECRYPTION getAndVerify_retail cipher_setKey
     cipher_setChainingMode_CBC cipher_decrypt CBCReader_isOpen
     CBCReader_read fresh_byte fresh_segment PartitionFile PartitionFile_new
     PartitionFile_isOpen Xbox360_XDBF Xbox360_XDBF_new
     Xbox360_XDBF_isOpen).

(** The last part of [initPeReader] keeps the reader that it returns. *)
Lemma open_pe_reader_pointer (f : list Z) (st2 : XEX.State) :
  XEX.peReader st2 = None ->
  XEX.peReader (snd (open_pe_reader f st2)) = fst (open_pe_reader f st2).
Proof.
  intros Hnone. unfold XEX.open_pe_reader.
  repeat match goal with
         | |- context [match ?x with _ => _ end] =>
             lazymatch x with
             | context [match _ with _ => _ end] => fail
             | _ => destruct x eqn:?
             end
         end; cbn [fst snd XEX.peReader XEX.set_peReader XEX.set_keyInUse];
    first [exact Hnone | reflexivity].
Qed.

(** The first part of [initPeReader] calls through the null file pointer
    exactly when the table has a file format info entry and the file is
    closed. *)
Lemma load_format_info_null (st : XEX.State) :
  fst (load_format_info st) = NullDeref <->
  XEX.file st = None /\
  is_Some (XEX.getOptHdrTblEntry st (XEX.XEX2_OPTHDR_FILE_FORMAT_INFO S)).
Proof.
  unfold XEX.load_format_info.
  destruct (XEX.getOptHdrTblEntry st _) as [entry|].
  2:{ cbn. split; [discriminate | intros [_ [x Hx]]; discriminate Hx]. }
  destruct (XEX.file st) as [f|].
  2:{ cbn. split; [eauto | reflexivity]. }
  assert (Hno : forall pos s,
            XEX.load_basic_segments S fresh_byte fresh_segment f pos s <>
            NullDeref).
  { intros pos s. unfold XEX.load_basic_segments.
    repeat match goal with
           | |- context [if ?c then _ else _] => destruct c
           end; discriminate. }
  split; [|intros [H _]; discriminate H].
  destruct (negb _); [discriminate|]. cbv zeta.
  destruct (_ =? XEX.XEX2_COMPRESSION_TYPE_BASIC S); [|discriminate].
  match goal with
  | |- context [XEX.load_basic_segments S fresh_byte fresh_segment f ?p ?s] =>
      specialize (Hno p s);
        destruct (XEX.load_basic_segments S fresh_byte fresh_segment f p s)
        as [[?|]| |]
  end; cbn [fst]; try discriminate. contradiction.
Qed.

Lemma initPeReader_pointer (st : XEX.State) (p : option XEX.CBCReader) :
  fst (initPeReader st) = Done p -> XEX.peReader (snd (initPeReader st)) = p.
Proof.
  unfold XEX.initPeReader.
  destruct (XEX.peReader st) as [r|] eqn:Hr.
  { cbn [fst snd]. intros H. injection H as <-. exact Hr. }
  pose proof (load_format_info_frame S fresh_byte fresh_segment st) as Hfr.
  destruct (load_format_info st) as [[[f|]| |] st1];
    specialize (Hfr st1 _ eq_refl);
    destruct Hfr as (_ & _ & _ & _ & _ & _ & Hp & _);
    rewrite Hr in Hp; try discriminate.
  - pose proof (open_pe_reader_pointer f st1 Hp) as Hopen.
    destruct (open_pe_reader f st1) as [reader st3]. cbn [fst snd] in *.
    intros H. injection H as <-. exact Hopen.
  - cbn [fst snd]. intros H. injection H as <-. exact Hp.
Qed.

(** X28.  [initPeReader] memoizes the reader: when a call returns, the
    reader pointer of the object is the pointer returned, so that a
    reader once returned is returned again by every later call, which
    leaves the object as it is, and a call that returns null leaves the
    object without a reader.  The function reads the file format info
    through the file pointer without a test: it calls through the null
    pointer exactly when the object has no reader, its file is closed and
    its table of optional headers has a file format info entry. *)
Theorem initPeReader_memoizes (st : XEX.State) :
  (forall p, fst (initPeReader st) = Done p ->
     XEX.peReader (snd (initPeReader st)) = p) /\
  (forall r, fst (initPeReader st) = Done (Some r) ->
     initPeReader (snd (initPeReader st)) =
       (Done (Some r), snd (initPeReader st))) /\
  (fst (initPeReader st) = NullDeref <->
   XEX.peReader st = None /\ XEX.file st = None /\
   is_Some (XEX.getOptHdrTblEntry st (XEX.XEX2_OPTHDR_FILE_FORMAT_INFO S))).
Proof.
  split; [exact (initPeReader_pointer st)|]. split.
  - intros r Hr. pose proof (initPeReader_pointer st _ Hr) as Hp.
    unfold XEX.initPeReader at 1. rewrite Hp. reflexivity.
  - pose proof (load_format_info_null st) as Hnull.
    unfold XEX.initPeReader.
    destruct (XEX.peReader st) as [r|].
    { cbn [fst]. split; [discriminate | intros [H _]; discriminate H]. }
    destruct (load_format_info st) as [[[f|]| |] st1]; cbn [fst] in *.
    + destruct (open_pe_reader f st1). cbn [fst].
      split; [discriminate|]. intros [_ H]. apply Hnull in H. discriminate H.
    + split; [discriminate|]. intros [_ H]. apply Hnull in H. discriminate H.
    + split; [discriminate|]. intros [_ H]. apply Hnull in H. discriminate H.
    + split; [intros _; split; [reflexivity|]; apply Hnull; reflexivity|].
      reflexivity.
Qed.

(** X29.  [initXDBF] memoizes the embedded XDBF and keeps the two
    resource pointers of the object in step.  When a call returns, the
    member [pe_xdbf] is the pointer returned, and an XDBF once returned is
    returned again by a later call, which leaves the object as it is.
    On an object that holds no resources, [peFile] and [pe_xdbf] are set
    together or not at all: when they are set, the XDBF is open and was
    constructed on the partition file, which is open and was constructed
    over the reader that the object keeps.  When [initPeReader] returns
    null, so does [initXDBF], and it leaves the object as [initPeReader]
    leaves it. *)
Theorem initXDBF_memoizes (em : Embedded) (st : XEX.State) :
  let r := initXDBF em st in
  (forall p, fst r = Done p -> XEX.pe_xdbf _ _ (fst (snd r)) = p) /\
  (forall x, fst r = Done (Some x) ->
     initXDBF (fst (snd r)) (snd (snd r)) = (Done (Some x), snd r)) /\
  (XEX.pe_xdbf _ _ em = None -> XEX.peFile _ _ em = None ->
   match XEX.pe_xdbf _ _ (fst (snd r)), XEX.peFile _ _ (fst (snd r)) with
   | Some x, Some pf =>
       x = Xbox360_XDBF_new pf /\ Xbox360_XDBF_isOpen x = true /\
       PartitionFile_isOpen pf = true /\
       is_Some (XEX.peReader (snd (snd r))) /\
       exists addr len,
         pf = PartitionFile_new (XEX.peReader (snd (snd r))) addr len
   | None, None => True
   | _, _ => False
   end) /\
  (XEX.pe_xdbf _ _ em = None -> fst (initPeReader st) = Done None ->
   r = (Done None, (em, snd (initPeReader st)))).
Proof.
  intros r.
  assert (Hptr : forall p, fst r = Done p ->
            XEX.pe_xdbf _ _ (fst (snd r)) = p).
  { subst r. unfold XEX.initXDBF.
    destruct (XEX.pe_xdbf _ _ em) as [x|] eqn:Hx.
    { cbn [fst snd]. intros p H. injection H as <-. exact Hx. }
    repeat match goal with
           | |- context [match ?x with _ => _ end] =>
               lazymatch x with
               | context [match _ with _ => _ end] => fail
               | _ => destruct x eqn:?
               end
           end; cbn [fst snd XEX.pe_xdbf]; intros p H;
      try discriminate H; injection H as <-; first [exact Hx | reflexivity]. }
  split; [exact Hptr|]. split; [|split].
  - intros x Hx. pose proof (Hptr _ Hx) as Hp.
    destruct (snd r) as [em' st'] eqn:E. cbn [fst snd] in *.
    unfold XEX.initXDBF. rewrite Hp. reflexivity.
  - intros Hx Hf. clear Hptr. subst r.
    destruct (initXDBF em st) as [o [em' st']] eqn:E. cbn [fst snd].
    unfold XEX.initXDBF in E. rewrite Hx in E.
    pose proof (initPeReader_pointer st) as Hrd.
    destruct (initPeReader st) as [[[rd|]| |] st1]; cbn [fst snd] in *;
      try (injection E as <- <- <-; rewrite Hx, Hf; exact I).
    specialize (Hrd _ eq_refl).
    repeat match type of E with
           | context [match ?x with _ => _ end] =>
               lazymatch x with
               | context [match _ with _ => _ end] => fail
               | _ => destruct x eqn:?
               end
           end; injection E as <- <- <-; cbn [XEX.pe_xdbf XEX.peFile];
      try (rewrite Hx, Hf; exact I);
      (repeat split; try assumption; try reflexivity;
       [rewrite Hrd; eauto | eexists _, _; reflexivity]).
  - intros Hx Hnull. subst r. unfold XEX.initXDBF. rewrite Hx.
    destruct (initPeReader st) as [[[rd|]| |] st1]; cbn [fst snd] in *;
      try discriminate Hnull.
    reflexivity.
Qed.

End XEXReader.


(** ** The achievements loop within the cap *)

(** X30.  [addFields_achievements] completes whenever the header of the
    XACH resource declares at most 512 achievements: the count is then
    limited by the records that the resource holds, and the loop over the
    records stays inside the buffer. *)
Theorem achievements_within_cap_complete (S : XDBF.Structs)
    (rp_image : Type) (RpPng_load : list Z -> option rp_image)
    (getXbox360Language : Z) (dos2unix : list Z -> list Z)
    (st : XDBF.State rp_image) :
  0 < XDBF.sizeof_XDBF_XACH_Entry S ->
  0 <= XDBF.sizeof_XDBF_XACH_Header S < 2 ^ 32 ->
  (forall entry f,
     XDBF.findResource rp_image st (XDBF.XDBF_SPA_NAMESPACE_METADATA S)
       (XDBF.XDBF_XACH_MAGIC S) = Some entry ->
     XDBF.file rp_image st = Some f ->
     be16_to_cpu
       (XDBF.achievement_count
          (XDBF.as_XDBF_XACH_Header S
             (seekAndRead f (XDBF.resource_addr rp_image st entry)
                (XDBF.resource_length entry)))) <= 512) ->
  exists r,
    fst (XDBF.addFields_achievements S rp_image RpPng_load
           getXbox360Language dos2unix st) = Done r.
Proof.
  intros Hent Hhdr Hcount.
  unfold XDBF.addFields_achievements, XDBF.file_read.
  destruct (XDBF.entryTable rp_image st); [|eexists; reflexivity].
  destruct (XDBF.file rp_image st) as [f|] eqn:Hfile; [|eexists; reflexivity].
  destruct (negb (XDBF.isValid rp_image st)); [eexists; reflexivity|].
  destruct (XDBF.findResource rp_image st _ _) as [entry|] eqn:Hentry;
    [|eexists; reflexivity].
  specialize (Hcount entry f eq_refl eq_refl).
  unfold XDBF.resource_addr, XDBF.resource_length in Hcount.
  destruct ((be32_to_cpu (XDBF.length entry) <? XDBF.XACH_MIN_SIZE S) ||
            (be32_to_cpu (XDBF.length entry) >? XDBF.XACH_MAX_SIZE S))
    eqn:Hsize; [eexists; reflexivity|].
  apply orb_false_iff in Hsize as [Hmin _]. apply Z.ltb_ge in Hmin.
  unfold XDBF.XACH_MIN_SIZE, u32 in Hmin.
  rewrite Z.mod_small in Hmin by lia.
  destruct (negb (Z.of_nat (List.length _) =? _)) eqn:Hfull;
    [eexists; reflexivity|].
  apply negb_false_iff in Hfull. apply Z.eqb_eq in Hfull.
  destruct (negb _ || negb _); [eexists; reflexivity|].
  cbv zeta.
  match goal with
  | |- context [XDBF.getLangID S rp_image getXbox360Language ?s] =>
      destruct (getLangID_returns S rp_image getXbox360Language s)
        as [langID Hlang];
        [cbn [XDBF.file XDBF.log_read]; rewrite Hfile; discriminate|];
      destruct (XDBF.getLangID S rp_image getXbox360Language s)
        as [o st2]; cbn [fst] in Hlang; subst o
  end.
  rewrite xach_count_within_cap by assumption.
  set (len := be32_to_cpu (XDBF.length entry)) in *.
  set (buf := seekAndRead f _ len) in *.
  set (n := Z.to_nat (Z.min _ _)).
  destruct (xach_loop_in_bounds S rp_image RpPng_load dos2unix buf langID n
              ltac:(lia) (XDBF.sizeof_XDBF_XACH_Header S) st2)
    as (ld & st3 & Hloop & _).
  { rewrite Hfull. subst n.
    assert (Hq : 0 <= (len - XDBF.sizeof_XDBF_XACH_Header S) /
                      XDBF.sizeof_XDBF_XACH_Entry S)
      by (apply Z.div_pos; lia).
    pose proof (Z.mul_div_le (len - XDBF.sizeof_XDBF_XACH_Header S)
                  (XDBF.sizeof_XDBF_XACH_Entry S) Hent) as Hle.
    revert Hq Hle.
    generalize ((len - XDBF.sizeof_XDBF_XACH_Header S) /
                XDBF.sizeof_XDBF_XACH_Entry S).
    intros q Hq Hle. rewrite Z.mul_comm in Hle.
    pose proof (bswap_nonneg 2
                  (XDBF.achievement_count (XDBF.as_XDBF_XACH_Header S buf)))
      as Hc0.
    fold (be16_to_cpu
            (XDBF.achievement_count (XDBF.as_XDBF_XACH_Header S buf))) in Hc0.
    revert Hc0.
    generalize (be16_to_cpu
                  (XDBF.achievement_count (XDBF.as_XDBF_XACH_Header S buf))).
    intros c Hc0.
    rewrite Z2Nat.id by lia.
    assert (Hmul : Z.min c q * XDBF.sizeof_XDBF_XACH_Entry S <=
                   q * XDBF.sizeof_XDBF_XACH_Entry S)
      by (apply Z.mul_le_mono_nonneg_r; lia).
    lia. }
  rewrite Hloop. eexists. reflexivity.
Qed.

Lemma achievements_within_cap_complete_witness :
  exists r,
    fst (XDBF.addFields_achievements XDBF.xdbf_structs unit (fun _ => None) 1
           (fun s => s) xach_obj) = Done r.
Proof.
  apply (achievements_within_cap_complete XDBF.xdbf_structs unit
           (fun _ => None) 1 (fun s => s) xach_obj).
  - reflexivity.
  - vm_compute. split; [discriminate | reflexivity].
  - intros entry f He Hf. vm_compute in He. vm_compute in Hf.
    injection He as <-. injection Hf as <-. vm_compute. discriminate.
Defined.
